(** * Bug-Trackr: the collection-store adapter layer

    A shallow embedding of the three repositories of
    [backend/repositories] (bug, comment and activity log) together with
    the fragments of Python's [datetime] and [json] modules they rely on,
    and the properties of the adapter proved over that embedding.

    Layout: Python's [datetime], the Python values, [json], sorting,
    the effect monad with the log, the clock and the store client, the
    model classes, the three repositories, the vocabulary of the
    statements and some sample data; then the lemmas and theorems, in
    the same order. *)

From Stdlib Require Import ZArith List String Ascii Bool Lia.
From Stdlib Require Import Permutation Sorted.
Import ListNotations.
Local Open Scope string_scope.
Local Open Scope Z_scope.

(** ** Python's [datetime]

    A [datetime] object is its calendar fields plus an optional fixed
    offset from UTC, counted in minutes ([None] for a naive value). *)

Record datetime := mk_datetime {
  year : Z; month : Z; day : Z;
  hour : Z; minute : Z; second : Z; microsecond : Z;
  tzinfo : option Z }.

Definition utc : option Z := Some 0.

Definition is_leap (y : Z) : bool :=
  (y mod 4 =? 0) && (negb (y mod 100 =? 0) || (y mod 400 =? 0)).

Definition days_in_month (y m : Z) : Z :=
  if m =? 2 then (if is_leap y then 29 else 28)
  else if (m =? 4) || (m =? 6) || (m =? 9) || (m =? 11) then 30 else 31.

Definition days_before_year (y : Z) : Z :=
  let p := y - 1 in p * 365 + p / 4 - p / 100 + p / 400.

Fixpoint days_before_month_aux (y : Z) (n : nat) : Z :=
  match n with
  | O => 0
  | S k => days_before_month_aux y k + days_in_month y (Z.of_nat n)
  end.

Definition days_before_month (y m : Z) : Z :=
  days_before_month_aux y (Z.to_nat (m - 1)).

Definition toordinal (d : datetime) : Z :=
  days_before_year (year d) + days_before_month (year d) (month d) + day d.

Definition in_range (lo x hi : Z) : bool := (lo <=? x) && (x <=? hi).

(** The range checks of the [datetime] constructor. *)
Definition dt_valid (d : datetime) : bool :=
  in_range 1 (year d) 9999 && in_range 1 (month d) 12 &&
  in_range 1 (day d) (days_in_month (year d) (month d)) &&
  in_range 0 (hour d) 23 && in_range 0 (minute d) 59 &&
  in_range 0 (second d) 59 && in_range 0 (microsecond d) 999999 &&
  match tzinfo d with
  | None => true
  | Some off => in_range (-1439) off 1439
  end.

Definition utcoffset (d : datetime) : Z :=
  match tzinfo d with Some off => off | None => 0 end.

(** Microseconds since the start of the proleptic calendar, after
    subtracting the UTC offset: the quantity two aware values are
    compared by (and two naive ones, with offset 0). *)
Definition utc_micros (d : datetime) : Z :=
  (((toordinal d * 24 + hour d) * 60 + minute d - utcoffset d) * 60
   + second d) * 1000000 + microsecond d.

(** [created_at.replace(tzinfo=timezone.utc)] *)
Definition replace_tzinfo (d : datetime) (tz : option Z) : datetime :=
  mk_datetime (year d) (month d) (day d) (hour d) (minute d) (second d)
              (microsecond d) tz.

(** [if d.tzinfo is None: d = d.replace(tzinfo=timezone.utc)] *)
Definition ensure_aware (d : datetime) : datetime :=
  match tzinfo d with
  | None => replace_tzinfo d utc
  | Some _ => d
  end.

(** *** [isoformat] *)

Definition digit (n : Z) : ascii := ascii_of_nat (48 + Z.to_nat n).

Definition pad2 (n : Z) : string :=
  String (digit (n / 10)) (String (digit (n mod 10)) "").

Definition pad4 (n : Z) : string := pad2 (n / 100) ++ pad2 (n mod 100).

Definition pad6 (n : Z) : string :=
  pad2 (n / 10000) ++ pad2 (n / 100 mod 100) ++ pad2 (n mod 100).

Definition format_offset (off : Z) : string :=
  (if off <? 0 then "-" else "+")
    ++ pad2 (Z.abs off / 60) ++ ":" ++ pad2 (Z.abs off mod 60).

Definition isoformat (d : datetime) : string :=
  pad4 (year d) ++ "-" ++ pad2 (month d) ++ "-" ++ pad2 (day d) ++ "T"
    ++ pad2 (hour d) ++ ":" ++ pad2 (minute d) ++ ":" ++ pad2 (second d)
    ++ (if microsecond d =? 0 then "" else "." ++ pad6 (microsecond d))
    ++ match tzinfo d with None => "" | Some off => format_offset off end.

(** *** [fromisoformat]

    The grammar of Python 3.7 to 3.10, which accepts what [isoformat]
    emits: [YYYY-MM-DD], then optionally any one separator character and
    [HH[:MM[:SS[.fff[fff]]]]], then optionally [+HH:MM] or [-HH:MM]. *)

Definition digit_val (c : ascii) : option Z :=
  let n := Z.of_nat (nat_of_ascii c) in
  if in_range 48 n 57 then Some (n - 48) else None.

Definition read2 (s : string) : option (Z * string) :=
  match s with
  | String a (String b r) =>
      match digit_val a, digit_val b with
      | Some x, Some y => Some (10 * x + y, r)
      | _, _ => None
      end
  | _ => None
  end.

Definition read4 (s : string) : option (Z * string) :=
  match read2 s with
  | Some (hi, r) =>
      match read2 r with
      | Some (lo, r') => Some (100 * hi + lo, r')
      | None => None
      end
  | None => None
  end.

Definition read3 (s : string) : option (Z * string) :=
  match s with
  | String a r =>
      match digit_val a, read2 r with
      | Some x, Some (y, r') => Some (100 * x + y, r')
      | _, _ => None
      end
  | _ => None
  end.

Definition expect (c : ascii) (s : string) : option string :=
  match s with
  | String a r => if Ascii.eqb a c then Some r else None
  | EmptyString => None
  end.

Definition is_sign (c : ascii) : bool := Ascii.eqb c "+" || Ascii.eqb c "-".

(** The UTC offset suffix: empty, or a sign and [HH:MM]; the range of
    the offset is checked with the other fields. *)
Definition parse_tz (s : string) : option (option Z) :=
  match s with
  | EmptyString => Some None
  | String c r =>
      if is_sign c then
        match read2 r with
        | Some (h, r1) =>
            match expect ":" r1 with
            | Some r2 =>
                match read2 r2 with
                | Some (m, EmptyString) =>
                    Some (Some ((if Ascii.eqb c "-" then -1 else 1)
                                * (h * 60 + m)))
                | _ => None
                end
            | None => None
            end
        | None => None
        end
      else None
  end.

Definition starts_tz (s : string) : bool :=
  match s with
  | EmptyString => true
  | String c _ => is_sign c
  end.

(** The fraction: [.fff] or [.ffffff], then the offset. *)
Definition parse_fraction (s : string) : option (Z * option Z) :=
  match s with
  | String "." r =>
      match read3 r with
      | Some (ms, r1) =>
          if starts_tz r1 then
            match parse_tz r1 with
            | Some tz => Some (ms * 1000, tz)
            | None => None
            end
          else
            match read3 r1 with
            | Some (us, r2) =>
                match parse_tz r2 with
                | Some tz => Some (ms * 1000 + us, tz)
                | None => None
                end
            | None => None
            end
      | None => None
      end
  | _ => match parse_tz s with
         | Some tz => Some (0, tz)
         | None => None
         end
  end.

(** [HH[:MM[:SS[.fff[fff]]]]] and the offset:
    hour, minute, second, microsecond, tzinfo. *)
Definition parse_time (s : string) : option (Z * Z * Z * Z * option Z) :=
  match read2 s with
  | Some (h, r1) =>
      match r1 with
      | String ":" r2 =>
          match read2 r2 with
          | Some (mi, r3) =>
              match r3 with
              | String ":" r4 =>
                  match read2 r4 with
                  | Some (sec, r5) =>
                      match parse_fraction r5 with
                      | Some (us, tz) => Some (h, mi, sec, us, tz)
                      | None => None
                      end
                  | None => None
                  end
              | _ => match parse_tz r3 with
                     | Some tz => Some (h, mi, 0, 0, tz)
                     | None => None
                     end
              end
          | None => None
          end
      | _ => match parse_tz r1 with
             | Some tz => Some (h, 0, 0, 0, tz)
             | None => None
             end
      end
  | None => None
  end.

Definition parse_isoformat (s : string) : option datetime :=
  match read4 s with
  | Some (y, r1) =>
      match expect "-" r1 with
      | Some r2 =>
          match read2 r2 with
          | Some (m, r3) =>
              match expect "-" r3 with
              | Some r4 =>
                  match read2 r4 with
                  | Some (d, r5) =>
                      match r5 with
                      | EmptyString => Some (mk_datetime y m d 0 0 0 0 None)
                      | String _ t =>
                          match parse_time t with
                          | Some (h, mi, sec, us, tz) =>
                              Some (mk_datetime y m d h mi sec us tz)
                          | None => None
                          end
                      end
                  | None => None
                  end
              | None => None
              end
          | None => None
          end
      | None => None
      end
  | None => None
  end.


(** ** Python values, exceptions and results

    The values a collection item or a decoded JSON document can hold.  A
    [dict] with string keys is an association list in insertion order;
    [str] is a sequence of characters with code below 256; a [float] is
    carried as its literal. *)

Unset Elimination Schemes.
Inductive pyval :=
| PNone
| PBool (b : bool)
| PInt (z : Z)
| PFloat (lit : string)
| PStr (s : string)
| PList (l : list pyval)
| PDict (d : list (string * pyval))
| PDatetime (d : datetime).
Set Elimination Schemes.

(** The exceptions the modelled code can raise.  A [ValueError] built
    from an f-string keeps the template and the interpolated values. *)
Inductive exn :=
| JSONDecodeError (msg : string)
| ValueError (template : string) (args : list pyval)
| AttributeError (msg : string)
| TypeError (msg : string)
| KeyError (key : string)
| ValidationError (field : string)
| StoreError (msg : string).

Inductive result (A : Type) :=
| Ok (a : A)
| Raise (e : exn).
Arguments Ok {A} a.
Arguments Raise {A} e.

(** [datetime.fromisoformat]: the grammar above, then the constructor's
    range checks; [ValueError] otherwise. *)
Definition fromisoformat (s : string) : result datetime :=
  match parse_isoformat s with
  | Some d =>
      if dt_valid d then Ok d
      else Raise (ValueError "datetime field out of range" [])
  | None => Raise (ValueError "Invalid isoformat string: {s}" [PStr s])
  end.

(** [a < b] on [datetime]: naive against aware raises [TypeError]. *)
Definition comparable (a b : datetime) : bool :=
  match tzinfo a, tzinfo b with
  | None, None | Some _, Some _ => true
  | _, _ => false
  end.

Definition dt_ltb (a b : datetime) : bool := utc_micros a <? utc_micros b.

Definition dt_lt (a b : datetime) : result bool :=
  if comparable a b then Ok (dt_ltb a b)
  else Raise (TypeError "can't compare offset-naive and offset-aware datetimes").

(** [type(v).__name__] *)
Definition type_name (v : pyval) : string :=
  match v with
  | PNone => "NoneType" | PBool _ => "bool" | PInt _ => "int"
  | PFloat _ => "float" | PStr _ => "str" | PList _ => "list"
  | PDict _ => "dict" | PDatetime _ => "datetime"
  end.

(** A float literal denotes zero when its mantissa has no digit 1..9. *)
Fixpoint float_lit_nonzero (s : string) : bool :=
  match s with
  | EmptyString => false
  | String c r =>
      if Ascii.eqb c "e" || Ascii.eqb c "E" then false
      else if Ascii.eqb c "N" || Ascii.eqb c "I" then true
      else if in_range 49 (Z.of_nat (nat_of_ascii c)) 57 then true
      else float_lit_nonzero r
  end.

(** Truth value testing, as in [if not description]. *)
Definition truthy (v : pyval) : bool :=
  match v with
  | PNone => false
  | PBool b => b
  | PInt z => negb (z =? 0)
  | PFloat lit => float_lit_nonzero lit
  | PStr s => negb (String.eqb s "")
  | PList l => match l with [] => false | _ => true end
  | PDict d => match d with [] => false | _ => true end
  | PDatetime _ => true
  end.

Fixpoint lookup (k : string) (d : list (string * pyval)) : option pyval :=
  match d with
  | [] => None
  | (k', v) :: r => if String.eqb k' k then Some v else lookup k r
  end.

(** [d[k] = v] on a dict: replace in place, or append. *)
Fixpoint dict_set (d : list (string * pyval)) (k : string) (v : pyval)
  : list (string * pyval) :=
  match d with
  | [] => [(k, v)]
  | (k', v') :: r =>
      if String.eqb k' k then (k, v) :: r else (k', v') :: dict_set r k v
  end.

(** [dict(pairs)]: a later pair with the same key overwrites. *)
Definition dict_of_pairs (ps : list (string * pyval))
  : list (string * pyval) :=
  fold_left (fun d kv => dict_set d (fst kv) (snd kv)) ps [].

(** [d.get(k, default)] on a dict. *)
Definition get_or (d : list (string * pyval)) (k : string) (default : pyval)
  : pyval :=
  match lookup k d with
  | Some v => v
  | None => default
  end.

Definition no_get (v : pyval) : exn :=
  AttributeError ("'" ++ type_name v ++ "' object has no attribute 'get'").

(** [o.get(k, default)] on any value; only a dict has the method. *)
Definition py_get (o : pyval) (k : string) (default : pyval) : result pyval :=
  match o with
  | PDict d => Ok (get_or d k default)
  | _ => Raise (no_get o)
  end.

(** [v == s] and [v != s] for a [str] [s]. *)
Definition eq_str (v : pyval) (s : string) : bool :=
  match v with
  | PStr s' => String.eqb s' s
  | _ => false
  end.

Definition ne_str (v : pyval) (s : string) : bool := negb (eq_str v s).

Definition is_str (v : pyval) : bool :=
  match v with PStr _ => true | _ => false end.

(** ** Python's [json]

    [json.dumps] with its default arguments ([ensure_ascii], separators
    [", "] and [": "]) and [json.loads] with the default decoder. *)

Definition dquote : ascii := ascii_of_nat 34.
Definition backslash : ascii := ascii_of_nat 92.

Definition hex_digit (n : nat) : ascii :=
  if Nat.ltb n 10 then ascii_of_nat (48 + n) else ascii_of_nat (87 + n).

Definition esc2 (c : ascii) : string := String backslash (String c "").

(** [ESCAPE_ASCII] and [ESCAPE_DCT] of [json.encoder]. *)
Definition escape_char (c : ascii) : string :=
  let n := nat_of_ascii c in
  if Nat.eqb n 34 then esc2 dquote
  else if Nat.eqb n 92 then esc2 backslash
  else if Nat.eqb n 10 then esc2 "n"
  else if Nat.eqb n 13 then esc2 "r"
  else if Nat.eqb n 9 then esc2 "t"
  else if Nat.eqb n 8 then esc2 "b"
  else if Nat.eqb n 12 then esc2 "f"
  else if Nat.leb 32 n && Nat.leb n 126 then String c ""
  else String backslash
         (String "u" (String "0" (String "0"
           (String (hex_digit (Nat.div n 16))
             (String (hex_digit (Nat.modulo n 16)) ""))))).

Fixpoint escape_string (s : string) : string :=
  match s with
  | EmptyString => ""
  | String c r => escape_char c ++ escape_string r
  end.

Definition dump_string (s : string) : string :=
  String dquote (escape_string s ++ String dquote "").

Fixpoint pos_digits (fuel : nat) (n : Z) (acc : string) : string :=
  match fuel with
  | O => acc
  | S f =>
      let acc' := String (digit (n mod 10)) acc in
      if n <? 10 then acc' else pos_digits f (n / 10) acc'
  end.

(** [str(n)] for an [int]. *)
Definition string_of_Z (z : Z) : string :=
  let body := pos_digits (S (Z.to_nat (Z.log2 (Z.abs z)))) (Z.abs z) "" in
  if z <? 0 then String "-" body else body.

Definition not_serializable (v : pyval) : exn :=
  TypeError ("Object of type " ++ type_name v ++ " is not JSON serializable").

Definition bind_result {A B} (r : result A) (k : A -> result B) : result B :=
  match r with
  | Ok a => k a
  | Raise e => Raise e
  end.

(** The elements of a list, and the members of a dict, joined by the
    item separator; [enc] encodes one value. *)
Definition encode_items (enc : pyval -> result string)
  : list pyval -> result string :=
  fix items (l : list pyval) : result string :=
    match l with
    | [] => Ok ""
    | x :: r =>
        bind_result (enc x) (fun a =>
        match r with
        | [] => Ok a
        | _ => bind_result (items r) (fun b => Ok (a ++ ", " ++ b))
        end)
    end.

Definition encode_members (enc : pyval -> result string)
  : list (string * pyval) -> result string :=
  fix members (d : list (string * pyval)) : result string :=
    match d with
    | [] => Ok ""
    | (k, x) :: r =>
        bind_result (enc x) (fun a =>
        let m := dump_string k ++ ": " ++ a in
        match r with
        | [] => Ok m
        | _ => bind_result (members r) (fun b => Ok (m ++ ", " ++ b))
        end)
    end.

Fixpoint json_encode (v : pyval) : result string :=
  match v with
  | PNone => Ok "null"
  | PBool true => Ok "true"
  | PBool false => Ok "false"
  | PInt z => Ok (string_of_Z z)
  | PFloat lit => Ok lit
  | PStr s => Ok (dump_string s)
  | PList l =>
      bind_result (encode_items json_encode l)
                  (fun body => Ok ("[" ++ body ++ "]"))
  | PDict d =>
      bind_result (encode_members json_encode d)
                  (fun body => Ok ("{" ++ body ++ "}"))
  | PDatetime _ => Raise (not_serializable v)
  end.

(** [json.dumps(v)] *)
Definition json_dumps (v : pyval) : result string := json_encode v.

(** *** The decoder *)

Inductive presult (A : Type) :=
| POk (a : A) (rest : string)
| PErr (msg : string)
| PFuel.
Arguments POk {A} a rest.
Arguments PErr {A} msg.
Arguments PFuel {A}.

Definition is_ws (c : ascii) : bool :=
  let n := nat_of_ascii c in
  Nat.eqb n 32 || Nat.eqb n 9 || Nat.eqb n 10 || Nat.eqb n 13.

Fixpoint skip_ws (s : string) : string :=
  match s with
  | EmptyString => ""
  | String c r => if is_ws c then skip_ws r else s
  end.

Definition hex_val (c : ascii) : option nat :=
  let n := nat_of_ascii c in
  if Nat.leb 48 n && Nat.leb n 57 then Some (n - 48)%nat
  else if Nat.leb 97 n && Nat.leb n 102 then Some (n - 87)%nat
  else if Nat.leb 65 n && Nat.leb n 70 then Some (n - 55)%nat
  else None.

(** The character an escape letter stands for ([BACKSLASH] of
    [json.decoder]). *)
Definition unescape (c : ascii) : option ascii :=
  let n := nat_of_ascii c in
  if Nat.eqb n 34 then Some dquote
  else if Nat.eqb n 92 then Some backslash
  else if Nat.eqb n 47 then Some "/"%char
  else if Nat.eqb n 98 then Some (ascii_of_nat 8)
  else if Nat.eqb n 102 then Some (ascii_of_nat 12)
  else if Nat.eqb n 110 then Some (ascii_of_nat 10)
  else if Nat.eqb n 114 then Some (ascii_of_nat 13)
  else if Nat.eqb n 116 then Some (ascii_of_nat 9)
  else None.

Definition decode_u (h1 h2 h3 h4 : ascii) : option ascii :=
  match hex_val h1, hex_val h2, hex_val h3, hex_val h4 with
  | Some a, Some b, Some c, Some d =>
      if Nat.eqb a 0 && Nat.eqb b 0 then Some (ascii_of_nat (16 * c + d))
      else None
  | _, _, _, _ => None
  end.

(** [scanstring], entered after the opening quote (strict mode).  An
    escape [\uXXXX] above [ÿ] has no character in this model and is
    reported as an error. *)
Fixpoint scanstring (s : string) : presult string :=
  match s with
  | EmptyString => PErr "Unterminated string starting at"
  | String c r =>
      if Ascii.eqb c dquote then POk "" r
      else if Ascii.eqb c backslash then
        match r with
        | EmptyString => PErr "Unterminated string starting at"
        | String e r1 =>
            if Ascii.eqb e "u" then
              match r1 with
              | String h1 (String h2 (String h3 (String h4 r2))) =>
                  match decode_u h1 h2 h3 h4 with
                  | Some ch =>
                      match scanstring r2 with
                      | POk str rest => POk (String ch str) rest
                      | other => other
                      end
                  | None => PErr "Invalid \uXXXX escape"
                  end
              | _ => PErr "Invalid \uXXXX escape"
              end
            else
              match unescape e with
              | Some ch =>
                  match scanstring r1 with
                  | POk str rest => POk (String ch str) rest
                  | other => other
                  end
              | None => PErr "Invalid \escape"
              end
        end
      else if Nat.ltb (nat_of_ascii c) 32 then
        PErr "Invalid control character at"
      else
        match scanstring r with
        | POk str rest => POk (String c str) rest
        | other => other
        end
  end.

Definition is_digit (c : ascii) : bool :=
  let n := nat_of_ascii c in Nat.leb 48 n && Nat.leb n 57.

(** The longest prefix of digits, and what follows it. *)
Fixpoint span_digits (s : string) : string * string :=
  match s with
  | EmptyString => ("", "")
  | String c r =>
      if is_digit c then
        let (ds, rest) := span_digits r in (String c ds, rest)
      else ("", s)
  end.

Fixpoint digits_value (s : string) (acc : Z) : Z :=
  match s with
  | EmptyString => acc
  | String c r => digits_value r (10 * acc + (Z.of_nat (nat_of_ascii c) - 48))
  end.

(** The integer part of [NUMBER_RE]: [0] or [[1-9][0-9]*]. *)
Definition scan_int_part (s : string) : option (string * string) :=
  match s with
  | String c r =>
      if Ascii.eqb c "0" then Some ("0", r)
      else if is_digit c then Some (span_digits s)
      else None
  | EmptyString => None
  end.

(** The optional fraction [\.[0-9]+] of [NUMBER_RE]. *)
Definition scan_frac (s : string) : string * string :=
  match s with
  | String "." r =>
      match span_digits r with
      | (EmptyString, _) => ("", s)
      | (ds, rest) => (String "." ds, rest)
      end
  | _ => ("", s)
  end.

(** The optional exponent [[eE][-+]?[0-9]+] of [NUMBER_RE]. *)
Definition scan_exp (s : string) : string * string :=
  match s with
  | String e r =>
      if Ascii.eqb e "e" || Ascii.eqb e "E" then
        let (sign, r1) :=
          match r with
          | String c r' => if is_sign c then (String c "", r') else ("", r)
          | EmptyString => ("", r)
          end in
        match span_digits r1 with
        | (EmptyString, _) => ("", s)
        | (ds, rest) => (String e (sign ++ ds), rest)
        end
      else ("", s)
  | EmptyString => ("", s)
  end.

(** [match_number]: an [int] when there is neither fraction nor
    exponent, a [float] otherwise. *)
Definition scan_number (s : string) : option (pyval * string) :=
  let (neg, s1) :=
    match s with
    | String "-" r => (true, r)
    | _ => (false, s)
    end in
  match scan_int_part s1 with
  | Some (ip, r1) =>
      let (fp, r2) := scan_frac r1 in
      let (ep, r3) := scan_exp r2 in
      match fp, ep with
      | EmptyString, EmptyString =>
          let n := digits_value ip 0 in
          Some (PInt (if neg then - n else n), r3)
      | _, _ => Some (PFloat ((if neg then "-" else "") ++ ip ++ fp ++ ep), r3)
      end
  | None => None
  end.

Fixpoint strip_prefix (p s : string) : option string :=
  match p with
  | EmptyString => Some s
  | String a p' =>
      match s with
      | String b s' => if Ascii.eqb a b then strip_prefix p' s' else None
      | EmptyString => None
      end
  end.

(** The scalar cases of [scan_once], in the order it tries them. *)
Definition scan_scalar (s : string) : presult pyval :=
  match strip_prefix "null" s with
  | Some r => POk PNone r
  | None =>
  match strip_prefix "true" s with
  | Some r => POk (PBool true) r
  | None =>
  match strip_prefix "false" s with
  | Some r => POk (PBool false) r
  | None =>
  match scan_number s with
  | Some (v, r) => POk v r
  | None =>
  match strip_prefix "NaN" s with
  | Some r => POk (PFloat "NaN") r
  | None =>
  match strip_prefix "Infinity" s with
  | Some r => POk (PFloat "Infinity") r
  | None =>
  match strip_prefix "-Infinity" s with
  | Some r => POk (PFloat "-Infinity") r
  | None => PErr "Expecting value"
  end end end end end end end.

(** [scan_once], [JSONArray] and [JSONObject].  The array and object
    loops are entered after the opening bracket and the white space that
    follows it; the object loop after the opening quote of a key. *)
Fixpoint scan_once (fuel : nat) (s : string) : presult pyval :=
  match fuel with
  | O => PFuel
  | S f =>
      match s with
      | EmptyString => PErr "Expecting value"
      | String c r =>
          if Ascii.eqb c dquote then
            match scanstring r with
            | POk str rest => POk (PStr str) rest
            | PErr m => PErr m
            | PFuel => PFuel
            end
          else if Ascii.eqb c "{" then
            match skip_ws r with
            | String c1 r1 =>
                if Ascii.eqb c1 "}" then POk (PDict []) r1
                else if Ascii.eqb c1 dquote then
                  match object_loop f r1 with
                  | POk ps rest => POk (PDict (dict_of_pairs ps)) rest
                  | PErr m => PErr m
                  | PFuel => PFuel
                  end
                else PErr "Expecting property name enclosed in double quotes"
            | EmptyString =>
                PErr "Expecting property name enclosed in double quotes"
            end
          else if Ascii.eqb c "[" then
            match skip_ws r with
            | String c1 r1 =>
                if Ascii.eqb c1 "]" then POk (PList []) r1
                else
                  match array_loop f (String c1 r1) with
                  | POk vs rest => POk (PList vs) rest
                  | PErr m => PErr m
                  | PFuel => PFuel
                  end
            | EmptyString => PErr "Expecting value"
            end
          else scan_scalar s
      end
  end

with array_loop (fuel : nat) (s : string) : presult (list pyval) :=
  match fuel with
  | O => PFuel
  | S f =>
      match scan_once f s with
      | POk v s1 =>
          match skip_ws s1 with
          | String c r =>
              if Ascii.eqb c "]" then POk [v] r
              else if Ascii.eqb c "," then
                match array_loop f (skip_ws r) with
                | POk vs rest => POk (v :: vs) rest
                | other => other
                end
              else PErr "Expecting ',' delimiter"
          | EmptyString => PErr "Expecting ',' delimiter"
          end
      | PErr m => PErr m
      | PFuel => PFuel
      end
  end

with object_loop (fuel : nat) (s : string)
  : presult (list (string * pyval)) :=
  match fuel with
  | O => PFuel
  | S f =>
      match scanstring s with
      | POk key s1 =>
          match skip_ws s1 with
          | String c r =>
              if Ascii.eqb c ":" then
                match scan_once f (skip_ws r) with
                | POk v s2 =>
                    match skip_ws s2 with
                    | String c2 r2 =>
                        if Ascii.eqb c2 "}" then POk [(key, v)] r2
                        else if Ascii.eqb c2 "," then
                          match skip_ws r2 with
                          | String c3 r3 =>
                              if Ascii.eqb c3 dquote then
                                match object_loop f r3 with
                                | POk ps rest => POk ((key, v) :: ps) rest
                                | other => other
                                end
                              else PErr "Expecting property name enclosed in double quotes"
                          | EmptyString =>
                              PErr "Expecting property name enclosed in double quotes"
                          end
                        else PErr "Expecting ',' delimiter"
                    | EmptyString => PErr "Expecting ',' delimiter"
                    end
                | PErr m => PErr m
                | PFuel => PFuel
                end
              else PErr "Expecting ':' delimiter"
          | EmptyString => PErr "Expecting ':' delimiter"
          end
      | PErr m => PErr m
      | PFuel => PFuel
      end
  end.

(** Enough fuel for any text: every call consumes a character before
    the next call of the same kind. *)
Definition fuel_for (s : string) : nat := 2 * String.length s + 2.

(** [JSONDecoder.decode]: leading white space, one value, trailing white
    space, end of text. *)
Definition decode_text (s : string) : result pyval :=
  match scan_once (fuel_for s) (skip_ws s) with
  | POk v rest =>
      match skip_ws rest with
      | EmptyString => Ok v
      | _ => Raise (JSONDecodeError "Extra data")
      end
  | PErr m => Raise (JSONDecodeError m)
  | PFuel => Raise (JSONDecodeError "nesting too deep")
  end.
(* [fuel_for] is enough: the last case is never taken, see
   [decode_text_fuel]. *)

(** [json.loads(o)]: text only. *)
Definition json_loads (o : pyval) : result pyval :=
  match o with
  | PStr s => decode_text s
  | _ => Raise (TypeError
           ("the JSON object must be str, bytes or bytearray, not "
              ++ type_name o))
  end.

(** Writes a JSON text with ['] for the double quote. *)
Fixpoint q (s : string) : string :=
  match s with
  | EmptyString => ""
  | String c r => String (if Ascii.eqb c "'" then dquote else c) (q r)
  end.

(** The values [json.dumps] and [json.loads] carry without loss:
    [None], booleans, strings, and lists and dicts of such values. *)
Fixpoint distinct (ks : list string) : bool :=
  match ks with
  | [] => true
  | k :: r => negb (existsb (String.eqb k) r) && distinct r
  end.

Fixpoint plain_json (v : pyval) : bool :=
  match v with
  | PNone | PBool _ | PStr _ => true
  | PList l => forallb plain_json l
  | PDict d =>
      forallb (fun kv => plain_json (snd kv)) d && distinct (map fst d)
  | PInt _ | PFloat _ | PDatetime _ => false
  end.

(** ** Sorting

    [list.sort(key=..., reverse=...)] on [datetime] keys.  The sort is
    stable in both directions; it raises [TypeError] as soon as a naive
    key meets an aware one, which any list holding both makes happen. *)

Section Sort.
Context {A : Type}.
Variable before : A -> A -> bool.

Fixpoint insert_sorted (x : A) (l : list A) : list A :=
  match l with
  | [] => [x]
  | y :: r => if before y x then y :: insert_sorted x r else x :: y :: r
  end.

Definition stable_sort (l : list A) : list A :=
  fold_right insert_sorted [] l.
End Sort.

Definition all_comparable (ks : list datetime) : bool :=
  match ks with
  | [] => true
  | k :: r => forallb (comparable k) r
  end.

(** [before y x]: [y] must stay ahead of [x] whatever their positions. *)
Definition key_before {A} (key : A -> datetime) (reverse : bool) (y x : A)
  : bool :=
  if reverse then dt_ltb (key x) (key y) else dt_ltb (key y) (key x).

Definition list_sort {A} (key : A -> datetime) (reverse : bool) (l : list A)
  : result (list A) :=
  if all_comparable (map key l) then
    Ok (stable_sort (key_before key reverse) l)
  else
    Raise (TypeError "can't compare offset-naive and offset-aware datetimes").

(** ** Effects: the log, the clock and the collection store *)

Inductive level := DEBUG | INFO | WARNING | ERROR.

(** A log call: level, the f-string's template, the interpolated
    values. *)
Record log_record := mk_log {
  log_level : level;
  log_template : string;
  log_args : list pyval }.

(** A call made on the store client. *)
Inductive call :=
| CreateItem (collection : string) (fields : list (string * pyval))
| GetItemById (collection : string) (item_id : string)
| GetAllItems (collection : string)
| UpdateItem (collection : string) (item_id : string)
             (updates : list (string * pyval))
| DeleteItem (collection : string) (item_id : string).

(** The state the repositories run in.  [store] is the shared
    collection: each item as the client returns it, under the id the
    store gave it. *)
Record world := mk_world {
  store : list (string * pyval);
  next_id : Z;
  calls : list call;
  logs : list log_record;
  clock : datetime }.
(* [clock] is the time [datetime.now] reads; it stands still during a
   call. *)

Definition M (A : Type) : Type := world -> result A * world.

Definition ret {A} (a : A) : M A := fun w => (Ok a, w).

Definition raise {A} (e : exn) : M A := fun w => (Raise e, w).

Definition bind {A B} (m : M A) (k : A -> M B) : M B :=
  fun w =>
    match m w with
    | (Ok a, w') => k a w'
    | (Raise e, w') => (Raise e, w')
    end.

Declare Scope py_scope.
Delimit Scope py_scope with py.
Notation "x <- m ;; k" := (bind m (fun x => k))
  (at level 61, m at next level, right associativity) : py_scope.
Notation "m ;; k" := (bind m (fun _ => k))
  (at level 61, right associativity) : py_scope.
Local Open Scope py_scope.

Definition lift {A} (r : result A) : M A := fun w => (r, w).

Definition log (l : level) (template : string) (args : list pyval) : M unit :=
  fun w =>
    (Ok tt, mk_world (store w) (next_id w) (calls w)
                     (logs w ++ [mk_log l template args]) (clock w)).

(** [datetime.now(timezone.utc)] *)
Definition now_utc : M datetime :=
  fun w => (Ok (replace_tzinfo (clock w) utc), w).

Definition record_call (c : call) : M unit :=
  fun w =>
    (Ok tt, mk_world (store w) (next_id w) (calls w ++ [c]) (logs w)
                     (clock w)).

Fixpoint assoc {V} (k : string) (l : list (string * V)) : option V :=
  match l with
  | [] => None
  | (k', v) :: r => if String.eqb k' k then Some v else assoc k r
  end.

Fixpoint remove_assoc {V} (k : string) (l : list (string * V))
  : list (string * V) :=
  match l with
  | [] => []
  | (k', v) :: r =>
      if String.eqb k' k then remove_assoc k r else (k', v) :: remove_assoc k r
  end.

Fixpoint replace_assoc {V} (k : string) (v : V) (l : list (string * V))
  : list (string * V) :=
  match l with
  | [] => []
  | (k', v') :: r =>
      if String.eqb k' k then (k, v) :: r else (k', v') :: replace_assoc k v r
  end.

(** [d.update(u)] *)
Definition dict_update (d u : list (string * pyval)) : list (string * pyval) :=
  fold_left (fun d kv => dict_set d (fst kv) (snd kv)) u d.

(** Modelled from the spec: the store client [CollectionDBService] of
    [backend/services/collection_db.py], of which the sources hold only
    the calls.  The spec gives it five primitives over items addressed
    by a server-assigned id: [createItem(collection, fields) -> item],
    [getItemById(collection, id) -> item|null],
    [getAllItems(collection) -> list<item>],
    [updateItem(collection, id, partialFields) -> item] and
    [deleteItem(collection, id) -> bool].  All repositories use one
    collection, so the store is that collection. *)
Module CollectionDBService.

Definition fresh_id (n : Z) : string := "item-" ++ string_of_Z n.

Definition create_item (collection : string)
    (fields : list (string * pyval)) : M pyval :=
  record_call (CreateItem collection fields) ;;
  fun w =>
    let i := fresh_id (next_id w) in
    let item := PDict (("__auto_id__", PStr i) :: fields) in
    (Ok item, mk_world (store w ++ [(i, item)]) (next_id w + 1) (calls w)
                       (logs w) (clock w)).

Definition get_item_by_id (collection : string) (item_id : string)
  : M (option pyval) :=
  record_call (GetItemById collection item_id) ;;
  fun w => (Ok (assoc item_id (store w)), w).

Definition get_all_items (collection : string) : M (list pyval) :=
  record_call (GetAllItems collection) ;;
  fun w => (Ok (map snd (store w)), w).

Definition update_item (collection : string) (item_id : string)
    (updates : list (string * pyval)) : M pyval :=
  record_call (UpdateItem collection item_id updates) ;;
  fun w =>
    match assoc item_id (store w) with
    | Some (PDict d) =>
        let item := PDict (dict_update d updates) in
        (Ok item, mk_world (replace_assoc item_id item (store w)) (next_id w)
                           (calls w) (logs w) (clock w))
    | Some _ => (Raise (StoreError "item is not an object"), w)
    | None => (Raise (StoreError "item not found"), w)
    end.

Definition delete_item (collection : string) (item_id : string) : M bool :=
  record_call (DeleteItem collection item_id) ;;
  fun w =>
    match assoc item_id (store w) with
    | Some _ =>
        (Ok true, mk_world (remove_assoc item_id (store w)) (next_id w)
                           (calls w) (logs w) (clock w))
    | None => (Ok false, w)
    end.

End CollectionDBService.

(** ** The model classes

    Modelled from the spec: the classes [Bug], [Comment] and
    [ActivityLog] and the enumerations of [backend/models/bug_model.py],
    which the sources only import.  The spec gives each entity an
    identity ([id], absent before creation) and typed fields, and treats
    the status, priority and severity enumerations as opaque
    string-valued types.  The fields and their types are those the
    repositories read and write.  A constructor checks each argument
    against its field's type and turns a string into the enumeration
    member of that value; assignment to a field does the same.  No other
    validation or coercion is modelled. *)

Notation "x <~ r ;; k" := (bind_result r (fun x => k))
  (at level 61, r at next level, right associativity) : py_scope.

Record enum := mk_enum { value : string }.
Definition BugStatus := enum.
Definition BugPriority := enum.
Definition BugSeverity := enum.

Definition as_str (field : string) (v : pyval) : result string :=
  match v with
  | PStr s => Ok s
  | _ => Raise (ValidationError field)
  end.

Definition as_opt_str (field : string) (v : pyval) : result (option string) :=
  match v with
  | PNone => Ok None
  | PStr s => Ok (Some s)
  | _ => Raise (ValidationError field)
  end.

Definition as_bool (field : string) (v : pyval) : result bool :=
  match v with
  | PBool b => Ok b
  | _ => Raise (ValidationError field)
  end.

Definition as_enum (field : string) (v : pyval) : result enum :=
  match v with
  | PStr s => Ok (mk_enum s)
  | _ => Raise (ValidationError field)
  end.

Definition as_datetime (field : string) (v : pyval) : result datetime :=
  match v with
  | PDatetime d => Ok d
  | _ => Raise (ValidationError field)
  end.

Fixpoint as_str_items (field : string) (l : list pyval)
  : result (list string) :=
  match l with
  | [] => Ok []
  | v :: r =>
      s <~ as_str field v ;;
      ss <~ as_str_items field r ;;
      Ok (s :: ss)
  end.

Definition as_str_list (field : string) (v : pyval) : result (list string) :=
  match v with
  | PList l => as_str_items field l
  | _ => Raise (ValidationError field)
  end.

Definition of_opt_str (o : option string) : pyval :=
  match o with
  | Some s => PStr s
  | None => PNone
  end.

Module Bug.

Record t := mk {
  id : option string;
  title : string;
  description : string;
  projectId : string;
  reportedBy : string;
  assignedTo : option string;
  status : BugStatus;
  priority : BugPriority;
  severity : BugSeverity;
  tags : list string;
  validated : bool;
  createdAt : datetime;
  updatedAt : datetime }.

(** [Bug(_id=..., title=..., ...)] *)
Definition init (_id title description projectId reportedBy assignedTo
                 status priority severity tags validated : pyval)
                (createdAt updatedAt : datetime) : result t :=
  i <~ as_opt_str "_id" _id ;;
  ti <~ as_str "title" title ;;
  de <~ as_str "description" description ;;
  pr <~ as_str "projectId" projectId ;;
  re <~ as_str "reportedBy" reportedBy ;;
  asg <~ as_opt_str "assignedTo" assignedTo ;;
  st <~ as_enum "status" status ;;
  pri <~ as_enum "priority" priority ;;
  sev <~ as_enum "severity" severity ;;
  tg <~ as_str_list "tags" tags ;;
  va <~ as_bool "validated" validated ;;
  Ok (mk i ti de pr re asg st pri sev tg va createdAt updatedAt).

(** The entity as it is before the store gives it an id. *)
Definition without_id (b : t) : t :=
  mk None (title b) (description b) (projectId b) (reportedBy b)
     (assignedTo b) (status b) (priority b) (severity b) (tags b)
     (validated b) (createdAt b) (updatedAt b).

Definition set_status (b : t) (v : BugStatus) : t :=
  mk (id b) (title b) (description b) (projectId b) (reportedBy b)
     (assignedTo b) v (priority b) (severity b) (tags b) (validated b)
     (createdAt b) (updatedAt b).

Definition set_assignedTo (b : t) (v : option string) : t :=
  mk (id b) (title b) (description b) (projectId b) (reportedBy b)
     v (status b) (priority b) (severity b) (tags b) (validated b)
     (createdAt b) (updatedAt b).

Definition set_validated (b : t) (v : bool) : t :=
  mk (id b) (title b) (description b) (projectId b) (reportedBy b)
     (assignedTo b) (status b) (priority b) (severity b) (tags b) v
     (createdAt b) (updatedAt b).

Definition set_updatedAt (b : t) (v : datetime) : t :=
  mk (id b) (title b) (description b) (projectId b) (reportedBy b)
     (assignedTo b) (status b) (priority b) (severity b) (tags b)
     (validated b) (createdAt b) v.

Definition fields : list string :=
  ["id"; "title"; "description"; "projectId"; "reportedBy"; "assignedTo";
   "status"; "priority"; "severity"; "tags"; "validated"; "createdAt";
   "updatedAt"].

(** [hasattr(bug, key)], for a [key] that is the name of a field, where
    it is true, or the name of no attribute of the object, where it is
    false.  A Python object has attributes besides its fields (its
    methods, [__class__], [__dict__], ...): on their names [hasattr] is
    true as well, and what [setattr] then does is the business of the
    class.  Those names are outside this model; the statements about
    [update_fields] that go through the loop take the keys of the
    update set among the field names. *)
Definition hasattr (key : string) : bool :=
  existsb (String.eqb key) fields.

(** [setattr(bug, key, value)] for a [key] that [hasattr] accepts. *)
Definition setattr (b : t) (key : string) (v : pyval) : result t :=
  if String.eqb key "id" then
    x <~ as_opt_str key v ;;
    Ok (mk x (title b) (description b) (projectId b) (reportedBy b)
           (assignedTo b) (status b) (priority b) (severity b) (tags b)
           (validated b) (createdAt b) (updatedAt b))
  else if String.eqb key "title" then
    x <~ as_str key v ;;
    Ok (mk (id b) x (description b) (projectId b) (reportedBy b)
           (assignedTo b) (status b) (priority b) (severity b) (tags b)
           (validated b) (createdAt b) (updatedAt b))
  else if String.eqb key "description" then
    x <~ as_str key v ;;
    Ok (mk (id b) (title b) x (projectId b) (reportedBy b)
           (assignedTo b) (status b) (priority b) (severity b) (tags b)
           (validated b) (createdAt b) (updatedAt b))
  else if String.eqb key "projectId" then
    x <~ as_str key v ;;
    Ok (mk (id b) (title b) (description b) x (reportedBy b)
           (assignedTo b) (status b) (priority b) (severity b) (tags b)
           (validated b) (createdAt b) (updatedAt b))
  else if String.eqb key "reportedBy" then
    x <~ as_str key v ;;
    Ok (mk (id b) (title b) (description b) (projectId b) x
           (assignedTo b) (status b) (priority b) (severity b) (tags b)
           (validated b) (createdAt b) (updatedAt b))
  else if String.eqb key "assignedTo" then
    x <~ as_opt_str key v ;; Ok (set_assignedTo b x)
  else if String.eqb key "status" then
    x <~ as_enum key v ;; Ok (set_status b x)
  else if String.eqb key "priority" then
    x <~ as_enum key v ;;
    Ok (mk (id b) (title b) (description b) (projectId b) (reportedBy b)
           (assignedTo b) (status b) x (severity b) (tags b)
           (validated b) (createdAt b) (updatedAt b))
  else if String.eqb key "severity" then
    x <~ as_enum key v ;;
    Ok (mk (id b) (title b) (description b) (projectId b) (reportedBy b)
           (assignedTo b) (status b) (priority b) x (tags b)
           (validated b) (createdAt b) (updatedAt b))
  else if String.eqb key "tags" then
    x <~ as_str_list key v ;;
    Ok (mk (id b) (title b) (description b) (projectId b) (reportedBy b)
           (assignedTo b) (status b) (priority b) (severity b) x
           (validated b) (createdAt b) (updatedAt b))
  else if String.eqb key "validated" then
    x <~ as_bool key v ;; Ok (set_validated b x)
  else if String.eqb key "createdAt" then
    x <~ as_datetime key v ;;
    Ok (mk (id b) (title b) (description b) (projectId b) (reportedBy b)
           (assignedTo b) (status b) (priority b) (severity b) (tags b)
           (validated b) x (updatedAt b))
  else if String.eqb key "updatedAt" then
    x <~ as_datetime key v ;; Ok (set_updatedAt b x)
  else Ok b.

End Bug.

Module Comment.

Record t := mk {
  id : option string;
  bugId : string;
  authorId : string;
  message : string;
  createdAt : datetime }.

(** [Comment(_id=..., bugId=..., ...)] *)
Definition init (_id bugId authorId message : pyval) (createdAt : datetime)
  : result t :=
  i <~ as_opt_str "_id" _id ;;
  b <~ as_str "bugId" bugId ;;
  a <~ as_str "authorId" authorId ;;
  m <~ as_str "message" message ;;
  Ok (mk i b a m createdAt).

Definition without_id (c : t) : t :=
  mk None (bugId c) (authorId c) (message c) (createdAt c).

Definition set_createdAt (c : t) (v : datetime) : t :=
  mk (id c) (bugId c) (authorId c) (message c) v.

End Comment.

Module ActivityLog.

Record t := mk {
  id : option string;
  bugId : string;
  bugTitle : string;
  projectId : string;
  projectName : string;
  action : string;
  performedBy : string;
  performedByName : string;
  assignedToName : option string;
  newStatus : option string;
  timestamp : datetime }.

(** [ActivityLog(_id=..., bugId=..., ...)] *)
Definition init (_id bugId bugTitle projectId projectName action
                 performedBy performedByName assignedToName newStatus
                 : pyval) (timestamp : datetime) : result t :=
  i <~ as_opt_str "_id" _id ;;
  b <~ as_str "bugId" bugId ;;
  bt <~ as_str "bugTitle" bugTitle ;;
  p <~ as_str "projectId" projectId ;;
  pn <~ as_str "projectName" projectName ;;
  a <~ as_str "action" action ;;
  pb <~ as_str "performedBy" performedBy ;;
  pbn <~ as_str "performedByName" performedByName ;;
  an <~ as_opt_str "assignedToName" assignedToName ;;
  ns <~ as_opt_str "newStatus" newStatus ;;
  Ok (mk i b bt p pn a pb pbn an ns timestamp).

Definition without_id (a : t) : t :=
  mk None (bugId a) (bugTitle a) (projectId a) (projectName a) (action a)
     (performedBy a) (performedByName a) (assignedToName a) (newStatus a)
     (timestamp a).

End ActivityLog.

(** ** The repositories *)

(** [item["payload"]] when [item] is a dict holding that key. *)
Definition unwrap_payload (item : pyval) : M pyval :=
  match item with
  | PDict d =>
      match lookup "payload" d with
      | Some p => log DEBUG "Extracting payload from item response" [] ;; ret p
      | None => ret item
      end
  | _ => ret item
  end.

(** The item a decoder works on once the wrapper is removed. *)
Definition payload_of (item : pyval) : pyval :=
  match item with
  | PDict d =>
      match lookup "payload" d with
      | Some p => p
      | None => item
      end
  | _ => item
  end.

(** [item_data[key]] *)
Definition getitem (d : list (string * pyval)) (key : string) : result pyval :=
  match lookup key d with
  | Some v => Ok v
  | None => Raise (KeyError key)
  end.

(** The filtering loop of the list operations: [keep item] says whether
    [item] is appended to [filtered_items]. *)
Fixpoint filter_items (keep : pyval -> M bool) (items : list pyval)
  : M (list pyval) :=
  match items with
  | [] => ret []
  | item :: rest =>
      k <- keep item ;;
      filtered <- filter_items keep rest ;;
      ret (if (k : bool) then item :: filtered else filtered)
  end.

(** [[f(item) for item in items]] *)
Fixpoint for_each {A B} (f : A -> M B) (items : list A) : M (list B) :=
  match items with
  | [] => ret []
  | item :: rest =>
      x <- f item ;;
      xs <- for_each f rest ;;
      ret (x :: xs)
  end.

Module BugRepository.

Definition _collection : string := "ameya_tests".
Definition _entity_type : string := "bug".

(** The JSON envelope of a bug: [data] in [_bug_to_collection_item]. *)
Definition envelope (bug : Bug.t) : list (string * pyval) :=
  [("type", PStr _entity_type);
   ("description", PStr (Bug.description bug));
   ("status", PStr (value (Bug.status bug)));
   ("priority", PStr (value (Bug.priority bug)));
   ("severity", PStr (value (Bug.severity bug)));
   ("projectId", PStr (Bug.projectId bug));
   ("reportedBy", PStr (Bug.reportedBy bug));
   ("assignedTo", of_opt_str (Bug.assignedTo bug));
   ("tags", PList (map PStr (Bug.tags bug)));
   ("validated", PBool (Bug.validated bug));
   ("updatedAt", PStr (isoformat (Bug.updatedAt bug)))].

Definition _bug_to_collection_item (bug : Bug.t)
  : result (list (string * pyval)) :=
  let data := envelope bug in
  text <~ json_dumps (PDict data) ;;
  Ok [("name", PStr (Bug.title bug));
      ("description", PStr text);
      ("created_at", PStr (isoformat (Bug.createdAt bug)))].

(** The block "Parse created_at with robust type checking" of
    [_collection_item_to_bug]. *)
Definition parse_created_at (bug_id created_at : pyval) : M datetime :=
  match created_at with
  | PNone => now_utc
  | PDatetime d => ret d
  | PStr s =>
      match fromisoformat s with
      | Ok d => ret d
      | Raise (ValueError _ _) =>
          log WARNING "Invalid datetime format for bug {bug_id}, using current time"
              [bug_id] ;;
          now_utc
      | Raise e => raise e
      end
  | other =>
      log WARNING "Unexpected type for created_at in bug {bug_id}: {type(created_at).__name__}, using current time"
          [bug_id; PStr (type_name other)] ;;
      now_utc
  end.

(** The block "Parse updatedAt from JSON data". *)
Definition parse_updated_at (bug_id : pyval) (created_at : datetime)
    (updated_at : pyval) : M datetime :=
  match updated_at with
  | PNone => ret created_at
  | PDatetime d => ret d
  | PStr s =>
      match fromisoformat s with
      | Ok d => ret d
      | Raise (ValueError _ _) =>
          log WARNING "Invalid datetime format for updatedAt in bug {bug_id}, using created_at"
              [bug_id] ;;
          ret created_at
      | Raise e => raise e
      end
  | other =>
      log WARNING "Unexpected type for updatedAt in bug {bug_id}: {type(updated_at).__name__}, using created_at"
          [bug_id; PStr (type_name other)] ;;
      ret created_at
  end.

Definition _collection_item_to_bug (item : pyval) : M Bug.t :=
  item <- unwrap_payload item ;;
  bug_id <- lift (py_get item "__auto_id__" PNone) ;;
  description_field <- lift (py_get item "description" (PStr "{}")) ;;
  data <-
    (if is_str description_field then
       match json_loads description_field with
       | Ok data => ret data
       | Raise (JSONDecodeError e) =>
           log ERROR "Failed to parse description as JSON for bug {bug_id}: {e}"
               [bug_id; PStr e] ;;
           raise (ValueError
                    "Invalid bug data for bug_id '{bug_id}': description field contains malformed JSON - {str(e)}"
                    [bug_id; PStr e])
       | Raise e => raise e
       end
     else ret (PDict [])) ;;
  title <- lift (py_get item "name" (PStr "")) ;;
  description <- lift (py_get data "description" (PStr "")) ;;
  status <- lift (py_get data "status" (PStr "Open")) ;;
  priority <- lift (py_get data "priority" (PStr "Medium")) ;;
  severity <- lift (py_get data "severity" (PStr "Minor")) ;;
  project_id <- lift (py_get data "projectId" (PStr "")) ;;
  reported_by <- lift (py_get data "reportedBy" (PStr "")) ;;
  assigned_to <- lift (py_get data "assignedTo" PNone) ;;
  tags <- lift (py_get data "tags" (PList [])) ;;
  validated <- lift (py_get data "validated" (PBool false)) ;;
  created_at <- lift (py_get item "created_at" PNone) ;;
  created_at <- parse_created_at bug_id created_at ;;
  updated_at <- lift (py_get data "updatedAt" PNone) ;;
  updated_at <- parse_updated_at bug_id created_at updated_at ;;
  lift (Bug.init bug_id title description project_id reported_by assigned_to
                 status priority severity tags validated
                 created_at updated_at).

Definition create (bug : Bug.t) : M Bug.t :=
  log INFO "Creating bug: {bug.title}" [PStr (Bug.title bug)] ;;
  item_data <- lift (_bug_to_collection_item bug) ;;
  created_item <- CollectionDBService.create_item _collection item_data ;;
  _collection_item_to_bug created_item.

Definition get_by_id (bug_id : string) : M (option Bug.t) :=
  log INFO "Retrieving bug by ID: {bug_id}" [PStr bug_id] ;;
  item <- CollectionDBService.get_item_by_id _collection bug_id ;;
  match item with
  | None => log WARNING "Bug not found: {bug_id}" [PStr bug_id] ;; ret None
  | Some item =>
      bug <- _collection_item_to_bug item ;;
      ret (Some bug)
  end.

Definition of_opt_enum (o : option BugStatus) : pyval :=
  match o with
  | Some s => PStr (value s)
  | None => PNone
  end.

(** One turn of the filtering loop of [get_all]: whether [item] is
    appended to [filtered_items]. *)
Definition keeps (project_id : option string) (status : option BugStatus)
    (assigned_to : option string) (item : pyval) : M bool :=
  description <- lift (py_get item "description" (PStr "")) ;;
  if negb (truthy description) then ret false
  else
    match (if is_str description then json_loads description
           else Ok (PDict [])) with
    | Ok data =>
        ty <- lift (py_get data "type" PNone) ;;
        if ne_str ty _entity_type then ret false
        else
          p <- lift (match project_id with
                     | Some x =>
                         v <~ py_get data "projectId" PNone ;; Ok (ne_str v x)
                     | None => Ok false
                     end) ;;
          if (p : bool) then ret false
          else
            s <- lift (match status with
                       | Some x =>
                           v <~ py_get data "status" PNone ;;
                           Ok (ne_str v (value x))
                       | None => Ok false
                       end) ;;
            if (s : bool) then ret false
            else
              a <- lift (match assigned_to with
                         | Some x =>
                             v <~ py_get data "assignedTo" PNone ;;
                             Ok (ne_str v x)
                         | None => Ok false
                         end) ;;
              if (a : bool) then ret false else ret true
    | Raise (JSONDecodeError e) =>
        log WARNING "Failed to parse description as JSON: {e}" [PStr e] ;;
        ret false
    | Raise e => raise e
    end.

Definition get_all (project_id : option string) (status : option BugStatus)
    (assigned_to : option string) : M (list Bug.t) :=
  log INFO "Retrieving all bugs (filters: projectId={project_id}, status={status}, assignedTo={assigned_to})"
      [of_opt_str project_id; of_opt_enum status; of_opt_str assigned_to] ;;
  items <- CollectionDBService.get_all_items _collection ;;
  filtered_items <- filter_items (keeps project_id status assigned_to) items ;;
  bugs <- for_each _collection_item_to_bug filtered_items ;;
  log INFO "Retrieved {len(bugs)} bugs after filtering"
      [PInt (Z.of_nat (List.length bugs))] ;;
  ret bugs.

(** The tail shared by the four updates: re-encode, send the
    [description] alone, decode the answer. *)
Definition store_description (bug_id : string) (current_bug : Bug.t)
  : M Bug.t :=
  item_data <- lift (_bug_to_collection_item current_bug) ;;
  d <- lift (getitem item_data "description") ;;
  let updates := [("description", d)] in
  updated_item <- CollectionDBService.update_item _collection bug_id updates ;;
  _collection_item_to_bug updated_item.

Definition not_found (bug_id : string) : exn :=
  ValueError "Bug with ID {bug_id} not found" [PStr bug_id].

Definition update_status (bug_id : string) (status : BugStatus)
    (updated_at : datetime) : M Bug.t :=
  log INFO "Updating bug status: {bug_id} -> {status.value}"
      [PStr bug_id; PStr (value status)] ;;
  current_bug <- get_by_id bug_id ;;
  match current_bug with
  | None => raise (not_found bug_id)
  | Some current_bug =>
      let current_bug := Bug.set_status current_bug status in
      let current_bug := Bug.set_updatedAt current_bug updated_at in
      store_description bug_id current_bug
  end.

Definition update_assignment (bug_id : string) (assigned_to : string)
    (updated_at : datetime) : M Bug.t :=
  log INFO "Updating bug assignment: {bug_id} -> {assigned_to}"
      [PStr bug_id; PStr assigned_to] ;;
  current_bug <- get_by_id bug_id ;;
  match current_bug with
  | None => raise (not_found bug_id)
  | Some current_bug =>
      let current_bug := Bug.set_assignedTo current_bug (Some assigned_to) in
      let current_bug := Bug.set_updatedAt current_bug updated_at in
      store_description bug_id current_bug
  end.

Definition update_validation (bug_id : string) (validated : bool)
    (updated_at : datetime) : M Bug.t :=
  log INFO "Updating bug validation: {bug_id} -> {validated}"
      [PStr bug_id; PBool validated] ;;
  current_bug <- get_by_id bug_id ;;
  match current_bug with
  | None => raise (not_found bug_id)
  | Some current_bug =>
      let current_bug := Bug.set_validated current_bug validated in
      let current_bug := Bug.set_updatedAt current_bug updated_at in
      store_description bug_id current_bug
  end.

(** The loop of [update_fields] over [updates.items()]. *)
Fixpoint apply_updates (current_bug : Bug.t)
    (updates : list (string * pyval)) : M Bug.t :=
  match updates with
  | [] => ret current_bug
  | (key, v) :: rest =>
      current_bug <-
        (if Bug.hasattr key then lift (Bug.setattr current_bug key v)
         else
           log WARNING "Ignoring unknown field: {key}" [PStr key] ;;
           ret current_bug) ;;
      apply_updates current_bug rest
  end.

Definition update_fields (bug_id : string)
    (updates : list (string * pyval)) : M Bug.t :=
  log INFO "Updating bug fields: {bug_id} with {len(updates)} field(s)"
      [PStr bug_id; PInt (Z.of_nat (List.length updates))] ;;
  match updates with
  | [] => raise (ValueError "updates cannot be empty" [])
  | _ =>
      current_bug <- get_by_id bug_id ;;
      match current_bug with
      | None => raise (not_found bug_id)
      | Some current_bug =>
          current_bug <- apply_updates current_bug updates ;;
          store_description bug_id current_bug
      end
  end.

Definition delete (bug_id : string) : M bool :=
  log INFO "Deleting bug: {bug_id}" [PStr bug_id] ;;
  success <- CollectionDBService.delete_item _collection bug_id ;;
  (if (success : bool) then log INFO "Bug deleted: {bug_id}" [PStr bug_id]
   else log WARNING "Failed to delete bug: {bug_id}" [PStr bug_id]) ;;
  ret success.

End BugRepository.

Module CommentRepository.

Definition _collection : string := "ameya_tests".
Definition _entity_type : string := "comment".

(** The JSON envelope of a comment. *)
Definition envelope (comment : Comment.t) : list (string * pyval) :=
  [("type", PStr _entity_type);
   ("bugId", PStr (Comment.bugId comment));
   ("authorId", PStr (Comment.authorId comment));
   ("message", PStr (Comment.message comment))].

Definition _comment_to_collection_item (comment : Comment.t)
  : result (list (string * pyval)) :=
  let data := envelope comment in
  text <~ json_dumps (PDict data) ;;
  Ok [("name", PStr ("Comment by " ++ Comment.authorId comment));
      ("description", PStr text);
      ("created_at", PStr (isoformat (Comment.createdAt comment)))].

(** The block "Parse created_at with robust type checking" of
    [_collection_item_to_comment]. *)
Definition parse_created_at (comment_id created_at : pyval) : M datetime :=
  match created_at with
  | PNone => now_utc
  | PDatetime d => ret d
  | PStr s =>
      match fromisoformat s with
      | Ok d => ret (ensure_aware d)
      | Raise (ValueError _ _) =>
          log WARNING "Invalid datetime format for comment {comment_id}, using current time"
              [comment_id] ;;
          now_utc
      | Raise e => raise e
      end
  | other =>
      log WARNING "Unexpected type for created_at in comment {comment_id}: {type(created_at).__name__}, using current time"
          [comment_id; PStr (type_name other)] ;;
      now_utc
  end.

Definition _collection_item_to_comment (item : pyval) : M Comment.t :=
  item <- unwrap_payload item ;;
  comment_id <- lift (py_get item "__auto_id__" PNone) ;;
  description_field <- lift (py_get item "description" (PStr "{}")) ;;
  data <-
    (if is_str description_field then
       match json_loads description_field with
       | Ok data => ret data
       | Raise (JSONDecodeError e) =>
           log ERROR "Failed to parse description as JSON for comment {comment_id}: {e}"
               [comment_id; PStr e] ;;
           raise (ValueError
                    "Invalid comment data for comment_id '{comment_id}': description field contains malformed JSON - {str(e)}"
                    [comment_id; PStr e])
       | Raise e => raise e
       end
     else ret (PDict [])) ;;
  bug_id <- lift (py_get data "bugId" (PStr "")) ;;
  author_id <- lift (py_get data "authorId" (PStr "")) ;;
  message <- lift (py_get data "message" (PStr "")) ;;
  created_at <- lift (py_get item "created_at" PNone) ;;
  created_at <- parse_created_at comment_id created_at ;;
  lift (Comment.init comment_id bug_id author_id message created_at).

Definition create (comment : Comment.t) : M Comment.t :=
  log INFO "Creating comment for bug: {comment.bugId}"
      [PStr (Comment.bugId comment)] ;;
  item_data <- lift (_comment_to_collection_item comment) ;;
  created_item <- CollectionDBService.create_item _collection item_data ;;
  _collection_item_to_comment created_item.

Definition get_by_id (comment_id : string) : M (option Comment.t) :=
  log INFO "Retrieving comment by ID: {comment_id}" [PStr comment_id] ;;
  item <- CollectionDBService.get_item_by_id _collection comment_id ;;
  match item with
  | None =>
      log WARNING "Comment not found: {comment_id}" [PStr comment_id] ;;
      ret None
  | Some item =>
      comment <- _collection_item_to_comment item ;;
      ret (Some comment)
  end.

(** One turn of the filtering loop of [get_by_bug_id]. *)
Definition keeps (bug_id : string) (item : pyval) : M bool :=
  description <- lift (py_get item "description" (PStr "")) ;;
  if negb (truthy description) then ret false
  else
    match json_loads description with
    | Ok data =>
        ty <- lift (py_get data "type" PNone) ;;
        if ne_str ty _entity_type then ret false
        else
          b <- lift (py_get data "bugId" PNone) ;;
          ret (eq_str b bug_id)
    | Raise (JSONDecodeError e) =>
        log WARNING "Failed to parse description as JSON: {e}" [PStr e] ;;
        ret false
    | Raise e => raise e
    end.

Definition get_by_bug_id (bug_id : string) : M (list Comment.t) :=
  log INFO "Retrieving comments for bug: {bug_id}" [PStr bug_id] ;;
  items <- CollectionDBService.get_all_items _collection ;;
  filtered_items <- filter_items (keeps bug_id) items ;;
  comments <- for_each _collection_item_to_comment filtered_items ;;
  comments <- lift (list_sort Comment.createdAt false comments) ;;
  log INFO "Retrieved {len(comments)} comments for bug {bug_id}"
      [PInt (Z.of_nat (List.length comments)); PStr bug_id] ;;
  ret comments.

Definition delete (comment_id : string) : M bool :=
  log INFO "Deleting comment: {comment_id}" [PStr comment_id] ;;
  success <- CollectionDBService.delete_item _collection comment_id ;;
  (if (success : bool)
   then log INFO "Comment deleted: {comment_id}" [PStr comment_id]
   else log WARNING "Failed to delete comment: {comment_id}"
            [PStr comment_id]) ;;
  ret success.

End CommentRepository.

Module ActivityLogRepository.

Definition _collection : string := "ameya_tests".
Definition _entity_type : string := "activity_log".

(** The JSON envelope of an activity log entry. *)
Definition envelope (activity_log : ActivityLog.t)
  : list (string * pyval) :=
  [("type", PStr _entity_type);
   ("bugId", PStr (ActivityLog.bugId activity_log));
   ("bugTitle", PStr (ActivityLog.bugTitle activity_log));
   ("projectId", PStr (ActivityLog.projectId activity_log));
   ("projectName", PStr (ActivityLog.projectName activity_log));
   ("action", PStr (ActivityLog.action activity_log));
   ("performedBy", PStr (ActivityLog.performedBy activity_log));
   ("performedByName", PStr (ActivityLog.performedByName activity_log));
   ("assignedToName", of_opt_str (ActivityLog.assignedToName activity_log));
   ("newStatus", of_opt_str (ActivityLog.newStatus activity_log))].

Definition _activity_log_to_collection_item (activity_log : ActivityLog.t)
  : result (list (string * pyval)) :=
  let data := envelope activity_log in
  text <~ json_dumps (PDict data) ;;
  Ok [("name", PStr (ActivityLog.performedByName activity_log ++ " "
                       ++ ActivityLog.action activity_log));
      ("description", PStr text);
      ("created_at", PStr (isoformat (ActivityLog.timestamp activity_log)))].

(** The block "Parse created_at (timestamp) with robust type checking"
    of [_collection_item_to_activity_log]. *)
Definition parse_created_at (log_id timestamp : pyval) : M datetime :=
  match timestamp with
  | PNone => now_utc
  | PDatetime d => ret d
  | PStr s =>
      match fromisoformat s with
      | Ok d => ret d
      | Raise (ValueError _ _) =>
          log WARNING "Invalid datetime format for activity log {log_id}, using current time"
              [log_id] ;;
          now_utc
      | Raise e => raise e
      end
  | other =>
      log WARNING "Unexpected type for created_at in activity log {log_id}: {type(timestamp).__name__}, using current time"
          [log_id; PStr (type_name other)] ;;
      now_utc
  end.

Definition _collection_item_to_activity_log (item : pyval)
  : M ActivityLog.t :=
  item <- unwrap_payload item ;;
  log_id <- lift (py_get item "__auto_id__" PNone) ;;
  description_field <- lift (py_get item "description" (PStr "{}")) ;;
  data <-
    (if is_str description_field then
       match json_loads description_field with
       | Ok data => ret data
       | Raise (JSONDecodeError e) =>
           log ERROR "Failed to parse description as JSON for activity log {log_id}: {e}"
               [log_id; PStr e] ;;
           raise (ValueError
                    "Invalid activity log data for log_id '{log_id}': description field contains malformed JSON - {str(e)}"
                    [log_id; PStr e])
       | Raise e => raise e
       end
     else ret (PDict [])) ;;
  bug_id <- lift (py_get data "bugId" (PStr "")) ;;
  bug_title <- lift (py_get data "bugTitle" (PStr "")) ;;
  project_id <- lift (py_get data "projectId" (PStr "")) ;;
  project_name <- lift (py_get data "projectName" (PStr "")) ;;
  action <- lift (py_get data "action" (PStr "")) ;;
  performed_by <- lift (py_get data "performedBy" (PStr "")) ;;
  performed_by_name <- lift (py_get data "performedByName" (PStr "")) ;;
  assigned_to_name <- lift (py_get data "assignedToName" PNone) ;;
  new_status <- lift (py_get data "newStatus" PNone) ;;
  timestamp <- lift (py_get item "created_at" PNone) ;;
  timestamp <- parse_created_at log_id timestamp ;;
  lift (ActivityLog.init log_id bug_id bug_title project_id project_name
                         action performed_by performed_by_name
                         assigned_to_name new_status timestamp).

Definition create (activity_log : ActivityLog.t) : M ActivityLog.t :=
  log INFO "Creating activity log for bug: {activity_log.bugId} - {activity_log.action}"
      [PStr (ActivityLog.bugId activity_log);
       PStr (ActivityLog.action activity_log)] ;;
  item_data <- lift (_activity_log_to_collection_item activity_log) ;;
  created_item <- CollectionDBService.create_item _collection item_data ;;
  _collection_item_to_activity_log created_item.

(** One turn of the filtering loop of [get_by_bug_id]. *)
Definition keeps_bug (bug_id : string) (item : pyval) : M bool :=
  description <- lift (py_get item "description" (PStr "")) ;;
  if negb (truthy description) then ret false
  else
    match json_loads description with
    | Ok data =>
        ty <- lift (py_get data "type" PNone) ;;
        if eq_str ty _entity_type then
          b <- lift (py_get data "bugId" PNone) ;;
          ret (eq_str b bug_id)
        else ret false
    | Raise (JSONDecodeError e) =>
        log WARNING "Failed to parse description as JSON: {e}" [PStr e] ;;
        ret false
    | Raise e => raise e
    end.

Definition get_by_bug_id (bug_id : string) : M (list ActivityLog.t) :=
  log INFO "Retrieving activity logs for bug: {bug_id}" [PStr bug_id] ;;
  items <- CollectionDBService.get_all_items _collection ;;
  filtered_items <- filter_items (keeps_bug bug_id) items ;;
  logs <- for_each _collection_item_to_activity_log filtered_items ;;
  logs <- lift (list_sort ActivityLog.timestamp true logs) ;;
  log INFO "Retrieved {len(logs)} activity logs for bug {bug_id}"
      [PInt (Z.of_nat (List.length logs)); PStr bug_id] ;;
  ret logs.

(** One turn of the filtering loop of [get_all]. *)
Definition keeps (item : pyval) : M bool :=
  description <- lift (py_get item "description" (PStr "")) ;;
  if negb (truthy description) then ret false
  else
    match json_loads description with
    | Ok data =>
        ty <- lift (py_get data "type" PNone) ;;
        ret (eq_str ty _entity_type)
    | Raise (JSONDecodeError e) =>
        log WARNING "Failed to parse description as JSON: {e}" [PStr e] ;;
        ret false
    | Raise e => raise e
    end.

Definition get_all : M (list ActivityLog.t) :=
  log INFO "Retrieving all activity logs" [] ;;
  items <- CollectionDBService.get_all_items _collection ;;
  filtered_items <- filter_items keeps items ;;
  logs <- for_each _collection_item_to_activity_log filtered_items ;;
  logs <- lift (list_sort ActivityLog.timestamp true logs) ;;
  log INFO "Retrieved {len(logs)} activity logs"
      [PInt (Z.of_nat (List.length logs))] ;;
  ret logs.

End ActivityLogRepository.

(** ** Vocabulary of the statements *)

(** [decode(encode(entity))], per kind. *)
Definition roundtrip_bug (bug : Bug.t) (w : world) : result Bug.t :=
  item <~ BugRepository._bug_to_collection_item bug ;;
  fst (BugRepository._collection_item_to_bug (PDict item) w).

Definition roundtrip_comment (comment : Comment.t) (w : world)
  : result Comment.t :=
  item <~ CommentRepository._comment_to_collection_item comment ;;
  fst (CommentRepository._collection_item_to_comment (PDict item) w).

Definition roundtrip_activity_log (activity_log : ActivityLog.t) (w : world)
  : result ActivityLog.t :=
  item <~ ActivityLogRepository._activity_log_to_collection_item activity_log ;;
  fst (ActivityLogRepository._collection_item_to_activity_log (PDict item) w).

(** The world with more log records and nothing else changed. *)
Definition add_logs (w : world) (l : list log_record) : world :=
  mk_world (store w) (next_id w) (calls w) (logs w ++ l)%list (clock w).

(** A computation that reads the clock and writes the log, and nothing
    else: from two worlds showing the same time it returns the same
    result and appends the same records. *)
Definition clock_only {A} (m : M A) : Prop :=
  forall w w', clock w = clock w' ->
  exists r l, m w = (r, add_logs w l) /\ m w' = (r, add_logs w' l).

(** Whether the filtering loop keeps [item], as a plain test. *)
Definition kept (keep : pyval -> M bool) (w : world) (item : pyval) : bool :=
  match fst (keep item w) with
  | Ok true => true
  | _ => false
  end.

(** The error kinds of the spec, as the repositories raise them. *)
Definition MalformedEnvelope (id : pyval) (e : exn) : Prop :=
  exists prefix msg,
    e = ValueError
          (prefix ++ "': description field contains malformed JSON - {str(e)}")
          [id; PStr msg].

Definition NotFound (bug_id : string) (e : exn) : Prop :=
  e = ValueError "Bug with ID {bug_id} not found" [PStr bug_id].

Definition InvalidArgument (e : exn) : Prop :=
  e = ValueError "updates cannot be empty" [].

(** The outcome of an update that found nothing to update: the error,
    and a store that was read once and not written. *)
Definition fails_untouched (bug_id : string) (w : world)
    (outcome : result Bug.t * world) : Prop :=
  (exists e, fst outcome = Raise e /\ NotFound bug_id e)
  /\ store (snd outcome) = store w
  /\ calls (snd outcome)
     = (calls w ++ [GetItemById BugRepository._collection bug_id])%list.





(** From [w] to [w'] the log grew, by a warning among others. *)
Definition warned (w w' : world) : Prop :=
  exists l r, w' = add_logs w l /\ In r l /\ log_level r = WARNING.

(** [datetime.now(timezone.utc)] in the world [w]. *)
Definition now_of (w : world) : datetime := replace_tzinfo (clock w) utc.

(** The envelope field [k] is absent from [data], or holds a value that
    [ok] accepts. *)
Definition absent_or (ok : pyval -> bool) (data : list (string * pyval))
    (k : string) : bool :=
  match lookup k data with
  | None => true
  | Some v => ok v
  end.

Definition is_opt_str (v : pyval) : bool :=
  match v with PNone | PStr _ => true | _ => false end.

Definition is_bool (v : pyval) : bool :=
  match v with PBool _ => true | _ => false end.

Definition is_str_list (v : pyval) : bool :=
  match v with PList l => forallb is_str l | _ => false end.

(** An envelope of a bug in which any field may be missing and the
    fields that are present have the types of the model. *)
Definition bug_fields_typed (data : list (string * pyval)) : bool :=
  absent_or is_str data "description" && absent_or is_str data "status"
  && absent_or is_str data "priority" && absent_or is_str data "severity"
  && absent_or is_str data "projectId" && absent_or is_str data "reportedBy"
  && absent_or is_opt_str data "assignedTo"
  && absent_or is_str_list data "tags" && absent_or is_bool data "validated".

(** A [created_at] or [updatedAt] value that is neither absent, nor a
    [datetime], nor a string in ISO format. *)
Definition bad_timestamp (v : pyval) : Prop :=
  match v with
  | PNone | PDatetime _ => False
  | PStr s => exists e, fromisoformat s = Raise e
  | _ => True
  end.

(** The envelope type of an item, as the list operations read it. *)
Definition envelope_type (item : pyval) (ty : string) : Prop :=
  exists description data,
    py_get item "description" (PStr "") = Ok description
    /\ json_loads description = Ok data
    /\ py_get data "type" PNone = Ok (PStr ty).

(** Every entity of [result] is the decoding of an item of the store
    whose envelope type is [ty]. *)
Definition only_of_type {B} (ty : string) (decode : pyval -> M B) (w : world)
    (result : list B) : Prop :=
  forall e, In e result ->
  exists item,
    In item (map snd (store w)) /\ envelope_type item ty
    /\ fst (decode item w) = Ok e.

(** Newest first, and oldest first. *)
Definition descending (l : list datetime) : Prop :=
  StronglySorted (fun a b => utc_micros b <= utc_micros a) l.

Definition ascending (l : list datetime) : Prop :=
  StronglySorted (fun a b => utc_micros a <= utc_micros b) l.

(** The world [w] with another collection in the store. *)
Definition with_store (w : world) (items : list (string * pyval)) : world :=
  mk_world items (next_id w) (calls w) (logs w) (clock w).

(** An item whose description is a non-empty string that is not
    JSON. *)
Definition unparseable (item : pyval) : Prop :=
  exists c s msg,
    py_get item "description" (PStr "") = Ok (PStr (String c s))
    /\ json_loads (PStr (String c s)) = Raise (JSONDecodeError msg).

(** The two exceptions that escape the list operations. *)
Definition no_get_list : exn :=
  AttributeError "'list' object has no attribute 'get'".

Definition naive_aware : exn :=
  TypeError "can't compare offset-naive and offset-aware datetimes".

(** ** Sample data *)

Module Sample.

Definition noon : datetime := mk_datetime 2024 1 15 12 0 0 0 None.
Definition later : datetime := mk_datetime 2024 3 1 8 30 0 0 utc.
Definition clock0 : datetime := mk_datetime 2025 6 1 9 0 0 0 None.

Definition empty_world : world := mk_world [] 1 [] [] clock0.

Definition comment : Comment.t := Comment.mk None "b1" "u1" "hello" noon.

Definition bug : Bug.t :=
  Bug.mk None "Crash on save" "Steps" "p1" "u1" None (mk_enum "Open")
         (mk_enum "High") (mk_enum "Minor") ["ui"; "save"] false noon later.

Definition stored_bug : Bug.t :=
  Bug.mk (Some "item-7") "Crash on save" "Steps" "p1" "u1" None
         (mk_enum "Open") (mk_enum "High") (mk_enum "Minor") ["ui"] false
         noon later.

Definition activity_log : ActivityLog.t :=
  ActivityLog.mk None "b1" "Crash on save" "p1" "Tracker" "closed" "u1"
                 "Ann" None (Some "Closed") later.

(** An item as the store returns it. *)
Definition item (id description : string) (created_at : pyval) : pyval :=
  PDict [("__auto_id__", PStr id); ("name", PStr "n");
         ("description", PStr description); ("created_at", created_at)].

Definition world_of (items : list (string * pyval)) : world :=
  mk_world items 1 [] [] clock0.

Definition bug_text : string :=
  q "{'type': 'bug', 'description': 'd', 'projectId': 'p1'}".
Definition comment_text : string :=
  q "{'type': 'comment', 'bugId': 'b1', 'authorId': 'u1', 'message': 'm'}".
Definition log_text : string :=
  q "{'type': 'activity_log', 'bugId': 'b1', 'action': 'closed'}".

(** A shared collection with the three kinds interleaved. *)
Definition mixed : world :=
  world_of
    [("i1", item "i1" bug_text (PStr "2024-01-15T12:00:00+00:00"));
     ("i2", item "i2" comment_text (PStr "2024-01-16T12:00:00"));
     ("i3", item "i3" log_text (PStr "2024-01-15T13:00:00+00:00"));
     ("i4", item "i4" comment_text (PStr "2024-01-14T12:00:00+05:30"));
     ("i5", item "i5" bug_text (PStr "2024-01-17T12:00:00+00:00"));
     ("i6", item "i6" log_text (PStr "2024-01-18T13:00:00+00:00"))].

(** An item created at noon whose envelope holds an [updatedAt] that is
    not a date. *)
Definition stale_item : pyval :=
  item "i1" (q "{'type': 'bug', 'updatedAt': 'yesterday'}")
       (PStr "2024-01-15T12:00:00").

(** An item whose [created_at] is not a date. *)
Definition undated_fields : list (string * pyval) :=
  [("__auto_id__", PStr "i1"); ("name", PStr "n");
   ("description", PStr bug_text); ("created_at", PStr "soon")].

(** An item whose description is a JSON object, not its text. *)
Definition object_fields : list (string * pyval) :=
  [("__auto_id__", PStr "i9"); ("name", PStr "Crash");
   ("description", PDict [("type", PStr "bug")])].

(** An item whose description is valid JSON but not an object. *)
Definition array_item : pyval :=
  item "i7" "[]" (PStr "2024-01-15T12:00:00+00:00").

(** An item whose description is an object, not its text. *)
Definition object_item : pyval :=
  PDict [("__auto_id__", PStr "i8"); ("name", PStr "n");
         ("description",
          PDict [("type", PStr "comment"); ("bugId", PStr "b1")]);
         ("created_at", PStr "2024-01-15T12:00:00+00:00")].

(** An item whose description is not JSON. *)
Definition garbled_item : pyval :=
  item "i9" "not json" (PStr "2024-01-15T12:00:00+00:00").

(** One bug, one comment, one log entry, and an item more. *)
Definition with_item (extra : pyval) : world :=
  world_of
    [("i1", item "i1" bug_text (PStr "2024-01-15T12:00:00+00:00"));
     ("i2", item "i2" comment_text (PStr "2024-01-16T12:00:00"));
     ("x", extra);
     ("i3", item "i3" log_text (PStr "2024-01-15T13:00:00+00:00"))].

(** Two log entries and two comments: one of each stored with a naive
    time, one of each with a UTC offset. *)
Definition naive_and_aware : world :=
  world_of
    [("i1", item "i1" log_text (PStr "2024-01-15T12:00:00"));
     ("i2", item "i2" log_text (PStr "2024-01-16T12:00:00+00:00"));
     ("i3", item "i3" comment_text (PStr "2024-01-15T12:00:00"));
     ("i4", item "i4" comment_text (PStr "2024-01-14T12:00:00+00:00"))].

(** Two entries written through the repository itself, then listed. *)
Definition naive_log : ActivityLog.t :=
  ActivityLog.mk None "b1" "Crash on save" "p1" "Tracker" "opened" "u1"
                 "Ann" None None noon.

Definition two_logs_then_list : M (list ActivityLog.t) :=
  ActivityLogRepository.create naive_log ;;
  ActivityLogRepository.create activity_log ;;
  ActivityLogRepository.get_all.

(** What a computation returns, or the empty list when it raises. *)
Definition returned {A} (m : M (list A)) (w : world) : list A :=
  match fst (m w) with
  | Ok l => l
  | Raise _ => []
  end.

End Sample.

(** * Lemmas and theorems *)

(** ** [isoformat] and [fromisoformat] *)

Lemma append_assoc (a b c : string) : ((a ++ b) ++ c = a ++ (b ++ c))%string.
Proof. induction a as [ | x a IH]; cbn; [reflexivity | now rewrite IH]. Qed.

Lemma append_nil_r (a : string) : (a ++ "" = a)%string.
Proof. induction a as [ | x a IH]; cbn; [reflexivity | now rewrite IH]. Qed.

Lemma length_append (a b : string) :
  String.length (a ++ b) = (String.length a + String.length b)%nat.
Proof. induction a as [ | x a IH]; cbn; [reflexivity | now rewrite IH]. Qed.

Lemma digit_val_digit (k : Z) : 0 <= k <= 9 -> digit_val (digit k) = Some k.
Proof.
  intros H.
  assert (E : k = 0 \/ k = 1 \/ k = 2 \/ k = 3 \/ k = 4 \/ k = 5 \/ k = 6
              \/ k = 7 \/ k = 8 \/ k = 9) by lia.
  repeat (destruct E as [E | E]; [subst; reflexivity | ]).
  subst; reflexivity.
Qed.

Ltac divmod := Z.div_mod_to_equations; lia.

Lemma read2_pad2 (n : Z) (r : string) :
  0 <= n < 100 -> read2 (pad2 n ++ r) = Some (n, r).
Proof.
  intros H. unfold pad2, read2. cbn [append].
  rewrite !digit_val_digit by divmod.
  do 2 f_equal. divmod.
Qed.

Lemma read4_pad4 (n : Z) (r : string) :
  0 <= n < 10000 -> read4 (pad4 n ++ r) = Some (n, r).
Proof.
  intros H. unfold read4, pad4.
  rewrite append_assoc.
  rewrite read2_pad2 by divmod.
  rewrite read2_pad2 by divmod.
  do 2 f_equal. divmod.
Qed.

Lemma expect_cons (c : ascii) (r : string) : expect c (String c r) = Some r.
Proof. unfold expect. now rewrite Ascii.eqb_refl. Qed.

(** The six digits of the microseconds, read as two groups of three. *)
Lemma read3_pad6 (n : Z) (r : string) :
  0 <= n < 1000000 ->
  exists r1, read3 (pad6 n ++ r) = Some (n / 1000, r1)
             /\ starts_tz r1 = false
             /\ read3 r1 = Some (n mod 1000, r).
Proof.
  intros H. unfold pad6, pad2. cbn [append].
  eexists (String _ (String _ (String _ r))).
  split; [ | split ].
  - unfold read3, read2.
    rewrite !digit_val_digit by divmod.
    do 2 f_equal. divmod.
  - cbn [starts_tz].
    assert (E : 0 <= n / 100 mod 100 mod 10 <= 9) by divmod.
    revert E. generalize (n / 100 mod 100 mod 10). intros k E.
    assert (E' : k = 0 \/ k = 1 \/ k = 2 \/ k = 3 \/ k = 4 \/ k = 5 \/ k = 6
              \/ k = 7 \/ k = 8 \/ k = 9) by lia.
    repeat (destruct E' as [E' | E']; [subst; reflexivity | ]).
    subst; reflexivity.
  - unfold read3, read2.
    rewrite !digit_val_digit by divmod. do 2 f_equal. divmod.
Qed.

Lemma in_range_spec (lo x hi : Z) :
  in_range lo x hi = true <-> lo <= x <= hi.
Proof. unfold in_range. rewrite andb_true_iff, !Z.leb_le. tauto. Qed.

Lemma parse_tz_format_offset (off : Z) :
  -1439 <= off <= 1439 ->
  parse_tz (format_offset off) = Some (Some off)
  /\ starts_tz (format_offset off) = true
  /\ (forall c r, format_offset off = String c r -> c <> "."%char).
Proof.
  intros H. unfold format_offset.
  destruct (Z.ltb_spec off 0) as [Hn | Hp].
  - cbn [append parse_tz starts_tz is_sign Ascii.eqb Bool.eqb orb].
    split; [ | split; [reflexivity | intros c r E; inversion E; discriminate] ].
    rewrite read2_pad2 by divmod. rewrite expect_cons.
    rewrite <- (append_nil_r (pad2 (Z.abs off mod 60))).
    rewrite read2_pad2 by divmod.
    do 2 f_equal. divmod.
  - cbn [append parse_tz starts_tz is_sign Ascii.eqb Bool.eqb orb].
    split; [ | split; [reflexivity | intros c r E; inversion E; discriminate] ].
    rewrite read2_pad2 by divmod. rewrite expect_cons.
    rewrite <- (append_nil_r (pad2 (Z.abs off mod 60))).
    rewrite read2_pad2 by divmod.
    do 2 f_equal. divmod.
Qed.

Lemma parse_fraction_roundtrip (us : Z) (tz : option Z) :
  0 <= us <= 999999 ->
  match tz with Some off => -1439 <= off <= 1439 | None => True end ->
  parse_fraction
    ((if us =? 0 then "" else "." ++ pad6 us)
       ++ match tz with None => "" | Some off => format_offset off end)
  = Some (us, tz).
Proof.
  intros Hus Htz.
  assert (Ptz : parse_tz match tz with
                         | None => ""
                         | Some off => format_offset off
                         end = Some tz).
  { destruct tz as [off | ]; [ | reflexivity ].
    now apply parse_tz_format_offset. }
  destruct (Z.eqb_spec us 0) as [E | E].
  - subst us. cbn [append]. unfold parse_fraction.
    rewrite Ptz.
    destruct tz as [off | ]; [ | reflexivity ].
    destruct (format_offset off) as [ | c r] eqn:F; [ reflexivity | ].
    destruct (parse_tz_format_offset off Htz) as (_ & _ & Hdot).
    specialize (Hdot c r F).
    destruct (Ascii.eqb_spec c ".") as [-> | _]; [ congruence | ].
    destruct c as [[] [] [] [] [] [] [] []]; try reflexivity; congruence.
  - cbn [append].
    destruct (read3_pad6 us
                (match tz with None => "" | Some off => format_offset off end))
      as (r1 & R1 & S1 & R2); [ lia | ].
    unfold parse_fraction. rewrite R1, S1, R2, Ptz.
    do 2 f_equal. divmod.
Qed.

Lemma fromisoformat_isoformat (d : datetime) :
  dt_valid d = true -> fromisoformat (isoformat d) = Ok d.
Proof.
  intros V. unfold fromisoformat.
  assert (P : parse_isoformat (isoformat d) = Some d); [ | now rewrite P, V ].
  unfold dt_valid in V.
  rewrite !andb_true_iff, !in_range_spec in V.
  destruct V as (((((((Hy & Hm) & Hd) & Hh) & Hmi) & Hs) & Hus) & Htz).
  assert (Hd' : 1 <= day d <= 31).
  { unfold days_in_month in Hd.
    destruct (month d =? 2); [ destruct (is_leap (year d)) | ]; try lia.
    destruct ((month d =? 4) || (month d =? 6) || (month d =? 9)
              || (month d =? 11)); lia. }
  unfold isoformat, parse_isoformat.
  rewrite read4_pad4 by lia. cbn [append]. rewrite expect_cons.
  rewrite read2_pad2 by lia. cbn [append]. rewrite expect_cons.
  rewrite read2_pad2 by lia. cbn [append].
  unfold parse_time.
  rewrite read2_pad2 by lia. cbn [append].
  rewrite read2_pad2 by lia. cbn [append].
  rewrite read2_pad2 by lia.
  rewrite parse_fraction_roundtrip.
  - now destruct d.
  - lia.
  - destruct (tzinfo d); [ now apply in_range_spec | exact I ].
Qed.

(** ** The JSON decoder never runs out of fuel *)

Local Open Scope nat_scope.

Lemma skip_ws_length (s : string) : String.length (skip_ws s) <= String.length s.
Proof.
  induction s as [ | c r IH]; cbn; [ lia | ].
  destruct (is_ws c); cbn; lia.
Qed.

Lemma scanstring_length (s : string) (str rest : string) :
  scanstring s = POk str rest -> String.length rest < String.length s.
Proof.
  revert str rest.
  induction s as [s IH] using (well_founded_induction
                                 (Wf_nat.well_founded_ltof _ String.length)).
  unfold Wf_nat.ltof in IH.
  intros str rest H. destruct s as [ | c r]; [ discriminate | ].
  cbn [scanstring] in H.
  destruct (Ascii.eqb c dquote).
  { inversion H; subst. cbn; lia. }
  destruct (Ascii.eqb c backslash).
  { destruct r as [ | e r1]; [ discriminate | ].
    destruct (Ascii.eqb e "u").
    - destruct r1 as [ | h1 [ | h2 [ | h3 [ | h4 r2]]]]; try discriminate.
      destruct (decode_u h1 h2 h3 h4); [ | discriminate ].
      destruct (scanstring r2) as [str' rest' | | ] eqn:E; try discriminate.
      inversion H; subst. apply IH in E; cbn in *; lia.
    - destruct (unescape e); [ | discriminate ].
      destruct (scanstring r1) as [str' rest' | | ] eqn:E; try discriminate.
      inversion H; subst. apply IH in E; cbn in *; lia. }
  destruct (Nat.ltb (nat_of_ascii c) 32); [ discriminate | ].
  destruct (scanstring r) as [str' rest' | | ] eqn:E; try discriminate.
  inversion H; subst. apply IH in E; cbn in *; lia.
Qed.

Lemma scanstring_fuel (s : string) : scanstring s <> PFuel.
Proof.
  induction s as [s IH] using (well_founded_induction
                                 (Wf_nat.well_founded_ltof _ String.length)).
  unfold Wf_nat.ltof in IH.
  destruct s as [ | c r]; [ discriminate | ].
  cbn [scanstring].
  destruct (Ascii.eqb c dquote); [ discriminate | ].
  destruct (Ascii.eqb c backslash).
  { destruct r as [ | e r1]; [ discriminate | ].
    destruct (Ascii.eqb e "u").
    - destruct r1 as [ | h1 [ | h2 [ | h3 [ | h4 r2]]]]; try discriminate.
      destruct (decode_u h1 h2 h3 h4); [ | discriminate ].
      destruct (scanstring r2) as [str' rest' | | ] eqn:E; try discriminate.
      exfalso. apply (IH r2); [ cbn; lia | exact E ].
    - destruct (unescape e); [ | discriminate ].
      destruct (scanstring r1) as [str' rest' | | ] eqn:E; try discriminate.
      exfalso. apply (IH r1); [ cbn; lia | exact E ]. }
  destruct (Nat.ltb (nat_of_ascii c) 32); [ discriminate | ].
  destruct (scanstring r) as [str' rest' | | ] eqn:E; try discriminate.
  exfalso. apply (IH r); [ cbn; lia | exact E ].
Qed.

Lemma span_digits_length (s ds rest : string) :
  span_digits s = (ds, rest) ->
  String.length rest <= String.length s
  /\ (ds <> ""%string -> String.length rest < String.length s).
Proof.
  revert ds rest. induction s as [ | c r IH]; intros ds rest H; cbn in H.
  - inversion H; subst. cbn. split; [ lia | congruence ].
  - destruct (is_digit c).
    + destruct (span_digits r) as [ds' rest'] eqn:E.
      inversion H; subst. destruct (IH _ _ eq_refl). cbn. split; lia.
    + inversion H; subst. split; [ lia | congruence ].
Qed.

Lemma strip_prefix_length (p s r : string) :
  strip_prefix p s = Some r ->
  String.length s = String.length p + String.length r.
Proof.
  revert s. induction p as [ | a p IH]; intros s H; cbn in H.
  - inversion H; subst. reflexivity.
  - destruct s as [ | b s]; [ discriminate | ].
    destruct (Ascii.eqb a b); [ | discriminate ].
    apply IH in H. cbn. lia.
Qed.

Lemma scan_frac_length (s fp rest : string) :
  scan_frac s = (fp, rest) -> String.length rest <= String.length s.
Proof.
  unfold scan_frac. intros H.
  destruct s as [ | c r]; [ inversion H; subst; lia | ].
  destruct (Ascii.eqb_spec c ".") as [-> | N].
  - destruct (span_digits r) as [ds rest'] eqn:E.
    destruct (span_digits_length _ _ _ E) as [L _].
    destruct ds; inversion H; subst; cbn in *; lia.
  - assert (E : (fp, rest) = (""%string, String c r)).
    { rewrite <- H. destruct c as [[] [] [] [] [] [] [] []];
        try reflexivity; congruence. }
    inversion E; subst. lia.
Qed.

Lemma scan_exp_length (s ep rest : string) :
  scan_exp s = (ep, rest) -> String.length rest <= String.length s.
Proof.
  unfold scan_exp. intros H.
  destruct s as [ | e r]; [ inversion H; subst; lia | ].
  destruct (Ascii.eqb e "e" || Ascii.eqb e "E");
    [ | inversion H; subst; lia ].
  destruct r as [ | c r'].
  - cbn in H. inversion H; subst. lia.
  - destruct (is_sign c).
    + destruct (span_digits r') as [ds rest'] eqn:E.
      destruct (span_digits_length _ _ _ E) as [L _].
      destruct ds; inversion H; subst; cbn in *; lia.
    + destruct (span_digits (String c r')) as [ds rest'] eqn:E.
      destruct (span_digits_length _ _ _ E) as [L _].
      destruct ds; inversion H; subst; cbn in *; lia.
Qed.

Lemma scan_number_length (s : string) (v : pyval) (rest : string) :
  scan_number s = Some (v, rest) -> String.length rest < String.length s.
Proof.
  unfold scan_number. intros H.
  set (p := match s with
            | String "-" r => (true, r)
            | _ => (false, s)
            end) in H.
  assert (Lp : String.length (snd p) <= String.length s).
  { subst p. destruct s as [ | c r]; [ cbn; lia | ].
    destruct (Ascii.eqb_spec c "-") as [-> | N]; [ cbn; lia | ].
    destruct c as [[] [] [] [] [] [] [] []]; cbn; try lia. }
  destruct p as [neg s1]. cbn [snd] in Lp.
  destruct (scan_int_part s1) as [[ip r1] | ] eqn:Ei; [ | discriminate ].
  assert (L1 : String.length r1 < String.length s1).
  { unfold scan_int_part in Ei. destruct s1 as [ | c r]; [ discriminate | ].
    destruct (Ascii.eqb c "0"); [ inversion Ei; subst; cbn; lia | ].
    destruct (is_digit c) eqn:D; [ | discriminate ].
    inversion Ei as [E]. cbn [span_digits] in E. rewrite D in E.
    destruct (span_digits r) as [ds rest'] eqn:E'.
    inversion E; subst.
    destruct (span_digits_length _ _ _ E'). cbn; lia. }
  destruct (scan_frac r1) as [fp r2] eqn:Ef.
  destruct (scan_exp r2) as [ep r3] eqn:Ee.
  apply scan_frac_length in Ef. apply scan_exp_length in Ee.
  destruct fp, ep; inversion H; subst; lia.
Qed.

Lemma scan_scalar_length (s : string) (v : pyval) (rest : string) :
  scan_scalar s = POk v rest -> String.length rest < String.length s.
Proof.
  unfold scan_scalar. intros H.
  repeat match type of H with
  | match strip_prefix ?p s with _ => _ end = _ =>
      let E := fresh "E" in
      destruct (strip_prefix p s) eqn:E;
      [ apply strip_prefix_length in E; inversion H; subst; cbn in E; lia | ]
  | match scan_number s with _ => _ end = _ =>
      let E := fresh "E" in
      destruct (scan_number s) as [[? ?] | ] eqn:E;
      [ apply scan_number_length in E; inversion H; subst; lia | ]
  end.
  discriminate.
Qed.

Lemma scan_scalar_fuel (s : string) : scan_scalar s <> PFuel.
Proof.
  unfold scan_scalar.
  repeat match goal with
  | |- match ?x with _ => _ end <> _ => destruct x as [[? ?] | ] || destruct x
  end; discriminate.
Qed.

Lemma scan_lengths (fuel : nat) :
  (forall s v r, scan_once fuel s = POk v r -> String.length r < String.length s)
  /\ (forall s vs r,
        array_loop fuel s = POk vs r -> String.length r < String.length s)
  /\ (forall s ps r,
        object_loop fuel s = POk ps r -> String.length r < String.length s).
Proof.
  induction fuel as [ | f (IHv & IHa & IHo)].
  { repeat split; intros; discriminate. }
  split; [ | split ].
  - intros s v r H. cbn [scan_once] in H.
    destruct s as [ | c t]; [ discriminate | ].
    destruct (Ascii.eqb c dquote).
    { destruct (scanstring t) eqn:E; try discriminate.
      inversion H; subst. apply scanstring_length in E. cbn; lia. }
    destruct (Ascii.eqb c "{").
    { pose proof (skip_ws_length t) as L.
      destruct (skip_ws t) as [ | c1 r1]; [ discriminate | ].
      destruct (Ascii.eqb c1 "}").
      { inversion H; subst. cbn in *; lia. }
      destruct (Ascii.eqb c1 dquote); [ | discriminate ].
      destruct (object_loop f r1) eqn:E; try discriminate.
      inversion H; subst. apply IHo in E. cbn in *; lia. }
    destruct (Ascii.eqb c "[").
    { pose proof (skip_ws_length t) as L.
      destruct (skip_ws t) as [ | c1 r1]; [ discriminate | ].
      destruct (Ascii.eqb c1 "]").
      { inversion H; subst. cbn in *; lia. }
      destruct (array_loop f (String c1 r1)) eqn:E; try discriminate.
      inversion H; subst. apply IHa in E. cbn in *; lia. }
    now apply scan_scalar_length in H.
  - intros s vs r H. cbn [array_loop] in H.
    destruct (scan_once f s) as [v s1 | | ] eqn:E; try discriminate.
    apply IHv in E. pose proof (skip_ws_length s1) as L.
    destruct (skip_ws s1) as [ | c t]; [ discriminate | ].
    destruct (Ascii.eqb c "]").
    { inversion H; subst. cbn in *; lia. }
    destruct (Ascii.eqb c ","); [ | discriminate ].
    destruct (array_loop f (skip_ws t)) eqn:E'; try discriminate.
    inversion H; subst. apply IHa in E'.
    pose proof (skip_ws_length t). cbn in *; lia.
  - intros s ps r H. cbn [object_loop] in H.
    destruct (scanstring s) as [key s1 | | ] eqn:E; try discriminate.
    apply scanstring_length in E. pose proof (skip_ws_length s1) as L.
    destruct (skip_ws s1) as [ | c t]; [ discriminate | ].
    destruct (Ascii.eqb c ":"); [ | discriminate ].
    destruct (scan_once f (skip_ws t)) as [v s2 | | ] eqn:E2; try discriminate.
    apply IHv in E2. pose proof (skip_ws_length t) as L2.
    pose proof (skip_ws_length s2) as L3.
    destruct (skip_ws s2) as [ | c2 r2]; [ discriminate | ].
    destruct (Ascii.eqb c2 "}").
    { inversion H; subst. cbn in *; lia. }
    destruct (Ascii.eqb c2 ","); [ | discriminate ].
    pose proof (skip_ws_length r2) as L4.
    destruct (skip_ws r2) as [ | c3 r3]; [ discriminate | ].
    destruct (Ascii.eqb c3 dquote); [ | discriminate ].
    destruct (object_loop f r3) eqn:E3; try discriminate.
    inversion H; subst. apply IHo in E3. cbn in *; lia.
Qed.

Lemma scan_fuel (fuel : nat) :
  (forall s, 2 * String.length s + 1 <= fuel -> scan_once fuel s <> PFuel)
  /\ (forall s, 2 * String.length s + 2 <= fuel -> array_loop fuel s <> PFuel)
  /\ (forall s, 2 * String.length s + 2 <= fuel -> object_loop fuel s <> PFuel).
Proof.
  induction fuel as [ | f (IHv & IHa & IHo)].
  { repeat split; intros; lia. }
  destruct (scan_lengths f) as (Lv & La & Lo).
  split; [ | split ].
  - intros s F. cbn [scan_once].
    destruct s as [ | c t]; [ discriminate | ].
    cbn [String.length] in F.
    destruct (Ascii.eqb c dquote).
    { destruct (scanstring t) eqn:E; try discriminate.
      now apply scanstring_fuel in E. }
    destruct (Ascii.eqb c "{").
    { pose proof (skip_ws_length t) as L.
      destruct (skip_ws t) as [ | c1 r1]; [ discriminate | ].
      destruct (Ascii.eqb c1 "}"); [ discriminate | ].
      destruct (Ascii.eqb c1 dquote); [ | discriminate ].
      destruct (object_loop f r1) eqn:E; try discriminate.
      apply IHo in E; [ easy | cbn in *; lia ]. }
    destruct (Ascii.eqb c "[").
    { pose proof (skip_ws_length t) as L.
      destruct (skip_ws t) as [ | c1 r1]; [ discriminate | ].
      destruct (Ascii.eqb c1 "]"); [ discriminate | ].
      destruct (array_loop f (String c1 r1)) eqn:E; try discriminate.
      apply IHa in E; [ easy | cbn in *; lia ]. }
    apply scan_scalar_fuel.
  - intros s F. cbn [array_loop].
    destruct (scan_once f s) as [v s1 | | ] eqn:E; try discriminate.
    + apply Lv in E. pose proof (skip_ws_length s1) as L.
      destruct (skip_ws s1) as [ | c t]; [ discriminate | ].
      destruct (Ascii.eqb c "]"); [ discriminate | ].
      destruct (Ascii.eqb c ","); [ | discriminate ].
      destruct (array_loop f (skip_ws t)) eqn:E'; try discriminate.
      apply IHa in E'; [ easy | ].
      pose proof (skip_ws_length t). cbn in *; lia.
    + apply IHv in E; [ easy | lia ].
  - intros s F. cbn [object_loop].
    destruct (scanstring s) as [key s1 | | ] eqn:E; try discriminate.
    + apply scanstring_length in E. pose proof (skip_ws_length s1) as L.
      destruct (skip_ws s1) as [ | c t]; [ discriminate | ].
      destruct (Ascii.eqb c ":"); [ | discriminate ].
      pose proof (skip_ws_length t) as L2.
      destruct (scan_once f (skip_ws t)) as [v s2 | | ] eqn:E2;
        try discriminate.
      * apply Lv in E2. pose proof (skip_ws_length s2) as L3.
        destruct (skip_ws s2) as [ | c2 r2]; [ discriminate | ].
        destruct (Ascii.eqb c2 "}"); [ discriminate | ].
        destruct (Ascii.eqb c2 ","); [ | discriminate ].
        pose proof (skip_ws_length r2) as L4.
        destruct (skip_ws r2) as [ | c3 r3]; [ discriminate | ].
        destruct (Ascii.eqb c3 dquote); [ | discriminate ].
        destruct (object_loop f r3) eqn:E3; try discriminate.
        apply IHo in E3; [ easy | cbn in *; lia ].
      * apply IHv in E2; [ easy | cbn in *; lia ].
    + now apply scanstring_fuel in E.
Qed.

(** [json.loads] of a text decodes it or raises [JSONDecodeError] with
    one of the decoder's own messages: the fuel is never the cause. *)
Lemma decode_text_fuel (s : string) :
  scan_once (fuel_for s) (skip_ws s) <> PFuel.
Proof.
  apply scan_fuel. unfold fuel_for. pose proof (skip_ws_length s). lia.
Qed.

Lemma json_loads_str_error (s : string) (e : exn) :
  json_loads (PStr s) = Raise e -> exists msg, e = JSONDecodeError msg.
Proof.
  cbn [json_loads]. unfold decode_text.
  destruct (scan_once (fuel_for s) (skip_ws s)) as [v r | m | ].
  - destruct (skip_ws r); intros H; inversion H; eauto.
  - intros H; inversion H; eauto.
  - intros H; inversion H; eauto.
Qed.

Local Close Scope nat_scope.

(** ** [json.loads] after [json.dumps] *)

Section PyvalInduction.
Variable P : pyval -> Prop.
Hypothesis HNone : P PNone.
Hypothesis HBool : forall b, P (PBool b).
Hypothesis HInt : forall z, P (PInt z).
Hypothesis HFloat : forall lit, P (PFloat lit).
Hypothesis HStr : forall s, P (PStr s).
Hypothesis HList : forall l, Forall P l -> P (PList l).
Hypothesis HDict : forall d, Forall (fun kv => P (snd kv)) d -> P (PDict d).
Hypothesis HDatetime : forall d, P (PDatetime d).

Fixpoint pyval_ind (v : pyval) : P v :=
  match v with
  | PNone => HNone
  | PBool b => HBool b
  | PInt z => HInt z
  | PFloat lit => HFloat lit
  | PStr s => HStr s
  | PList l =>
      HList l ((fix all (l : list pyval) : Forall P l :=
                  match l with
                  | [] => Forall_nil P
                  | x :: r => Forall_cons x (pyval_ind x) (all r)
                  end) l)
  | PDict d =>
      HDict d ((fix all (d : list (string * pyval))
                  : Forall (fun kv => P (snd kv)) d :=
                  match d with
                  | [] => Forall_nil _
                  | (k, x) :: r =>
                      Forall_cons (k, x) (pyval_ind x) (all r)
                  end) d)
  | PDatetime d => HDatetime d
  end.
End PyvalInduction.

Lemma scanstring_escape_char (c : ascii) (r : string) :
  scanstring (escape_char c ++ r)
  = match scanstring r with
    | POk str rest => POk (String c str) rest
    | other => other
    end.
Proof.
  destruct c as [[] [] [] [] [] [] [] []]; reflexivity.
Qed.

Lemma scanstring_escape (s r : string) :
  scanstring (escape_string s ++ String dquote r) = POk s r.
Proof.
  induction s as [ | c s IH]; [ reflexivity | ].
  cbn [escape_string]. rewrite append_assoc, scanstring_escape_char.
  now rewrite IH.
Qed.

Lemma scanstring_dump (k r : string) :
  exists t, dump_string k ++ r = String dquote t /\ scanstring t = POk k r.
Proof.
  eexists. split; [ reflexivity | ].
  cbn [append]. rewrite append_assoc. apply scanstring_escape.
Qed.

(** The text of a value starts with a character that is neither white
    space nor a closing bracket. *)
Definition opens (text : string) : Prop :=
  exists c t, text = String c t /\ is_ws c = false
              /\ Ascii.eqb c "]" = false /\ Ascii.eqb c "}" = false.

Lemma opens_skip_ws (text r : string) :
  opens text -> skip_ws (text ++ r) = text ++ r.
Proof.
  intros (c & t & -> & W & _). cbn. now rewrite W.
Qed.

Lemma opens_append (a b : string) : opens a -> opens (a ++ b).
Proof.
  intros (c & t & -> & W). exists c, (t ++ b)%string. now split.
Qed.

Lemma json_encode_opens (v : pyval) (text : string) :
  plain_json v = true -> json_encode v = Ok text -> opens text.
Proof.
  destruct v as [ | [ | ] | z | lit | s | l | d | dt ]; cbn;
    try discriminate; intros _ H.
  - inversion H. now exists "n"%char, "ull".
  - inversion H. now exists "t"%char, "rue".
  - inversion H. now exists "f"%char, "alse".
  - inversion H. eexists _, _. split; [ reflexivity | now split ].
  - destruct (encode_items json_encode l); inversion H.
    eexists _, _. split; [ reflexivity | now split ].
  - destruct (encode_members json_encode d); inversion H.
    eexists _, _. split; [ reflexivity | now split ].
Qed.

Lemma encode_items_opens (l : list pyval) (body : string) :
  l <> [] -> forallb plain_json l = true ->
  encode_items json_encode l = Ok body -> opens body.
Proof.
  destruct l as [ | x r]; [ congruence | ]. intros _ Hp H.
  cbn in Hp. apply andb_true_iff in Hp as [Hx _].
  cbn in H. destruct (json_encode x) as [a | ] eqn:E; [ | discriminate ].
  apply json_encode_opens in E; [ | exact Hx ].
  cbn in H. destruct r.
  - inversion H; subst. exact E.
  - destruct (encode_items json_encode (p :: r)); inversion H.
    now apply opens_append.
Qed.

Lemma lookup_dict_set_fresh (d : list (string * pyval)) (k : string) (v : pyval) :
  existsb (String.eqb k) (map fst d) = false -> dict_set d k v = (d ++ [(k, v)])%list.
Proof.
  induction d as [ | [k' v'] d IH]; cbn; [ reflexivity | ].
  intros H. apply orb_false_iff in H as [N H].
  rewrite String.eqb_sym in N. rewrite N. now rewrite IH.
Qed.

Lemma dict_of_pairs_distinct (d : list (string * pyval)) :
  distinct (map fst d) = true -> dict_of_pairs d = d.
Proof.
  unfold dict_of_pairs.
  enough (G : forall acc,
             distinct (map fst (acc ++ d)%list) = true ->
             fold_left (fun d kv => dict_set d (fst kv) (snd kv)) d acc
             = (acc ++ d)%list) by (apply (G [])).
  induction d as [ | [k v] d IH]; intros acc H; cbn.
  - now rewrite app_nil_r.
  - rewrite lookup_dict_set_fresh.
    + rewrite IH; rewrite <- app_assoc; [ reflexivity | exact H ].
    + clear IH. induction acc as [ | [k' v'] acc IHa]; [ reflexivity | ].
      cbn in H. apply andb_true_iff in H as [N H].
      cbn. rewrite IHa by exact H. rewrite orb_false_r.
      apply negb_true_iff in N.
      rewrite map_app, existsb_app in N. cbn in N.
      apply orb_false_iff in N as [_ N]. apply orb_false_iff in N as [N _].
      now rewrite String.eqb_sym.
Qed.

Definition decodes (v : pyval) : Prop :=
  plain_json v = true ->
  forall text, json_encode v = Ok text ->
  forall fuel rest,
    scan_once fuel (text ++ rest) = PFuel
    \/ scan_once fuel (text ++ rest) = POk v rest.

Lemma array_loop_items (l : list pyval) :
  Forall decodes l -> l <> [] -> forallb plain_json l = true ->
  forall body, encode_items json_encode l = Ok body ->
  forall fuel rest,
    array_loop fuel (body ++ String "]" rest) = PFuel
    \/ array_loop fuel (body ++ String "]" rest) = POk l rest.
Proof.
  induction 1 as [ | x r Hx Hr IH]; [ congruence | ].
  intros _ Hp body E fuel rest.
  cbn in Hp. apply andb_true_iff in Hp as [Px Pr].
  cbn in E. destruct (json_encode x) as [a | ] eqn:Ea; [ | discriminate ].
  cbn in E.
  destruct fuel as [ | f]; [ now left | ]. cbn [array_loop].
  destruct r as [ | y r'].
  - inversion E; subst body.
    destruct (Hx Px a Ea f (String "]" rest)) as [-> | ->]; [ now left | ].
    right. reflexivity.
  - destruct (encode_items json_encode (y :: r')) as [b | ] eqn:Eb;
      [ | discriminate ].
    inversion E; subst body. rewrite !append_assoc. cbn [append].
    destruct (Hx Px a Ea f (String "," (String " " (b ++ String "]" rest))))
      as [-> | ->]; [ now left | ].
    change (skip_ws (String "," ?r)) with (String "," r).
    cbn [Ascii.eqb Bool.eqb].
    change (skip_ws (String " " (b ++ String "]" rest)))
      with (skip_ws (b ++ String "]" rest)).
    rewrite opens_skip_ws
      by (eapply encode_items_opens; [ | exact Pr | exact Eb ]; congruence).
    destruct (IH ltac:(congruence) Pr b eq_refl f rest) as [-> | ->];
      [ now left | now right ].
Qed.

Lemma member_text (k a y : string) :
  exists t,
    ((dump_string k ++ ": " ++ a) ++ y)%string = String dquote t
    /\ scanstring t = POk k (String ":" (String " " (a ++ y))).
Proof.
  replace ((dump_string k ++ ": " ++ a) ++ y)%string
    with (dump_string k ++ String ":" (String " " (a ++ y)))%string
    by (now rewrite !append_assoc).
  apply scanstring_dump.
Qed.

Lemma object_loop_members (d : list (string * pyval)) :
  Forall (fun kv => decodes (snd kv)) d -> d <> [] ->
  forallb (fun kv => plain_json (snd kv)) d = true ->
  forall body, encode_members json_encode d = Ok body ->
  forall rest, exists t,
    (body ++ String "}" rest)%string = String dquote t
    /\ forall fuel,
         object_loop fuel t = PFuel \/ object_loop fuel t = POk d rest.
Proof.
  induction 1 as [ | [k x] r Hx Hr IH]; [ congruence | ].
  intros _ Hp body E rest.
  cbn in Hp. apply andb_true_iff in Hp as [Px Pr].
  cbn [snd] in Hx.
  cbn [encode_members] in E.
  destruct (json_encode x) as [a | ] eqn:Ea; [ | discriminate ].
  cbn [bind_result] in E. cbv zeta in E.
  pose proof (json_encode_opens _ _ Px Ea) as Oa.
  destruct r as [ | kv r'].
  - replace body with (dump_string k ++ ": " ++ a)%string by congruence.
    destruct (member_text k a (String "}" rest)) as (t & -> & St).
    exists t. split; [ reflexivity | ].
    intros [ | f]; [ now left | ]. cbn [object_loop]. rewrite St.
    change (skip_ws (String ":" ?r)) with (String ":" r).
    cbn [Ascii.eqb Bool.eqb].
    change (skip_ws (String " " ?r)) with (skip_ws r).
    rewrite opens_skip_ws by exact Oa.
    destruct (Hx Px a Ea f (String "}" rest)) as [-> | ->]; [ now left | ].
    right. reflexivity.
  - destruct (encode_members json_encode (kv :: r')) as [b | ] eqn:Eb;
      [ | discriminate ].
    cbn [bind_result] in E.
    replace body with ((dump_string k ++ ": " ++ a) ++ ", " ++ b)%string
      by congruence.
    destruct (IH ltac:(congruence) Pr b eq_refl rest) as (t' & Et' & IH').
    replace (((dump_string k ++ ": " ++ a) ++ ", " ++ b) ++ String "}" rest)%string
      with ((dump_string k ++ ": " ++ a)
              ++ String "," (String " " (b ++ String "}" rest)))%string
      by (now rewrite !append_assoc).
    destruct (member_text k a (String "," (String " " (b ++ String "}" rest))))
      as (t & -> & St).
    exists t. split; [ reflexivity | ].
    intros [ | f]; [ now left | ]. cbn [object_loop]. rewrite St.
    change (skip_ws (String ":" ?r)) with (String ":" r).
    cbn [Ascii.eqb Bool.eqb].
    change (skip_ws (String " " ?r)) with (skip_ws r).
    rewrite opens_skip_ws by exact Oa.
    destruct (Hx Px a Ea f (String "," (String " " (b ++ String "}" rest))))
      as [-> | ->]; [ now left | ].
    change (skip_ws (String "," ?r)) with (String "," r).
    cbn [Ascii.eqb Bool.eqb].
    change (skip_ws (String " " ?r)) with (skip_ws r).
    rewrite Et'.
    change (skip_ws (String dquote ?r)) with (String dquote r).
    change (Ascii.eqb dquote dquote) with true. cbv iota.
    destruct (IH' f) as [-> | ->]; [ now left | now right ].
Qed.

Lemma json_encode_decodes (v : pyval) : decodes v.
Proof.
  induction v as [ | b | z | lit | s | l IH | d IH | dt ] using pyval_ind;
    unfold decodes; cbn [plain_json]; try discriminate;
    intros Hp text E fuel rest;
    (destruct fuel as [ | f]; [ now left | ]).
  - right. inversion E; subst. reflexivity.
  - right. destruct b; inversion E; subst; reflexivity.
  - right. inversion E; subst. cbn [dump_string append scan_once].
    change (Ascii.eqb dquote dquote) with true. cbv iota.
    rewrite append_assoc. cbn [append]. now rewrite scanstring_escape.
  - cbn [json_encode] in E.
    destruct (encode_items json_encode l) as [body | ] eqn:Eb;
      [ | discriminate ].
    inversion E; subst text.
    destruct l as [ | x r].
    + right. inversion Eb; subst. reflexivity.
    + assert (Nn : x :: r <> []) by discriminate.
      pose proof (encode_items_opens _ _ Nn Hp Eb) as Ob.
      cbn [append scan_once]. change (Ascii.eqb "[" dquote) with false.
      change (Ascii.eqb "[" "{") with false.
      change (Ascii.eqb "[" "[") with true. cbv iota.
      rewrite append_assoc. cbn [append].
      rewrite opens_skip_ws by exact Ob.
      destruct Ob as (c & t & -> & _ & Nb & _). cbn [append]. rewrite Nb.
      change (String c (t ++ String "]" rest))
        with (String c t ++ String "]" rest)%string.
      destruct (array_loop_items _ IH Nn Hp _ Eb f rest)
        as [-> | ->]; [ now left | now right ].
  - cbn [json_encode] in E.
    destruct (encode_members json_encode d) as [body | ] eqn:Eb;
      [ | discriminate ].
    inversion E; subst text.
    apply andb_true_iff in Hp as [Hp Hd].
    destruct d as [ | kv r].
    + right. inversion Eb; subst. reflexivity.
    + assert (Nn : kv :: r <> []) by discriminate.
      destruct (object_loop_members _ IH Nn Hp _ Eb rest) as (t & Et & Ht).
      cbn [append scan_once]. change (Ascii.eqb "{" dquote) with false.
      change (Ascii.eqb "{" "{") with true. cbv iota.
      rewrite append_assoc. cbn [append]. rewrite Et.
      change (skip_ws (String dquote ?r)) with (String dquote r).
      change (Ascii.eqb dquote "}") with false.
      change (Ascii.eqb dquote dquote) with true. cbv iota.
      destruct (Ht f) as [-> | ->]; [ now left | ].
      right. now rewrite dict_of_pairs_distinct.
Qed.

(** [json.loads(json.dumps(v)) == v] for a value of the lossless
    fragment. *)
Lemma json_loads_dumps (v : pyval) (text : string) :
  plain_json v = true -> json_dumps v = Ok text ->
  json_loads (PStr text) = Ok v.
Proof.
  intros Hp E. cbn [json_loads]. unfold decode_text.
  pose proof (decode_text_fuel text) as F.
  rewrite <- (append_nil_r text) at 2. rewrite <- (append_nil_r text) in F at 2.
  rewrite opens_skip_ws in * by (eapply json_encode_opens; eassumption).
  destruct (json_encode_decodes v Hp text E (fuel_for text) "") as [R | R];
    [ congruence | ].
  now rewrite R.
Qed.


(** ** The codecs *)

Lemma encode_strings (l : list string) :
  exists body, encode_items json_encode (map PStr l) = Ok body.
Proof.
  induction l as [ | s l (body & IH)]; [ now exists "" | ].
  destruct l as [ | s' l]; [ cbn; eauto | ].
  cbn [map encode_items json_encode bind_result] in *.
  rewrite IH. cbn [bind_result]. eauto.
Qed.

Lemma plain_strings (l : list string) : forallb plain_json (map PStr l) = true.
Proof. induction l; [ reflexivity | exact IHl ]. Qed.

Lemma as_str_items_strings (field : string) (l : list string) :
  as_str_items field (map PStr l) = Ok l.
Proof.
  induction l as [ | s l IH]; [ reflexivity | ].
  cbn. now rewrite IH.
Qed.

Lemma plain_of_opt_str (o : option string) : plain_json (of_opt_str o) = true.
Proof. now destruct o. Qed.

Lemma encode_of_opt_str (o : option string) :
  exists text, json_encode (of_opt_str o) = Ok text.
Proof. destruct o; cbn; eauto. Qed.

Lemma bug_envelope_plain (b : Bug.t) :
  plain_json (PDict (BugRepository.envelope b)) = true.
Proof.
  cbn. rewrite plain_strings, plain_of_opt_str. reflexivity.
Qed.

Lemma bug_envelope_dumps (b : Bug.t) :
  exists text, json_dumps (PDict (BugRepository.envelope b)) = Ok text.
Proof.
  unfold json_dumps, BugRepository.envelope.
  cbn [json_encode encode_members bind_result].
  destruct (encode_of_opt_str (Bug.assignedTo b)) as (t1 & ->).
  destruct (encode_strings (Bug.tags b)) as (t2 & ->).
  cbn [bind_result]. destruct (Bug.validated b); cbn [bind_result]; eauto.
Qed.

Arguments json_loads : simpl never.
Arguments json_dumps : simpl never.
Arguments fromisoformat : simpl never.
Arguments isoformat : simpl never.

Lemma bug_roundtrip (w : world) (b : Bug.t) :
  dt_valid (Bug.createdAt b) = true -> dt_valid (Bug.updatedAt b) = true ->
  exists item,
    BugRepository._bug_to_collection_item b = Ok item
    /\ BugRepository._collection_item_to_bug (PDict item) w
       = (Ok (Bug.without_id b), w).
Proof.
  intros Vc Vu.
  destruct (bug_envelope_dumps b) as (text & Et).
  pose proof (json_loads_dumps _ _ (bug_envelope_plain b) Et) as L.
  unfold BugRepository._bug_to_collection_item. rewrite Et.
  cbn [bind_result]. eexists. split; [ reflexivity | ].
  unfold BugRepository._collection_item_to_bug.
  cbn. rewrite L. cbn.
  rewrite (fromisoformat_isoformat _ Vc). cbn.
  rewrite (fromisoformat_isoformat _ Vu). cbn.
  unfold Bug.init. cbn. rewrite as_str_items_strings. cbn.
  destruct b as [i ti de pr re [asg | ] [st] [pri] [sev] tg va ca ua];
    reflexivity.
Qed.

Lemma comment_envelope_dumps (c : Comment.t) :
  exists text,
    json_dumps (PDict (CommentRepository.envelope c)) = Ok text
    /\ json_loads (PStr text) = Ok (PDict (CommentRepository.envelope c)).
Proof.
  eexists. split; [ reflexivity | ].
  now apply json_loads_dumps.
Qed.

Lemma comment_roundtrip (w : world) (c : Comment.t) :
  dt_valid (Comment.createdAt c) = true ->
  exists item,
    CommentRepository._comment_to_collection_item c = Ok item
    /\ CommentRepository._collection_item_to_comment (PDict item) w
       = (Ok (Comment.set_createdAt (Comment.without_id c)
                (ensure_aware (Comment.createdAt c))), w).
Proof.
  intros Vc.
  destruct (comment_envelope_dumps c) as (text & Et & L).
  unfold CommentRepository._comment_to_collection_item. rewrite Et.
  cbn [bind_result]. eexists. split; [ reflexivity | ].
  unfold CommentRepository._collection_item_to_comment.
  cbn. rewrite L. cbn.
  rewrite (fromisoformat_isoformat _ Vc). cbn.
  reflexivity.
Qed.

Lemma activity_log_envelope_dumps (a : ActivityLog.t) :
  exists text,
    json_dumps (PDict (ActivityLogRepository.envelope a)) = Ok text
    /\ json_loads (PStr text) = Ok (PDict (ActivityLogRepository.envelope a)).
Proof.
  assert (D : exists text,
             json_dumps (PDict (ActivityLogRepository.envelope a)) = Ok text).
  { unfold json_dumps, ActivityLogRepository.envelope.
    cbn [json_encode encode_members bind_result].
    destruct (encode_of_opt_str (ActivityLog.assignedToName a)) as (t1 & ->).
    destruct (encode_of_opt_str (ActivityLog.newStatus a)) as (t2 & ->).
    cbn [bind_result]. eauto. }
  destruct D as (text & D). exists text. split; [ exact D | ].
  apply json_loads_dumps; [ | exact D ].
  cbn. now rewrite !plain_of_opt_str.
Qed.

Lemma activity_log_roundtrip (w : world) (a : ActivityLog.t) :
  dt_valid (ActivityLog.timestamp a) = true ->
  exists item,
    ActivityLogRepository._activity_log_to_collection_item a = Ok item
    /\ ActivityLogRepository._collection_item_to_activity_log (PDict item) w
       = (Ok (ActivityLog.without_id a), w).
Proof.
  intros Vt.
  destruct (activity_log_envelope_dumps a) as (text & Et & L).
  unfold ActivityLogRepository._activity_log_to_collection_item. rewrite Et.
  cbn [bind_result]. eexists. split; [ reflexivity | ].
  unfold ActivityLogRepository._collection_item_to_activity_log.
  cbn. rewrite L. cbn.
  rewrite (fromisoformat_isoformat _ Vt). cbn.
  unfold ActivityLog.init. cbn.
  destruct a as [i b bt p pn ac pb pbn [an | ] [ns | ] ts]; reflexivity.
Qed.

(** ** Round trip through the codec *)

(** C1, as stated, fails: a comment whose [createdAt] is naive comes
    back with UTC attached, and a bug that already has an id comes back
    without it. *)
Lemma C1_roundtrip_counterexample :
  roundtrip_comment Sample.comment Sample.empty_world <> Ok Sample.comment
  /\ roundtrip_bug Sample.stored_bug Sample.empty_world
     <> Ok Sample.stored_bug.
Proof.
  split; vm_compute; intros H; discriminate H.
Qed.

Lemma ensure_aware_aware (d : datetime) :
  tzinfo d <> None -> ensure_aware d = d.
Proof. unfold ensure_aware. destruct (tzinfo d); congruence. Qed.

(** C1, amended: decoding the item produced by encoding an entity
    reproduces every field but the id, which decodes as absent; for a
    comment, a naive [createdAt] comes back with UTC attached and an
    aware one is reproduced as it is. *)
Theorem C1_roundtrip (w : world) (bug : Bug.t) (comment : Comment.t)
    (activity_log : ActivityLog.t) :
  dt_valid (Bug.createdAt bug) = true ->
  dt_valid (Bug.updatedAt bug) = true ->
  dt_valid (Comment.createdAt comment) = true ->
  dt_valid (ActivityLog.timestamp activity_log) = true ->
  roundtrip_bug bug w = Ok (Bug.without_id bug)
  /\ roundtrip_comment comment w
     = Ok (Comment.set_createdAt (Comment.without_id comment)
             (ensure_aware (Comment.createdAt comment)))
  /\ roundtrip_activity_log activity_log w
     = Ok (ActivityLog.without_id activity_log).
Proof.
  intros Vc Vu Vcc Vt.
  destruct (bug_roundtrip w bug Vc Vu) as (ib & Eb & Db).
  destruct (comment_roundtrip w comment Vcc) as (ic & Ec & Dc).
  destruct (activity_log_roundtrip w activity_log Vt) as (ia & Ea & Da).
  unfold roundtrip_bug, roundtrip_comment, roundtrip_activity_log.
  rewrite Eb, Ec, Ea. cbn [bind_result]. rewrite Db, Dc, Da. cbn [fst].
  repeat split.
Qed.

(** The round trip on a bug and on a log entry with valid times. *)
Lemma C1_roundtrip_witness :
  roundtrip_bug Sample.bug Sample.empty_world = Ok (Bug.without_id Sample.bug)
  /\ roundtrip_activity_log Sample.activity_log Sample.empty_world
     = Ok (ActivityLog.without_id Sample.activity_log).
Proof.
  destruct (C1_roundtrip Sample.empty_world Sample.bug Sample.comment
              Sample.activity_log eq_refl eq_refl eq_refl eq_refl)
    as (Hb & _ & Ha).
  exact (conj Hb Ha).
Defined.

(** ** Computations that only read the clock and write the log *)

Lemma add_logs_nil (w : world) : add_logs w [] = w.
Proof. destruct w. unfold add_logs. cbn. now rewrite app_nil_r. Qed.

Lemma add_logs_app (w : world) (l1 l2 : list log_record) :
  add_logs (add_logs w l1) l2 = add_logs w (l1 ++ l2).
Proof. unfold add_logs. cbn. now rewrite app_assoc. Qed.

Lemma clock_only_ret {A} (a : A) : clock_only (ret a).
Proof.
  intros w w' _. exists (Ok a), []. now rewrite !add_logs_nil.
Qed.

Lemma clock_only_raise {A} (e : exn) : clock_only (@raise A e).
Proof.
  intros w w' _. exists (Raise e), []. now rewrite !add_logs_nil.
Qed.

Lemma clock_only_lift {A} (r : result A) : clock_only (lift r).
Proof.
  intros w w' _. exists r, []. now rewrite !add_logs_nil.
Qed.

Lemma clock_only_log (l : level) (t : string) (args : list pyval) :
  clock_only (log l t args).
Proof. intros w w' _. exists (Ok tt), [mk_log l t args]. now split. Qed.

Lemma clock_only_now : clock_only now_utc.
Proof.
  intros w w' E. exists (Ok (replace_tzinfo (clock w) utc)), [].
  unfold now_utc. rewrite !add_logs_nil, E. now split.
Qed.

Lemma clock_only_bind {A B} (m : M A) (k : A -> M B) :
  clock_only m -> (forall a, clock_only (k a)) -> clock_only (bind m k).
Proof.
  intros Hm Hk w w' E. destruct (Hm w w' E) as (r & l & E1 & E2).
  unfold bind. rewrite E1, E2. destruct r as [a | e].
  - destruct (Hk a (add_logs w l) (add_logs w' l) E) as (r2 & l2 & E3 & E4).
    exists r2, (l ++ l2)%list. rewrite E3, E4, !add_logs_app. now split.
  - exists (Raise e), l. now split.
Qed.

Create HintDb clock discriminated.

(** Closes a [clock_only] goal over a computation written with the
    notations of the monad. *)
Ltac clock_only :=
  repeat first
    [ apply clock_only_ret | apply clock_only_raise | apply clock_only_lift
    | apply clock_only_log | apply clock_only_now
    | apply clock_only_bind; [ | intros ? ]
    | match goal with
      | |- clock_only (match ?x with _ => _ end) => destruct x
      | |- clock_only (if ?x then _ else _) => destruct x
      end
    | solve [ auto with clock ] ].

Lemma clock_only_run {A} (m : M A) (w : world) :
  clock_only m -> exists r l, m w = (r, add_logs w l).
Proof. intros H. destruct (H w w eq_refl) as (r & l & E & _). eauto. Qed.

(** The result does not depend on the log, the calls or the store. *)
Lemma clock_only_fst {A} (m : M A) (w w' : world) :
  clock_only m -> clock w = clock w' -> fst (m w) = fst (m w').
Proof.
  intros H E. destruct (H w w' E) as (r & l & E1 & E2). now rewrite E1, E2.
Qed.

Lemma clock_only_unwrap (item : pyval) : clock_only (unwrap_payload item).
Proof. unfold unwrap_payload. clock_only. Qed.
#[local] Hint Resolve clock_only_unwrap : clock.

Lemma bug_parse_created_at_clock_only (i v : pyval) :
  clock_only (BugRepository.parse_created_at i v).
Proof. unfold BugRepository.parse_created_at. clock_only. Qed.
#[local] Hint Resolve bug_parse_created_at_clock_only : clock.

Lemma bug_parse_updated_at_clock_only (i v : pyval) (c : datetime) :
  clock_only (BugRepository.parse_updated_at i c v).
Proof. unfold BugRepository.parse_updated_at. clock_only. Qed.
#[local] Hint Resolve bug_parse_updated_at_clock_only : clock.

Lemma comment_parse_created_at_clock_only (i v : pyval) :
  clock_only (CommentRepository.parse_created_at i v).
Proof. unfold CommentRepository.parse_created_at. clock_only. Qed.
#[local] Hint Resolve comment_parse_created_at_clock_only : clock.

Lemma activity_log_parse_created_at_clock_only (i v : pyval) :
  clock_only (ActivityLogRepository.parse_created_at i v).
Proof. unfold ActivityLogRepository.parse_created_at. clock_only. Qed.
#[local] Hint Resolve activity_log_parse_created_at_clock_only : clock.

Lemma bug_decode_clock_only (item : pyval) :
  clock_only (BugRepository._collection_item_to_bug item).
Proof.
  unfold BugRepository._collection_item_to_bug.
  clock_only.
Qed.
#[local] Hint Resolve bug_decode_clock_only : clock.

Lemma comment_decode_clock_only (item : pyval) :
  clock_only (CommentRepository._collection_item_to_comment item).
Proof.
  unfold CommentRepository._collection_item_to_comment.
  clock_only.
Qed.
#[local] Hint Resolve comment_decode_clock_only : clock.

Lemma activity_log_decode_clock_only (item : pyval) :
  clock_only (ActivityLogRepository._collection_item_to_activity_log item).
Proof.
  unfold ActivityLogRepository._collection_item_to_activity_log.
  clock_only.
Qed.
#[local] Hint Resolve activity_log_decode_clock_only : clock.

Lemma bug_keeps_clock_only p s a (item : pyval) :
  clock_only (BugRepository.keeps p s a item).
Proof. unfold BugRepository.keeps. clock_only. Qed.
#[local] Hint Resolve bug_keeps_clock_only : clock.

Lemma comment_keeps_clock_only (b : string) (item : pyval) :
  clock_only (CommentRepository.keeps b item).
Proof. unfold CommentRepository.keeps. clock_only. Qed.
#[local] Hint Resolve comment_keeps_clock_only : clock.

Lemma activity_log_keeps_bug_clock_only (b : string) (item : pyval) :
  clock_only (ActivityLogRepository.keeps_bug b item).
Proof. unfold ActivityLogRepository.keeps_bug. clock_only. Qed.
#[local] Hint Resolve activity_log_keeps_bug_clock_only : clock.

Lemma activity_log_keeps_clock_only (item : pyval) :
  clock_only (ActivityLogRepository.keeps item).
Proof. unfold ActivityLogRepository.keeps. clock_only. Qed.
#[local] Hint Resolve activity_log_keeps_clock_only : clock.

Lemma filter_items_clock_only (keep : pyval -> M bool) (items : list pyval) :
  (forall item, clock_only (keep item)) -> clock_only (filter_items keep items).
Proof.
  intros H. induction items as [ | item rest IH]; cbn [filter_items];
    clock_only.
Qed.
#[local] Hint Resolve filter_items_clock_only : clock.

Lemma for_each_clock_only {A B} (f : A -> M B) (items : list A) :
  (forall item, clock_only (f item)) -> clock_only (for_each f items).
Proof.
  intros H. induction items as [ | item rest IH]; cbn [for_each]; clock_only.
Qed.
#[local] Hint Resolve for_each_clock_only : clock.

(** ** The list operations *)

Lemma clock_add_logs (w : world) (l : list log_record) :
  clock (add_logs w l) = clock w.
Proof. reflexivity. Qed.

Lemma kept_add_logs (keep : pyval -> M bool) (w : world) l (item : pyval) :
  clock_only (keep item) -> kept keep (add_logs w l) item = kept keep w item.
Proof.
  intros H. unfold kept.
  now rewrite (clock_only_fst _ (add_logs w l) w H (clock_add_logs w l)).
Qed.

(** When the filtering loop completes, it has kept exactly the items
    its test accepts, in their order. *)
Lemma filter_items_ok (keep : pyval -> M bool) (items : list pyval)
    (w w' : world) (kept_items : list pyval) :
  (forall item, clock_only (keep item)) ->
  filter_items keep items w = (Ok kept_items, w') ->
  kept_items = filter (kept keep w) items.
Proof.
  intros Hk. revert w w' kept_items.
  induction items as [ | item rest IH]; intros w w' fl H; cbn in H.
  - now inversion H.
  - unfold bind in H.
    destruct (clock_only_run (keep item) w (Hk item)) as (r & l & E).
    rewrite E in H. destruct r as [k | e]; [ | discriminate ].
    destruct (filter_items keep rest (add_logs w l)) as [[fl' | e] w''] eqn:F;
      [ | discriminate ].
    apply IH in F. cbn in H. inversion H; subst.
    assert (K : kept keep w item = k).
    { unfold kept. rewrite E. now destruct k. }
    assert (G : filter (kept keep (add_logs w l)) rest
                = filter (kept keep w) rest).
    { apply filter_ext. intros x. now apply kept_add_logs. }
    cbn [filter]. rewrite K, G. reflexivity.
Qed.

(** The loop completes when its test raises on no item. *)
Lemma filter_items_total (keep : pyval -> M bool) (items : list pyval)
    (w : world) :
  (forall item, clock_only (keep item)) ->
  (forall item, In item items -> exists b, fst (keep item w) = Ok b) ->
  exists l, filter_items keep items w
            = (Ok (filter (kept keep w) items), add_logs w l).
Proof.
  intros Hk. revert w.
  induction items as [ | item rest IH]; intros w H; cbn [filter_items].
  - exists []. now rewrite add_logs_nil.
  - unfold bind.
    destruct (clock_only_run (keep item) w (Hk item)) as (r & l & E).
    destruct (H item (or_introl eq_refl)) as (b & Eb).
    rewrite E in Eb. cbn in Eb. subst r. rewrite E.
    destruct (IH (add_logs w l)) as (l' & F).
    { intros x Hx. destruct (H x (or_intror Hx)) as (bx & Ex). exists bx.
      now rewrite (clock_only_fst _ (add_logs w l) w (Hk x)
                     (clock_add_logs w l)). }
    rewrite F. cbn. exists (l ++ l')%list. rewrite add_logs_app.
    assert (K : kept keep w item = b).
    { unfold kept. rewrite E. now destruct b. }
    assert (G : filter (kept keep (add_logs w l)) rest
                = filter (kept keep w) rest).
    { apply filter_ext. intros x. now apply kept_add_logs. }
    rewrite K, G. reflexivity.
Qed.

(** When the comprehension completes, each result is the decoding of
    the item at its position. *)
Lemma for_each_ok {A B} (f : A -> M B) (items : list A) (w w' : world)
    (ys : list B) :
  (forall item, clock_only (f item)) ->
  for_each f items w = (Ok ys, w') ->
  Forall2 (fun x y => fst (f x w) = Ok y) items ys.
Proof.
  intros Hf. revert w w' ys.
  induction items as [ | item rest IH]; intros w w' ys H; cbn in H.
  - inversion H. constructor.
  - unfold bind in H.
    destruct (clock_only_run (f item) w (Hf item)) as (r & l & E).
    rewrite E in H. destruct r as [y | e]; [ | discriminate ].
    destruct (for_each f rest (add_logs w l)) as [[ys' | e] w''] eqn:F;
      [ | discriminate ].
    apply IH in F. cbn in H. inversion H; subst.
    constructor; [ now rewrite E | ].
    eapply Forall2_impl; [ | exact F ].
    intros x z Hx. cbn in Hx.
    now rewrite <- (clock_only_fst _ (add_logs w l) w (Hf x)
                      (clock_add_logs w l)).
Qed.

Lemma for_each_total {A B} (f : A -> M B) (items : list A) (w : world) :
  (forall item, clock_only (f item)) ->
  (forall item, In item items -> exists y, fst (f item w) = Ok y) ->
  exists ys l, for_each f items w = (Ok ys, add_logs w l)
               /\ List.length ys = List.length items.
Proof.
  intros Hf. revert w.
  induction items as [ | item rest IH]; intros w H; cbn [for_each].
  - exists [], []. now rewrite add_logs_nil.
  - unfold bind.
    destruct (clock_only_run (f item) w (Hf item)) as (r & l & E).
    destruct (H item (or_introl eq_refl)) as (y & Ey).
    rewrite E in Ey. cbn in Ey. subst r. rewrite E.
    destruct (IH (add_logs w l)) as (ys & l' & F & Len).
    { intros x Hx. destruct (H x (or_intror Hx)) as (yx & Ex). exists yx.
      now rewrite (clock_only_fst _ (add_logs w l) w (Hf x)
                     (clock_add_logs w l)). }
    rewrite F. cbn. exists (y :: ys), (l ++ l')%list.
    rewrite add_logs_app. cbn. now rewrite Len.
Qed.

(** Splits the hypothesis [H] along the tests the computation makes;
    the branches that raise or skip contradict it. *)
Ltac branches H :=
  repeat match type of H with
  | context [match ?x with _ => _ end] =>
      let E := fresh "E" in destruct x eqn:E; cbn in H; try discriminate H
  | context [if ?x then _ else _] =>
      let E := fresh "E" in destruct x eqn:E; cbn in H; try discriminate H
  end.

Lemma eq_str_spec (v : pyval) (s : string) : eq_str v s = true -> v = PStr s.
Proof.
  destruct v; cbn; try discriminate. intros H.
  now apply String.eqb_eq in H as ->.
Qed.

Lemma ne_str_spec (v : pyval) (s : string) : ne_str v s = false -> v = PStr s.
Proof.
  unfold ne_str. intros H. apply negb_false_iff in H. now apply eq_str_spec.
Qed.

Lemma bug_keeps_type p s a (item : pyval) (w : world) :
  fst (BugRepository.keeps p s a item w) = Ok true ->
  envelope_type item BugRepository._entity_type.
Proof.
  unfold BugRepository.keeps, envelope_type, bind, lift, ret.
  intros H.
  destruct (py_get item "description" (PStr "")) as [d | ] eqn:Ed;
    [ | discriminate ].
  destruct (truthy d); cbn in H; [ | discriminate ].
  destruct (is_str d) eqn:Sd.
  - destruct (json_loads d) as [data | e] eqn:L.
    + destruct (py_get data "type" PNone) as [ty | ] eqn:Et;
        [ | discriminate ].
      destruct (ne_str ty BugRepository._entity_type) eqn:N;
        [ discriminate | ].
      apply ne_str_spec in N. subst ty. eauto.
    + destruct e; cbn in H; discriminate.
  - cbn in H. discriminate.
Qed.

Arguments filter_items : simpl never.
Arguments for_each : simpl never.
Arguments list_sort : simpl never.
Arguments BugRepository._collection_item_to_bug : simpl never.
Arguments CommentRepository._collection_item_to_comment : simpl never.
Arguments ActivityLogRepository._collection_item_to_activity_log : simpl never.

Lemma kept_clock (keep : pyval -> M bool) (w w' : world) (item : pyval) :
  clock_only (keep item) -> clock w = clock w' ->
  kept keep w item = kept keep w' item.
Proof.
  intros H E. unfold kept. now rewrite (clock_only_fst _ w w' H E).
Qed.

(** The two loops of a list operation, run one after the other from a
    world [w2] that shows the time of [w]. *)
Lemma listing_ok {B} (keep : pyval -> M bool) (decode : pyval -> M B)
    (items kept_items : list pyval) (ys : list B) (w w2 w3 w4 : world) :
  (forall item, clock_only (keep item)) ->
  (forall item, clock_only (decode item)) ->
  filter_items keep items w2 = (Ok kept_items, w3) ->
  for_each decode kept_items w3 = (Ok ys, w4) ->
  clock w2 = clock w ->
  kept_items = filter (kept keep w) items
  /\ Forall2 (fun x y => fst (decode x w) = Ok y) kept_items ys.
Proof.
  intros Hk Hd F G E.
  pose proof (filter_items_ok _ _ _ _ _ Hk F) as K.
  destruct (clock_only_run _ w2 (filter_items_clock_only keep items Hk))
    as (r & l & R).
  rewrite R in F. inversion F; subst w3.
  split.
  - rewrite K. apply filter_ext. intros x. now apply kept_clock.
  - apply for_each_ok in G; [ | exact Hd ].
    eapply Forall2_impl; [ | exact G ].
    intros x y Hx. cbn in Hx. rewrite <- Hx.
    apply clock_only_fst; [ apply Hd | ]. now rewrite clock_add_logs.
Qed.

(** *** Sorting *)

Section SortFacts.
Context {A : Type}.
Variable before : A -> A -> bool.

Lemma insert_sorted_perm (x : A) (l : list A) :
  Permutation (x :: l) (insert_sorted before x l).
Proof.
  induction l as [ | y r IH]; cbn; [ reflexivity | ].
  destruct (before y x); [ | reflexivity ].
  rewrite perm_swap. now constructor.
Qed.

Lemma stable_sort_perm (l : list A) : Permutation l (stable_sort before l).
Proof.
  induction l as [ | x r IH]; cbn; [ constructor | ].
  rewrite <- insert_sorted_perm. now constructor.
Qed.

Variable R : A -> A -> Prop.
Hypothesis R_trans : forall a b c, R a b -> R b c -> R a c.
Hypothesis before_true : forall y x, before y x = true -> R y x.
Hypothesis before_false : forall y x, before y x = false -> R x y.

Lemma insert_sorted_sorted (x : A) (l : list A) :
  StronglySorted R l -> StronglySorted R (insert_sorted before x l).
Proof.
  induction 1 as [ | y r S IH F]; cbn.
  - constructor; constructor.
  - destruct (before y x) eqn:B.
    + constructor; [ exact IH | ].
      apply Forall_forall. intros z Hz.
      apply (Permutation_in _ (Permutation_sym (insert_sorted_perm x r)))
        in Hz.
      destruct Hz as [<- | Hz]; [ now apply before_true | ].
      now apply (proj1 (Forall_forall _ _) F).
    + constructor; [ now constructor | ].
      constructor; [ now apply before_false | ].
      apply Forall_forall. intros z Hz.
      apply R_trans with y; [ now apply before_false | ].
      now apply (proj1 (Forall_forall _ _) F).
Qed.

Lemma stable_sort_sorted (l : list A) : StronglySorted R (stable_sort before l).
Proof.
  induction l as [ | x r IH]; cbn; [ constructor | ].
  now apply insert_sorted_sorted.
Qed.
End SortFacts.

Lemma StronglySorted_map {A B} (f : A -> B) (R : B -> B -> Prop) (l : list A) :
  StronglySorted (fun a b => R (f a) (f b)) l -> StronglySorted R (map f l).
Proof.
  induction 1 as [ | x r S IH F]; cbn; constructor; [ exact IH | ].
  apply Forall_forall. intros y Hy. apply in_map_iff in Hy as (z & <- & Hz).
  now apply (proj1 (Forall_forall _ _) F).
Qed.

(** When [list.sort] returns, the list is a rearrangement of the
    original, in the order asked for. *)
Lemma list_sort_ok {A} (key : A -> datetime) (reverse : bool) (l l' : list A) :
  list_sort key reverse l = Ok l' ->
  Permutation l l'
  /\ (if reverse then descending (map key l') else ascending (map key l')).
Proof.
  unfold list_sort. destruct (all_comparable (map key l)); [ | discriminate ].
  intros H. inversion H; subst. split; [ apply stable_sort_perm | ].
  destruct reverse; apply StronglySorted_map; apply stable_sort_sorted;
    unfold key_before, dt_ltb; intros; try rewrite Z.ltb_lt in *;
    try rewrite Z.ltb_ge in *; lia.
Qed.

(** It raises exactly when a naive key meets an aware one. *)
Lemma list_sort_raises {A} (key : A -> datetime) (reverse : bool) (l : list A) :
  all_comparable (map key l) = false ->
  list_sort key reverse l
  = Raise (TypeError "can't compare offset-naive and offset-aware datetimes").
Proof. unfold list_sort. now intros ->. Qed.

(** The keys can be sorted exactly when every comparison among them
    returns. *)
Lemma all_comparable_false (ks : list datetime) :
  all_comparable ks = false ->
  exists a b, In a ks /\ In b ks /\ dt_lt a b = Raise naive_aware.
Proof.
  destruct ks as [ | k r]; [ discriminate | ]. cbn [all_comparable].
  induction r as [ | x r IH]; [ discriminate | ].
  cbn [forallb]. intros H. apply andb_false_iff in H as [H | H].
  - exists k, x. unfold dt_lt. rewrite H. cbn. auto.
  - destruct (IH H) as (a & b & Ha & Hb & E). exists a, b.
    repeat split; [ | | exact E ]; cbn in *; tauto.
Qed.

Lemma all_comparable_true (ks : list datetime) (a b : datetime) :
  all_comparable ks = true -> In a ks -> In b ks ->
  dt_lt a b = Ok (dt_ltb a b).
Proof.
  destruct ks as [ | k r]; [ intros _ [] | ]. cbn [all_comparable].
  intros H Ha Hb.
  assert (C : forall x, In x (k :: r) -> comparable k x = true).
  { intros x [<- | Hx].
    - unfold comparable. now destruct (tzinfo k).
    - now apply (proj1 (forallb_forall _ _) H). }
  pose proof (C a Ha) as Ca. pose proof (C b Hb) as Cb.
  unfold dt_lt, comparable in *.
  destruct (tzinfo k), (tzinfo a), (tzinfo b); try discriminate; reflexivity.
Qed.

Lemma bind_ok {A B} (m : M A) (k : A -> M B) (w w' : world) (b : B) :
  bind m k w = (Ok b, w') ->
  exists a w1, m w = (Ok a, w1) /\ k a w1 = (Ok b, w').
Proof.
  unfold bind. destruct (m w) as [[a | e] w1]; [ eauto | discriminate ].
Qed.

Lemma lift_ok {A} (r : result A) (w w' : world) (a : A) :
  lift r w = (Ok a, w') -> r = Ok a /\ w' = w.
Proof. unfold lift. intros H. now inversion H. Qed.

Lemma bug_get_all_ok p s a (w w' : world) (bugs : list Bug.t) :
  BugRepository.get_all p s a w = (Ok bugs, w') ->
  Forall2 (fun x y => fst (BugRepository._collection_item_to_bug x w) = Ok y)
          (filter (kept (BugRepository.keeps p s a) w) (map snd (store w)))
          bugs.
Proof.
  unfold BugRepository.get_all. intros H. cbn in H.
  apply bind_ok in H as (fl & w3 & F & H).
  apply bind_ok in H as (ys & w4 & G & H).
  cbn in H. inversion H; subst.
  destruct (listing_ok _ _ _ _ _ w _ _ _ (bug_keeps_clock_only p s a)
              bug_decode_clock_only F G eq_refl) as (-> & R).
  exact R.
Qed.

Lemma comment_get_by_bug_id_ok (bug_id : string) (w w' : world)
    (comments : list Comment.t) :
  CommentRepository.get_by_bug_id bug_id w = (Ok comments, w') ->
  exists decoded,
    Forall2 (fun x y =>
               fst (CommentRepository._collection_item_to_comment x w) = Ok y)
            (filter (kept (CommentRepository.keeps bug_id) w)
                    (map snd (store w)))
            decoded
    /\ list_sort Comment.createdAt false decoded = Ok comments.
Proof.
  unfold CommentRepository.get_by_bug_id. intros H. cbn in H.
  apply bind_ok in H as (fl & w3 & F & H).
  apply bind_ok in H as (ys & w4 & G & H).
  apply bind_ok in H as (sorted & w5 & S & H).
  apply lift_ok in S as (S & ->).
  cbn in H. inversion H; subst.
  destruct (listing_ok _ _ _ _ _ w _ _ _ (comment_keeps_clock_only bug_id)
              comment_decode_clock_only F G eq_refl) as (-> & R).
  eauto.
Qed.

Lemma activity_log_get_by_bug_id_ok (bug_id : string) (w w' : world)
    (entries : list ActivityLog.t) :
  ActivityLogRepository.get_by_bug_id bug_id w = (Ok entries, w') ->
  exists decoded,
    Forall2 (fun x y =>
               fst (ActivityLogRepository._collection_item_to_activity_log x w)
               = Ok y)
            (filter (kept (ActivityLogRepository.keeps_bug bug_id) w)
                    (map snd (store w)))
            decoded
    /\ list_sort ActivityLog.timestamp true decoded = Ok entries.
Proof.
  unfold ActivityLogRepository.get_by_bug_id. intros H. cbn in H.
  apply bind_ok in H as (fl & w3 & F & H).
  apply bind_ok in H as (ys & w4 & G & H).
  apply bind_ok in H as (sorted & w5 & S & H).
  apply lift_ok in S as (S & ->).
  cbn in H. inversion H; subst.
  destruct (listing_ok _ _ _ _ _ w _ _ _
              (activity_log_keeps_bug_clock_only bug_id)
              activity_log_decode_clock_only F G eq_refl) as (-> & R).
  eauto.
Qed.

Lemma activity_log_get_all_ok (w w' : world) (entries : list ActivityLog.t) :
  ActivityLogRepository.get_all w = (Ok entries, w') ->
  exists decoded,
    Forall2 (fun x y =>
               fst (ActivityLogRepository._collection_item_to_activity_log x w)
               = Ok y)
            (filter (kept ActivityLogRepository.keeps w) (map snd (store w)))
            decoded
    /\ list_sort ActivityLog.timestamp true decoded = Ok entries.
Proof.
  unfold ActivityLogRepository.get_all. intros H. cbn in H.
  apply bind_ok in H as (fl & w3 & F & H).
  apply bind_ok in H as (ys & w4 & G & H).
  apply bind_ok in H as (sorted & w5 & S & H).
  apply lift_ok in S as (S & ->).
  cbn in H. inversion H; subst.
  destruct (listing_ok _ _ _ _ _ w _ _ _ activity_log_keeps_clock_only
              activity_log_decode_clock_only F G eq_refl) as (-> & R).
  eauto.
Qed.

Lemma comment_keeps_type (bug_id : string) (item : pyval) (w : world) :
  fst (CommentRepository.keeps bug_id item w) = Ok true ->
  envelope_type item CommentRepository._entity_type.
Proof.
  unfold CommentRepository.keeps, envelope_type, bind, lift, ret.
  intros H.
  destruct (py_get item "description" (PStr "")) as [d | ] eqn:Ed;
    [ | discriminate ].
  destruct (truthy d); cbn in H; [ | discriminate ].
  destruct (json_loads d) as [data | e] eqn:L.
  - destruct (py_get data "type" PNone) as [ty | ] eqn:Et; [ | discriminate ].
    destruct (ne_str ty CommentRepository._entity_type) eqn:N;
      [ discriminate | ].
    apply ne_str_spec in N. subst ty. eauto.
  - destruct e; cbn in H; discriminate.
Qed.

Lemma activity_log_keeps_bug_type (bug_id : string) (item : pyval) (w : world) :
  fst (ActivityLogRepository.keeps_bug bug_id item w) = Ok true ->
  envelope_type item ActivityLogRepository._entity_type.
Proof.
  unfold ActivityLogRepository.keeps_bug, envelope_type, bind, lift, ret.
  intros H.
  destruct (py_get item "description" (PStr "")) as [d | ] eqn:Ed;
    [ | discriminate ].
  destruct (truthy d); cbn in H; [ | discriminate ].
  destruct (json_loads d) as [data | e] eqn:L.
  - destruct (py_get data "type" PNone) as [ty | ] eqn:Et; [ | discriminate ].
    destruct (eq_str ty ActivityLogRepository._entity_type) eqn:N;
      [ | discriminate ].
    apply eq_str_spec in N. subst ty. eauto.
  - destruct e; cbn in H; discriminate.
Qed.

Lemma activity_log_keeps_type (item : pyval) (w : world) :
  fst (ActivityLogRepository.keeps item w) = Ok true ->
  envelope_type item ActivityLogRepository._entity_type.
Proof.
  unfold ActivityLogRepository.keeps, envelope_type, bind, lift, ret.
  intros H.
  destruct (py_get item "description" (PStr "")) as [d | ] eqn:Ed;
    [ | discriminate ].
  destruct (truthy d); cbn in H; [ | discriminate ].
  destruct (json_loads d) as [data | e] eqn:L.
  - destruct (py_get data "type" PNone) as [ty | ] eqn:Et; [ | discriminate ].
    cbn in H. inversion H as [N].
    apply eq_str_spec in N. subst ty. eauto.
  - destruct e; cbn in H; discriminate.
Qed.

Lemma kept_true (keep : pyval -> M bool) (w : world) (item : pyval) :
  kept keep w item = true -> fst (keep item w) = Ok true.
Proof.
  unfold kept. destruct (fst (keep item w)) as [[ | ] | ]; congruence.
Qed.

(** From the two loops to the statement about the result. *)
Lemma only_of_type_intro {B} (ty : string) (keep : pyval -> M bool)
    (decode : pyval -> M B) (w : world) (decoded result : list B) :
  (forall item, fst (keep item w) = Ok true -> envelope_type item ty) ->
  Forall2 (fun x y => fst (decode x w) = Ok y)
          (filter (kept keep w) (map snd (store w))) decoded ->
  Permutation decoded result ->
  only_of_type ty decode w result.
Proof.
  intros Ht F P e He.
  apply (Permutation_in _ (Permutation_sym P)) in He.
  assert (G : exists x, In x (filter (kept keep w) (map snd (store w)))
                        /\ fst (decode x w) = Ok e).
  { clear - F He. induction F as [ | x y xs ys Hxy F IH]; [ destruct He | ].
    destruct He as [<- | He].
    - exists x. split; [ now left | exact Hxy ].
    - destruct (IH He) as (z & Hz & Ez). exists z. split; [ now right | exact Ez ]. }
  destruct G as (x & Hx & Ex). apply filter_In in Hx as [Hin Hk].
  exists x. repeat split; [ exact Hin | | exact Ex ].
  apply Ht. now apply kept_true.
Qed.

(** ** Type discrimination *)

(** C2: a list operation returns only entities decoded from items of the
    store whose envelope [type] is the discriminator of its kind,
    wherever those items stand among the others. *)
Theorem C2_type_discrimination (w w' : world) :
  (forall p s a bugs,
      BugRepository.get_all p s a w = (Ok bugs, w') ->
      only_of_type "bug" BugRepository._collection_item_to_bug w bugs)
  /\ (forall bug_id comments,
        CommentRepository.get_by_bug_id bug_id w = (Ok comments, w') ->
        only_of_type "comment" CommentRepository._collection_item_to_comment
                     w comments)
  /\ (forall bug_id entries,
        ActivityLogRepository.get_by_bug_id bug_id w = (Ok entries, w') ->
        only_of_type "activity_log"
                     ActivityLogRepository._collection_item_to_activity_log
                     w entries)
  /\ (forall entries,
        ActivityLogRepository.get_all w = (Ok entries, w') ->
        only_of_type "activity_log"
                     ActivityLogRepository._collection_item_to_activity_log
                     w entries).
Proof.
  repeat split.
  - intros p s a bugs H. apply bug_get_all_ok in H.
    eapply only_of_type_intro; [ | exact H | reflexivity ].
    intros item. apply bug_keeps_type.
  - intros bug_id comments H.
    apply comment_get_by_bug_id_ok in H as (decoded & F & S).
    apply list_sort_ok in S as (P & _).
    eapply only_of_type_intro; [ | exact F | exact P ].
    intros item. apply comment_keeps_type.
  - intros bug_id entries H.
    apply activity_log_get_by_bug_id_ok in H as (decoded & F & S).
    apply list_sort_ok in S as (P & _).
    eapply only_of_type_intro; [ | exact F | exact P ].
    intros item. apply activity_log_keeps_bug_type.
  - intros entries H.
    apply activity_log_get_all_ok in H as (decoded & F & S).
    apply list_sort_ok in S as (P & _).
    eapply only_of_type_intro; [ | exact F | exact P ].
    intros item. apply activity_log_keeps_type.
Qed.

(** The two bugs of a collection in which the three kinds alternate. *)
Lemma C2_type_discrimination_witness :
  List.length (Sample.returned (BugRepository.get_all None None None)
                               Sample.mixed) = 2%nat
  /\ only_of_type "bug" BugRepository._collection_item_to_bug Sample.mixed
       (Sample.returned (BugRepository.get_all None None None) Sample.mixed).
Proof.
  split; [ reflexivity | ].
  apply (proj1 (C2_type_discrimination
                  Sample.mixed
                  (snd (BugRepository.get_all None None None Sample.mixed)))
               None None None).
  vm_compute. reflexivity.
Defined.

(** ** Updates *)

(** C7: the generic update rejects an empty update set before it
    touches the store client: no call is made and the store is as it
    was. *)
Theorem C7_empty_updates_rejected (bug_id : string) (w : world) :
  exists e,
    fst (BugRepository.update_fields bug_id [] w) = Raise e
    /\ InvalidArgument e
    /\ calls (snd (BugRepository.update_fields bug_id [] w)) = calls w
    /\ store (snd (BugRepository.update_fields bug_id [] w)) = store w.
Proof.
  eexists. repeat split.
Qed.

Lemma bind_log {B} (l : level) (t : string) (args : list pyval)
    (k : unit -> M B) (w : world) :
  bind (log l t args) k w = k tt (add_logs w [mk_log l t args]).
Proof. reflexivity. Qed.

Lemma bind_run {A B} (m : M A) (k : A -> M B) (w w1 : world) (a : A) :
  m w = (Ok a, w1) -> bind m k w = k a w1.
Proof. unfold bind. now intros ->. Qed.

Lemma bind_raise {A B} (m : M A) (k : A -> M B) (w w1 : world) (e : exn) :
  m w = (Raise e, w1) -> bind m k w = (Raise e, w1).
Proof. unfold bind. now intros ->. Qed.

Lemma get_by_id_missing (bug_id : string) (w : world) :
  assoc bug_id (store w) = None ->
  exists w',
    BugRepository.get_by_id bug_id w = (Ok None, w')
    /\ store w' = store w
    /\ calls w' = (calls w ++ [GetItemById BugRepository._collection bug_id])%list.
Proof.
  intros H. unfold BugRepository.get_by_id. cbn. rewrite H. cbn.
  eexists. repeat split.
Qed.

(** C5, as stated, fails: with an empty update set the generic update
    of an id the store does not hold is rejected for the empty set, not
    for the missing bug. *)
Lemma C5_update_missing_counterexample :
  assoc "missing" (store Sample.empty_world) = None
  /\ fst (BugRepository.update_fields "missing" [] Sample.empty_world)
     = Raise (ValueError "updates cannot be empty" [])
  /\ ~ NotFound "missing" (ValueError "updates cannot be empty" []).
Proof.
  repeat split. unfold NotFound. discriminate.
Qed.

(** C5, amended: the three single-aspect updates, and the generic
    update with a non-empty update set, fail with the not-found error on
    an id the store does not hold; the store is read once and not
    written. *)
Theorem C5_update_missing (w : world) (bug_id : string) :
  assoc bug_id (store w) = None ->
  (forall status t,
      fails_untouched bug_id w (BugRepository.update_status bug_id status t w))
  /\ (forall assigned_to t,
        fails_untouched bug_id w
          (BugRepository.update_assignment bug_id assigned_to t w))
  /\ (forall validated t,
        fails_untouched bug_id w
          (BugRepository.update_validation bug_id validated t w))
  /\ (forall updates,
        updates <> [] ->
        fails_untouched bug_id w
          (BugRepository.update_fields bug_id updates w)).
Proof.
  intros H.
  assert (G : forall l,
             exists w',
               BugRepository.get_by_id bug_id (add_logs w l) = (Ok None, w')
               /\ store w' = store w
               /\ calls w'
                  = (calls w ++ [GetItemById BugRepository._collection bug_id])%list).
  { intros l. apply (get_by_id_missing bug_id (add_logs w l)). exact H. }
  unfold fails_untouched, NotFound, BugRepository.update_status,
    BugRepository.update_assignment, BugRepository.update_validation,
    BugRepository.update_fields.
  repeat split; intros;
    try (destruct updates; [ congruence | ]);
    rewrite bind_log;
    match goal with
    | |- context [add_logs w ?l] =>
        destruct (G l) as (w' & E & S & C)
    end;
    rewrite (bind_run _ _ _ _ _ E); cbn; eauto.
Qed.

(** A status update on an empty store. *)
Lemma C5_update_missing_witness :
  fails_untouched "missing" Sample.empty_world
    (BugRepository.update_status "missing" (mk_enum "Closed") Sample.later
                                 Sample.empty_world).
Proof.
  apply (proj1 (C5_update_missing Sample.empty_world "missing" eq_refl)).
Defined.












(** ** Decoding one item *)

Lemma fromisoformat_error (s : string) (e : exn) :
  fromisoformat s = Raise e -> exists t a, e = ValueError t a.
Proof.
  unfold fromisoformat. destruct (parse_isoformat s) as [d | ].
  - destruct (dt_valid d); intros H; inversion H; eauto.
  - intros H; inversion H; eauto.
Qed.

Lemma bug_parse_created_at_total (i v : pyval) (w : world) :
  exists c l, BugRepository.parse_created_at i v w = (Ok c, add_logs w l)
              /\ (bad_timestamp v ->
                  c = now_of w
                  /\ exists r, l = [r] /\ log_level r = WARNING).
Proof.
  unfold BugRepository.parse_created_at, now_of.
  destruct v as [ | b | z | lit | s | l | d | dt]; cbn;
    try (eexists _, [_]; split; [ reflexivity | eauto ]).
  - exists (replace_tzinfo (clock w) utc), []. rewrite add_logs_nil.
    split; [ reflexivity | intros [] ].
  - destruct (fromisoformat s) as [d | e] eqn:E.
    + exists d, []. rewrite add_logs_nil.
      split; [ reflexivity | intros (e & He); discriminate ].
    + destruct (fromisoformat_error _ _ E) as (t & a & ->).
      eexists _, [_]. split; [ reflexivity | eauto ].
  - exists dt, []. rewrite add_logs_nil. split; [ reflexivity | intros [] ].
Qed.

Lemma comment_parse_created_at_total (i v : pyval) (w : world) :
  exists c l, CommentRepository.parse_created_at i v w = (Ok c, add_logs w l)
              /\ (bad_timestamp v ->
                  c = now_of w
                  /\ exists r, l = [r] /\ log_level r = WARNING).
Proof.
  unfold CommentRepository.parse_created_at, now_of.
  destruct v as [ | b | z | lit | s | l | d | dt]; cbn;
    try (eexists _, [_]; split; [ reflexivity | eauto ]).
  - exists (replace_tzinfo (clock w) utc), []. rewrite add_logs_nil.
    split; [ reflexivity | intros [] ].
  - destruct (fromisoformat s) as [d | e] eqn:E.
    + exists (ensure_aware d), []. rewrite add_logs_nil.
      split; [ reflexivity | intros (e & He); discriminate ].
    + destruct (fromisoformat_error _ _ E) as (t & a & ->).
      eexists _, [_]. split; [ reflexivity | eauto ].
  - exists dt, []. rewrite add_logs_nil. split; [ reflexivity | intros [] ].
Qed.

Lemma activity_log_parse_created_at_total (i v : pyval) (w : world) :
  exists c l,
    ActivityLogRepository.parse_created_at i v w = (Ok c, add_logs w l)
    /\ (bad_timestamp v ->
        c = now_of w /\ exists r, l = [r] /\ log_level r = WARNING).
Proof.
  unfold ActivityLogRepository.parse_created_at, now_of.
  destruct v as [ | b | z | lit | s | l | d | dt]; cbn;
    try (eexists _, [_]; split; [ reflexivity | eauto ]).
  - exists (replace_tzinfo (clock w) utc), []. rewrite add_logs_nil.
    split; [ reflexivity | intros [] ].
  - destruct (fromisoformat s) as [d | e] eqn:E.
    + exists d, []. rewrite add_logs_nil.
      split; [ reflexivity | intros (e & He); discriminate ].
    + destruct (fromisoformat_error _ _ E) as (t & a & ->).
      eexists _, [_]. split; [ reflexivity | eauto ].
  - exists dt, []. rewrite add_logs_nil. split; [ reflexivity | intros [] ].
Qed.

Lemma bug_parse_updated_at_total (i v : pyval) (created_at : datetime)
    (w : world) :
  exists u l,
    BugRepository.parse_updated_at i created_at v w = (Ok u, add_logs w l)
    /\ (v = PNone -> u = created_at /\ l = [])
    /\ (bad_timestamp v ->
        u = created_at /\ exists r, l = [r] /\ log_level r = WARNING).
Proof.
  unfold BugRepository.parse_updated_at.
  destruct v as [ | b | z | lit | s | l | d | dt]; cbn;
    try (eexists _, [_]; split; [ reflexivity | split; [ discriminate | eauto ] ]).
  - exists created_at, []. rewrite add_logs_nil.
    split; [ reflexivity | split; [ auto | intros [] ] ].
  - destruct (fromisoformat s) as [d | e] eqn:E.
    + exists d, []. rewrite add_logs_nil.
      split; [ reflexivity | split; [ discriminate | ] ].
      intros (e & He); discriminate.
    + destruct (fromisoformat_error _ _ E) as (t & a & ->).
      eexists _, [_]. split; [ reflexivity | split; [ discriminate | eauto ] ].
  - exists dt, []. rewrite add_logs_nil.
    split; [ reflexivity | split; [ discriminate | intros [] ] ].
Qed.

Lemma unwrap_payload_run (item : pyval) (w : world) :
  exists l, unwrap_payload item w = (Ok (payload_of item), add_logs w l).
Proof.
  unfold unwrap_payload, payload_of.
  destruct item as [ | | | | | | d | ];
    try (exists []; now rewrite add_logs_nil).
  destruct (lookup "payload" d).
  - eexists [_]. reflexivity.
  - exists []. now rewrite add_logs_nil.
Qed.

Lemma py_get_dict (d : list (string * pyval)) (k : string) (default : pyval) :
  py_get (PDict d) k default = Ok (get_or d k default).
Proof. reflexivity. Qed.

Arguments BugRepository.parse_created_at : simpl never.
Arguments BugRepository.parse_updated_at : simpl never.
Arguments CommentRepository.parse_created_at : simpl never.
Arguments ActivityLogRepository.parse_created_at : simpl never.
Arguments unwrap_payload : simpl never.
Arguments py_get : simpl never.

(** C10: when the description of an item is present and is not a
    string, the decoders do not raise: the envelope counts as empty and
    every field read from it takes its default, with [updatedAt] equal
    to [createdAt].  The id and the name are those of the item. *)
Theorem C10_non_string_description (w : world) (item : pyval)
    (d : list (string * pyval)) (v : pyval) (i : option string) :
  payload_of item = PDict d ->
  lookup "description" d = Some v ->
  is_str v = false ->
  as_opt_str "_id" (get_or d "__auto_id__" PNone) = Ok i ->
  (forall title,
      as_str "title" (get_or d "name" (PStr "")) = Ok title ->
      exists created w',
        BugRepository._collection_item_to_bug item w
        = (Ok (Bug.mk i title "" "" "" None (mk_enum "Open")
                      (mk_enum "Medium") (mk_enum "Minor") [] false
                      created created), w'))
  /\ (exists created w',
        CommentRepository._collection_item_to_comment item w
        = (Ok (Comment.mk i "" "" "" created), w'))
  /\ (exists timestamp w',
        ActivityLogRepository._collection_item_to_activity_log item w
        = (Ok (ActivityLog.mk i "" "" "" "" "" "" "" None None timestamp),
           w')).
Proof.
  intros Hp Hd Hs Hi.
  destruct (unwrap_payload_run item w) as (l0 & U). rewrite Hp in U.
  assert (Gd : get_or d "description" (PStr "{}") = v)
    by (unfold get_or; now rewrite Hd).
  repeat split.
  - intros title Ht.
    unfold BugRepository._collection_item_to_bug.
    rewrite (bind_run _ _ _ _ _ U), !py_get_dict. cbn.
    rewrite Gd, Hs. cbn. rewrite !py_get_dict. cbn.
    destruct (bug_parse_created_at_total (get_or d "__auto_id__" PNone)
                (get_or d "created_at" PNone) (add_logs w l0))
      as (c & l1 & E & _).
    rewrite (bind_run _ _ _ _ _ E). cbn.
    destruct (bug_parse_updated_at_total (get_or d "__auto_id__" PNone)
                PNone c (add_logs (add_logs w l0) l1))
      as (u & l2 & E2 & N & _).
    destruct (N eq_refl) as (-> & ->).
    rewrite (bind_run _ _ _ _ _ E2). cbn.
    unfold Bug.init. rewrite Hi, Ht. cbn. eexists _, _. reflexivity.
  - unfold CommentRepository._collection_item_to_comment.
    rewrite (bind_run _ _ _ _ _ U), !py_get_dict. cbn.
    rewrite Gd, Hs. cbn. rewrite !py_get_dict. cbn.
    destruct (comment_parse_created_at_total (get_or d "__auto_id__" PNone)
                (get_or d "created_at" PNone) (add_logs w l0))
      as (c & l1 & E & _).
    rewrite (bind_run _ _ _ _ _ E). cbn.
    unfold Comment.init. rewrite Hi. cbn. eexists _, _. reflexivity.
  - unfold ActivityLogRepository._collection_item_to_activity_log.
    rewrite (bind_run _ _ _ _ _ U), !py_get_dict. cbn.
    rewrite Gd, Hs. cbn. rewrite !py_get_dict. cbn.
    destruct (activity_log_parse_created_at_total
                (get_or d "__auto_id__" PNone)
                (get_or d "created_at" PNone) (add_logs w l0))
      as (c & l1 & E & _).
    rewrite (bind_run _ _ _ _ _ E). cbn.
    unfold ActivityLog.init. rewrite Hi. cbn. eexists _, _. reflexivity.
Qed.

(** An item whose description is an object. *)
Lemma C10_non_string_description_witness :
  exists created w',
    BugRepository._collection_item_to_bug (PDict Sample.object_fields)
                                          Sample.empty_world
    = (Ok (Bug.mk (Some "i9") "Crash" "" "" "" None (mk_enum "Open")
                  (mk_enum "Medium") (mk_enum "Minor") [] false
                  created created), w').
Proof.
  apply (proj1 (C10_non_string_description
                  Sample.empty_world (PDict Sample.object_fields)
                  Sample.object_fields (PDict [("type", PStr "bug")])
                  (Some "i9") eq_refl eq_refl eq_refl eq_refl)
               "Crash" eq_refl).
Defined.

(** ** The timestamp fallback *)

Lemma bind_lift_ok {A B} (r : result A) (k : A -> M B) (w w' : world) (b : B) :
  bind (lift r) k w = (Ok b, w') -> exists a, r = Ok a /\ k a w = (Ok b, w').
Proof.
  unfold bind, lift. destruct r as [a | e]; [ eauto | discriminate ].
Qed.

Lemma bind_ok_clock {A B} (m : M A) (k : A -> M B) (w w' : world) (b : B) :
  clock_only m -> bind m k w = (Ok b, w') ->
  exists a l, m w = (Ok a, add_logs w l) /\ k a (add_logs w l) = (Ok b, w').
Proof.
  intros Hm H. destruct (clock_only_run m w Hm) as (r & l & E).
  unfold bind in H. rewrite E in H.
  destruct r as [a | e]; [ eauto | discriminate ].
Qed.

Lemma bug_init_times (a1 a2 a3 a4 a5 a6 a7 a8 a9 a10 a11 : pyval)
    (c u : datetime) (b : Bug.t) :
  Bug.init a1 a2 a3 a4 a5 a6 a7 a8 a9 a10 a11 c u = Ok b ->
  Bug.createdAt b = c /\ Bug.updatedAt b = u.
Proof.
  unfold Bug.init. intros H.
  repeat match type of H with
  | bind_result ?r _ = _ => destruct r; cbn [bind_result] in H;
                            [ | discriminate ]
  end.
  inversion H; subst. now split.
Qed.

Lemma comment_init_times (a1 a2 a3 a4 : pyval) (c : datetime) (x : Comment.t) :
  Comment.init a1 a2 a3 a4 c = Ok x -> Comment.createdAt x = c.
Proof.
  unfold Comment.init. intros H.
  repeat match type of H with
  | bind_result ?r _ = _ => destruct r; cbn [bind_result] in H;
                            [ | discriminate ]
  end.
  now inversion H.
Qed.

Lemma activity_log_init_times (a1 a2 a3 a4 a5 a6 a7 a8 a9 a10 : pyval)
    (c : datetime) (x : ActivityLog.t) :
  ActivityLog.init a1 a2 a3 a4 a5 a6 a7 a8 a9 a10 c = Ok x ->
  ActivityLog.timestamp x = c.
Proof.
  unfold ActivityLog.init. intros H.
  repeat match type of H with
  | bind_result ?r _ = _ => destruct r; cbn [bind_result] in H;
                            [ | discriminate ]
  end.
  now inversion H.
Qed.

(** Goes through the [get] calls that [H] says returned. *)
Ltac gets H :=
  repeat match type of H with
  | match py_get ?a ?b ?c with _ => _ end = _ =>
      let E := fresh "E" in
      destruct (py_get a b c) eqn:E; [ | discriminate H ]
  end.

(** The block that reads the envelope of a bug. *)
Lemma data_block_clock_only (description_field : pyval)
    (on_error : string -> M pyval) :
  (forall e, clock_only (on_error e)) ->
  clock_only
    (if is_str description_field then
       match json_loads description_field with
       | Ok data => ret data
       | Raise (JSONDecodeError e) => on_error e
       | Raise e => raise e
       end
     else ret (PDict [])).
Proof. intros H. clock_only. Qed.

Lemma warned_intro (w : world) (l1 l2 : list log_record) (r : log_record) :
  log_level r = WARNING ->
  warned w (add_logs (add_logs (add_logs w l1) [r]) l2).
Proof.
  intros H. exists (l1 ++ [r] ++ l2)%list, r.
  rewrite !add_logs_app. repeat split; [ | exact H ].
  apply in_or_app. right. now left.
Qed.

Lemma bug_decode_created_at (w w' : world) (item : pyval)
    (d : list (string * pyval)) (b : Bug.t) :
  payload_of item = PDict d ->
  bad_timestamp (get_or d "created_at" PNone) ->
  BugRepository._collection_item_to_bug item w = (Ok b, w') ->
  Bug.createdAt b = now_of w /\ warned w w'.
Proof.
  intros Hp Hb H.
  destruct (unwrap_payload_run item w) as (l0 & U). rewrite Hp in U.
  unfold BugRepository._collection_item_to_bug in H.
  rewrite (bind_run _ _ _ _ _ U), !py_get_dict in H. cbn in H.
  apply bind_ok_clock in H as (data & l1 & _ & H);
    [ | apply data_block_clock_only; intros; clock_only ].
  cbn in H. rewrite ?py_get_dict in H. cbn in H. gets H.
  destruct (bug_parse_created_at_total (get_or d "__auto_id__" PNone)
              (get_or d "created_at" PNone) (add_logs (add_logs w l0) l1))
    as (c & l2 & Ec & Hc).
  destruct (Hc Hb) as (-> & r & -> & Hr).
  rewrite (bind_run _ _ _ _ _ Ec) in H. cbn in H. gets H.
  apply bind_ok_clock in H as (u & l3 & _ & H);
    [ | apply bug_parse_updated_at_clock_only ].
  apply lift_ok in H as (H & ->).
  apply bug_init_times in H as (-> & _).
  split; [ reflexivity | ].
  rewrite (add_logs_app w l0 l1). now apply warned_intro.
Qed.

Lemma comment_decode_created_at (w w' : world) (item : pyval)
    (d : list (string * pyval)) (x : Comment.t) :
  payload_of item = PDict d ->
  bad_timestamp (get_or d "created_at" PNone) ->
  CommentRepository._collection_item_to_comment item w = (Ok x, w') ->
  Comment.createdAt x = now_of w /\ warned w w'.
Proof.
  intros Hp Hb H.
  destruct (unwrap_payload_run item w) as (l0 & U). rewrite Hp in U.
  unfold CommentRepository._collection_item_to_comment in H.
  rewrite (bind_run _ _ _ _ _ U), !py_get_dict in H. cbn in H.
  apply bind_ok_clock in H as (data & l1 & _ & H);
    [ | apply data_block_clock_only; intros; clock_only ].
  cbn in H. rewrite ?py_get_dict in H. cbn in H. gets H.
  destruct (comment_parse_created_at_total (get_or d "__auto_id__" PNone)
              (get_or d "created_at" PNone) (add_logs (add_logs w l0) l1))
    as (c & l2 & Ec & Hc).
  destruct (Hc Hb) as (-> & r & -> & Hr).
  rewrite (bind_run _ _ _ _ _ Ec) in H.
  apply lift_ok in H as (H & ->).
  apply comment_init_times in H as ->.
  split; [ reflexivity | ].
  rewrite (add_logs_app w l0 l1), <- (add_logs_nil (add_logs _ [r])).
  now apply warned_intro.
Qed.

Lemma activity_log_decode_created_at (w w' : world) (item : pyval)
    (d : list (string * pyval)) (x : ActivityLog.t) :
  payload_of item = PDict d ->
  bad_timestamp (get_or d "created_at" PNone) ->
  ActivityLogRepository._collection_item_to_activity_log item w = (Ok x, w') ->
  ActivityLog.timestamp x = now_of w /\ warned w w'.
Proof.
  intros Hp Hb H.
  destruct (unwrap_payload_run item w) as (l0 & U). rewrite Hp in U.
  unfold ActivityLogRepository._collection_item_to_activity_log in H.
  rewrite (bind_run _ _ _ _ _ U), !py_get_dict in H. cbn in H.
  apply bind_ok_clock in H as (data & l1 & _ & H);
    [ | apply data_block_clock_only; intros; clock_only ].
  cbn in H. rewrite ?py_get_dict in H. cbn in H. gets H.
  destruct (activity_log_parse_created_at_total (get_or d "__auto_id__" PNone)
              (get_or d "created_at" PNone) (add_logs (add_logs w l0) l1))
    as (c & l2 & Ec & Hc).
  destruct (Hc Hb) as (-> & r & -> & Hr).
  rewrite (bind_run _ _ _ _ _ Ec) in H.
  apply lift_ok in H as (H & ->).
  apply activity_log_init_times in H as ->.
  split; [ reflexivity | ].
  rewrite (add_logs_app w l0 l1), <- (add_logs_nil (add_logs _ [r])).
  now apply warned_intro.
Qed.

Lemma json_loads_ok_str (v data : pyval) :
  json_loads v = Ok data -> is_str v = true.
Proof. unfold json_loads. destruct v; cbn; congruence. Qed.

Lemma bug_decode_updated_at (w w' : world) (item : pyval)
    (d data : list (string * pyval)) (b : Bug.t) :
  payload_of item = PDict d ->
  json_loads (get_or d "description" (PStr "{}")) = Ok (PDict data) ->
  bad_timestamp (get_or data "updatedAt" PNone) ->
  BugRepository._collection_item_to_bug item w = (Ok b, w') ->
  Bug.updatedAt b = Bug.createdAt b /\ warned w w'.
Proof.
  intros Hp Hj Hb H.
  destruct (unwrap_payload_run item w) as (l0 & U). rewrite Hp in U.
  unfold BugRepository._collection_item_to_bug in H.
  rewrite (bind_run _ _ _ _ _ U), !py_get_dict in H. cbn in H.
  rewrite (json_loads_ok_str _ _ Hj), Hj in H. cbn in H.
  rewrite ?py_get_dict in H. cbn in H.
  destruct (bug_parse_created_at_total (get_or d "__auto_id__" PNone)
              (get_or d "created_at" PNone) (add_logs w l0))
    as (c & l2 & Ec & _).
  rewrite (bind_run _ _ _ _ _ Ec) in H. cbn in H.
  destruct (bug_parse_updated_at_total (get_or d "__auto_id__" PNone)
              (get_or data "updatedAt" PNone) c (add_logs (add_logs w l0) l2))
    as (u & l3 & Eu & _ & Hu).
  destruct (Hu Hb) as (-> & r & -> & Hr).
  rewrite (bind_run _ _ _ _ _ Eu) in H.
  apply lift_ok in H as (H & ->).
  apply bug_init_times in H as (-> & ->).
  split; [ reflexivity | ].
  rewrite (add_logs_app w l0 l2), <- (add_logs_nil (add_logs _ [r])).
  now apply warned_intro.
Qed.

(** C6, as stated, fails for [updatedAt]: a value that is not a date
    falls back to the entity's [createdAt], not to the current time. *)
Lemma C6_timestamp_fallback_counterexample :
  bad_timestamp (PStr "yesterday")
  /\ exists b,
       fst (BugRepository._collection_item_to_bug Sample.stale_item
                                                  Sample.empty_world) = Ok b
       /\ Bug.updatedAt b = Sample.noon
       /\ Bug.updatedAt b <> now_of Sample.empty_world.
Proof.
  split.
  - cbn. eexists. vm_compute. reflexivity.
  - eexists. split; [ vm_compute; reflexivity | ].
    split; [ reflexivity | discriminate ].
Qed.

(** C6, amended: a [created_at] that is a string failing ISO parsing, or
    a value of an unexpected type, decodes to the current time (UTC)
    with a warning, in all three decoders; an [updatedAt] of that
    sort decodes to the entity's [createdAt], with a warning; and the
    blocks that read the timestamps return on every value, so that no
    timestamp makes a decode fail. *)
Theorem C6_timestamp_fallback (w w' : world) (item : pyval)
    (d : list (string * pyval)) :
  payload_of item = PDict d ->
  (forall b,
      bad_timestamp (get_or d "created_at" PNone) ->
      BugRepository._collection_item_to_bug item w = (Ok b, w') ->
      Bug.createdAt b = now_of w /\ warned w w')
  /\ (forall c,
        bad_timestamp (get_or d "created_at" PNone) ->
        CommentRepository._collection_item_to_comment item w = (Ok c, w') ->
        Comment.createdAt c = now_of w /\ warned w w')
  /\ (forall a,
        bad_timestamp (get_or d "created_at" PNone) ->
        ActivityLogRepository._collection_item_to_activity_log item w
        = (Ok a, w') ->
        ActivityLog.timestamp a = now_of w /\ warned w w')
  /\ (forall b data,
        json_loads (get_or d "description" (PStr "{}")) = Ok (PDict data) ->
        bad_timestamp (get_or data "updatedAt" PNone) ->
        BugRepository._collection_item_to_bug item w = (Ok b, w') ->
        Bug.updatedAt b = Bug.createdAt b /\ warned w w')
  /\ (forall i v created_at,
        (exists c l,
            BugRepository.parse_created_at i v w = (Ok c, add_logs w l))
        /\ (exists c l,
              CommentRepository.parse_created_at i v w = (Ok c, add_logs w l))
        /\ (exists c l,
              ActivityLogRepository.parse_created_at i v w
              = (Ok c, add_logs w l))
        /\ (exists u l,
              BugRepository.parse_updated_at i created_at v w
              = (Ok u, add_logs w l))).
Proof.
  intros Hp. repeat split.
  - eapply bug_decode_created_at; eassumption.
  - eapply bug_decode_created_at; eassumption.
  - eapply comment_decode_created_at; eassumption.
  - eapply comment_decode_created_at; eassumption.
  - eapply activity_log_decode_created_at; eassumption.
  - eapply activity_log_decode_created_at; eassumption.
  - eapply bug_decode_updated_at; eassumption.
  - eapply bug_decode_updated_at; eassumption.
  - destruct (bug_parse_created_at_total i v w) as (c & l & E & _). eauto.
  - destruct (comment_parse_created_at_total i v w) as (c & l & E & _). eauto.
  - destruct (activity_log_parse_created_at_total i v w) as (c & l & E & _).
    eauto.
  - destruct (bug_parse_updated_at_total i v created_at w) as (u & l & E & _).
    eauto.
Qed.

(** An item whose [created_at] is the string [soon]. *)
Lemma C6_timestamp_fallback_witness :
  exists b,
    fst (BugRepository._collection_item_to_bug (PDict Sample.undated_fields)
                                               Sample.empty_world) = Ok b
    /\ Bug.createdAt b = now_of Sample.empty_world
    /\ warned Sample.empty_world
              (snd (BugRepository._collection_item_to_bug
                      (PDict Sample.undated_fields) Sample.empty_world)).
Proof.
  eexists. split; [ vm_compute; reflexivity | ].
  apply (proj1 (C6_timestamp_fallback
                  Sample.empty_world
                  (snd (BugRepository._collection_item_to_bug
                          (PDict Sample.undated_fields) Sample.empty_world))
                  (PDict Sample.undated_fields) Sample.undated_fields
                  eq_refl)).
  - cbn. eexists. vm_compute. reflexivity.
  - vm_compute. reflexivity.
Defined.

(** ** Missing envelope fields *)

Lemma as_str_typed (field : string) (data : list (string * pyval))
    (k default : string) :
  absent_or is_str data k = true ->
  exists s, as_str field (get_or data k (PStr default)) = Ok s.
Proof.
  unfold absent_or, get_or. destruct (lookup k data) as [[ ] | ]; cbn;
    try discriminate; eauto.
Qed.

Lemma as_enum_typed (field : string) (data : list (string * pyval))
    (k default : string) :
  absent_or is_str data k = true ->
  exists s, as_enum field (get_or data k (PStr default)) = Ok s.
Proof.
  unfold absent_or, get_or. destruct (lookup k data) as [[ ] | ]; cbn;
    try discriminate; eauto.
Qed.

Lemma as_opt_str_typed (field : string) (data : list (string * pyval))
    (k : string) :
  absent_or is_opt_str data k = true ->
  exists s, as_opt_str field (get_or data k PNone) = Ok s.
Proof.
  unfold absent_or, get_or. destruct (lookup k data) as [[ ] | ]; cbn;
    try discriminate; eauto.
Qed.

Lemma as_bool_typed (field : string) (data : list (string * pyval))
    (k : string) :
  absent_or is_bool data k = true ->
  exists s, as_bool field (get_or data k (PBool false)) = Ok s.
Proof.
  unfold absent_or, get_or. destruct (lookup k data) as [[ ] | ]; cbn;
    try discriminate; eauto.
Qed.

Lemma as_str_items_typed (field : string) (l : list pyval) :
  forallb is_str l = true -> exists ss, as_str_items field l = Ok ss.
Proof.
  induction l as [ | v l IH]; cbn; [ eauto | ].
  intros H. apply andb_true_iff in H as [Hv Hl].
  destruct v; try discriminate. destruct (IH Hl) as (ss & ->). cbn. eauto.
Qed.

Lemma as_str_list_typed (field : string) (data : list (string * pyval))
    (k : string) :
  absent_or is_str_list data k = true ->
  exists s, as_str_list field (get_or data k (PList [])) = Ok s.
Proof.
  unfold absent_or, get_or. destruct (lookup k data) as [[ ] | ]; cbn;
    try discriminate; eauto using as_str_items_typed.
Qed.

(** A bug decodes whichever envelope fields are missing: each takes its
    default. *)
Lemma bug_missing_fields_default (w : world) (item : pyval)
    (d data : list (string * pyval)) (i : option string) (title : string) :
  payload_of item = PDict d ->
  json_loads (get_or d "description" (PStr "{}")) = Ok (PDict data) ->
  bug_fields_typed data = true ->
  as_opt_str "_id" (get_or d "__auto_id__" PNone) = Ok i ->
  as_str "title" (get_or d "name" (PStr "")) = Ok title ->
  exists b w', BugRepository._collection_item_to_bug item w = (Ok b, w').
Proof.
  intros Hp Hj Ht Hi Hn.
  unfold bug_fields_typed in Ht. rewrite !andb_true_iff in Ht.
  destruct Ht as ((((((((T1 & T2) & T3) & T4) & T5) & T6) & T7) & T8) & T9).
  destruct (unwrap_payload_run item w) as (l0 & U). rewrite Hp in U.
  unfold BugRepository._collection_item_to_bug.
  rewrite (bind_run _ _ _ _ _ U), !py_get_dict. cbn.
  rewrite (json_loads_ok_str _ _ Hj), Hj. cbn.
  rewrite ?py_get_dict. cbn.
  destruct (bug_parse_created_at_total (get_or d "__auto_id__" PNone)
              (get_or d "created_at" PNone) (add_logs w l0))
    as (c & l2 & Ec & _).
  rewrite (bind_run _ _ _ _ _ Ec). cbn.
  destruct (bug_parse_updated_at_total (get_or d "__auto_id__" PNone)
              (get_or data "updatedAt" PNone) c (add_logs (add_logs w l0) l2))
    as (u & l3 & Eu & _).
  rewrite (bind_run _ _ _ _ _ Eu).
  unfold Bug.init. rewrite Hi, Hn. cbn [bind_result].
  destruct (as_str_typed "description" data "description" "" T1) as (x1 & ->).
  destruct (as_str_typed "projectId" data "projectId" "" T5) as (x5 & ->).
  destruct (as_str_typed "reportedBy" data "reportedBy" "" T6) as (x6 & ->).
  destruct (as_opt_str_typed "assignedTo" data "assignedTo" T7) as (x7 & ->).
  destruct (as_enum_typed "status" data "status" "Open" T2) as (x2 & ->).
  destruct (as_enum_typed "priority" data "priority" "Medium" T3) as (x3 & ->).
  destruct (as_enum_typed "severity" data "severity" "Minor" T4) as (x4 & ->).
  destruct (as_str_list_typed "tags" data "tags" T8) as (x8 & ->).
  destruct (as_bool_typed "validated" data "validated" T9) as (x9 & ->).
  cbn. eexists _, _. reflexivity.
Qed.

(** ** Items that do not decode *)

(** An item whose description is not JSON is skipped by every list
    operation, with a warning. *)
Lemma unparseable_skipped (w : world) (item : pyval) (s msg : string) :
  py_get item "description" (PStr "") = Ok (PStr s) ->
  s <> ""%string ->
  json_loads (PStr s) = Raise (JSONDecodeError msg) ->
  (forall p st a, fst (BugRepository.keeps p st a item w) = Ok false)
  /\ (forall b, fst (CommentRepository.keeps b item w) = Ok false)
  /\ (forall b, fst (ActivityLogRepository.keeps_bug b item w) = Ok false)
  /\ fst (ActivityLogRepository.keeps item w) = Ok false.
Proof.
  intros Hd Hs Hj. destruct s as [ | c s]; [ congruence | ].
  unfold BugRepository.keeps, CommentRepository.keeps,
    ActivityLogRepository.keeps_bug, ActivityLogRepository.keeps.
  repeat split; intros; rewrite Hd; cbn; rewrite Hj; reflexivity.
Qed.

(** The same collection with and without an item that is not JSON
    lists the same bugs. *)
Lemma garbled_item_dropped :
  fst (BugRepository.get_all None None None
         (Sample.with_item Sample.garbled_item))
  = fst (BugRepository.get_all None None None
           (Sample.world_of
              [("i1", Sample.item "i1" Sample.bug_text
                                  (PStr "2024-01-15T12:00:00+00:00"))]))
  /\ List.length (Sample.returned (BugRepository.get_all None None None)
                    (Sample.with_item Sample.garbled_item)) = 1%nat.
Proof. split; vm_compute; reflexivity. Qed.

Lemma bind_fst_congr {A B} (m m' : M A) (k : A -> M B) (w w' : world) :
  clock_only m -> clock_only m' -> (forall a, clock_only (k a)) ->
  clock w = clock w' -> fst (m w) = fst (m' w') ->
  fst (bind m k w) = fst (bind m' k w').
Proof.
  intros Hm Hm' Hk Ec E.
  destruct (clock_only_run m w Hm) as (r & l & R).
  destruct (clock_only_run m' w' Hm') as (r' & l' & R').
  rewrite R, R' in E. cbn in E. subst r'.
  unfold bind. rewrite R, R'. destruct r as [a | e]; [ | reflexivity ].
  apply clock_only_fst; [ apply Hk | exact Ec ].
Qed.

(** An item on which the test answers no leaves the loop's outcome as
    it is without the item. *)
Lemma filter_items_skip (keep : pyval -> M bool) (l1 l2 : list pyval)
    (x : pyval) (w : world) :
  (forall item, clock_only (keep item)) ->
  (forall w', fst (keep x w') = Ok false) ->
  fst (filter_items keep (l1 ++ x :: l2)%list w)
  = fst (filter_items keep (l1 ++ l2)%list w).
Proof.
  intros Hk Hx. revert w.
  induction l1 as [ | a l1 IH]; intros w.
  - cbn [app]. unfold filter_items at 1. fold (filter_items keep).
    destruct (clock_only_run (keep x) w (Hk x)) as (r & l & R).
    pose proof (Hx w) as E. rewrite R in E. cbn in E. subst r.
    rewrite (bind_run _ _ _ _ _ R).
    destruct (clock_only_run _ (add_logs w l)
                (filter_items_clock_only keep l2 Hk)) as (r & l' & F).
    transitivity (fst (filter_items keep l2 (add_logs w l))).
    + rewrite F. unfold bind. rewrite F. now destruct r.
    + apply clock_only_fst; [ now apply filter_items_clock_only | ].
      apply clock_add_logs.
  - cbn [app]. unfold filter_items. fold (filter_items keep).
    destruct (clock_only_run (keep a) w (Hk a)) as (r & l & R).
    destruct r as [k | e].
    + rewrite !(bind_run _ _ _ _ _ R).
      specialize (IH (add_logs w l)).
      destruct (filter_items keep (l1 ++ x :: l2)%list (add_logs w l))
        as [r1 w1] eqn:F1.
      destruct (filter_items keep (l1 ++ l2)%list (add_logs w l))
        as [r2 w2] eqn:F2.
      cbn in IH. subst r2. unfold bind. rewrite F1, F2.
      now destruct r1.
    + now rewrite !(bind_raise _ _ _ _ _ R).
Qed.

Lemma unparseable_not_kept (item : pyval) (w : world) :
  unparseable item ->
  (forall p st a, fst (BugRepository.keeps p st a item w) = Ok false)
  /\ (forall b, fst (CommentRepository.keeps b item w) = Ok false)
  /\ (forall b, fst (ActivityLogRepository.keeps_bug b item w) = Ok false)
  /\ fst (ActivityLogRepository.keeps item w) = Ok false.
Proof.
  intros (c & s & msg & Hd & Hj).
  apply (unparseable_skipped w item (String c s) msg Hd); [ | exact Hj ].
  discriminate.
Qed.

Lemma listing_skips {B} (keep : pyval -> M bool) (rest : list pyval -> M B)
    (s1 s2 : list (string * pyval)) (item_id : string) (bad : pyval)
    (w w' : world) :
  (forall item, clock_only (keep item)) ->
  (forall kept_items, clock_only (rest kept_items)) ->
  (forall w0, fst (keep bad w0) = Ok false) ->
  clock w' = clock w ->
  fst (bind (filter_items keep (map snd (s1 ++ (item_id, bad) :: s2)%list))
            rest w')
  = fst (bind (filter_items keep (map snd (s1 ++ s2)%list)) rest w).
Proof.
  intros Hk Hr Hb E.
  apply bind_fst_congr; try assumption;
    try (now apply filter_items_clock_only).
  rewrite !map_app. cbn [map snd].
  rewrite filter_items_skip by assumption.
  apply clock_only_fst; [ now apply filter_items_clock_only | exact E ].
Qed.

(** An item whose description is not JSON changes the outcome of no
    list operation, wherever it stands in the collection: each returns
    (or raises) what it does on the collection without the item. *)
Lemma unparseable_item_ignored (w : world) (s1 s2 : list (string * pyval))
    (item_id : string) (bad : pyval) :
  unparseable bad ->
  store w = (s1 ++ s2)%list ->
  let w' := with_store w (s1 ++ (item_id, bad) :: s2)%list in
  (forall p st a, fst (BugRepository.get_all p st a w')
                  = fst (BugRepository.get_all p st a w))
  /\ (forall b, fst (CommentRepository.get_by_bug_id b w')
                = fst (CommentRepository.get_by_bug_id b w))
  /\ (forall b, fst (ActivityLogRepository.get_by_bug_id b w')
                = fst (ActivityLogRepository.get_by_bug_id b w))
  /\ fst (ActivityLogRepository.get_all w')
     = fst (ActivityLogRepository.get_all w).
Proof.
  intros Hb Hs w'.
  assert (K := fun w0 => unparseable_not_kept bad w0 Hb).
  unfold BugRepository.get_all, CommentRepository.get_by_bug_id,
    ActivityLogRepository.get_by_bug_id, ActivityLogRepository.get_all.
  repeat split; intros; cbn; rewrite Hs.
  - apply listing_skips; [ auto with clock | intros; clock_only | | reflexivity ].
    intros w0. apply (K w0).
  - apply listing_skips; [ auto with clock | intros; clock_only | | reflexivity ].
    intros w0. apply (K w0).
  - apply listing_skips; [ auto with clock | intros; clock_only | | reflexivity ].
    intros w0. apply (K w0).
  - apply listing_skips; [ auto with clock | intros; clock_only | | reflexivity ].
    intros w0. apply (K w0).
Qed.

(** C3, at the failing input: a description that is valid JSON but not
    an object makes every list operation raise [AttributeError] instead
    of skipping the item; a description that is not a string makes the
    comment and activity-log listings raise [TypeError], while the bug
    listing skips it. *)
Theorem C3_listing_raises_on_undecodable_item :
  fst (BugRepository.get_all None None None
         (Sample.with_item Sample.array_item)) = Raise no_get_list
  /\ fst (CommentRepository.get_by_bug_id "b1"
            (Sample.with_item Sample.array_item)) = Raise no_get_list
  /\ fst (ActivityLogRepository.get_by_bug_id "b1"
            (Sample.with_item Sample.array_item)) = Raise no_get_list
  /\ fst (ActivityLogRepository.get_all
            (Sample.with_item Sample.array_item)) = Raise no_get_list
  /\ fst (CommentRepository.get_by_bug_id "b1"
            (Sample.with_item Sample.object_item))
     = Raise (TypeError
                "the JSON object must be str, bytes or bytearray, not dict")
  /\ fst (ActivityLogRepository.get_all
            (Sample.with_item Sample.object_item))
     = Raise (TypeError
                "the JSON object must be str, bytes or bytearray, not dict")
  /\ List.length (Sample.returned (BugRepository.get_all None None None)
                    (Sample.with_item Sample.object_item)) = 1%nat.
Proof. repeat split; vm_compute; reflexivity. Qed.

(** An unparseable description raises the malformed-envelope error,
    which carries the id of the item. *)
Lemma malformed_envelope_raises (w : world) (item : pyval)
    (d : list (string * pyval)) (s msg : string) :
  payload_of item = PDict d ->
  get_or d "description" (PStr "{}") = PStr s ->
  json_loads (PStr s) = Raise (JSONDecodeError msg) ->
  (exists e, fst (BugRepository._collection_item_to_bug item w) = Raise e
             /\ MalformedEnvelope (get_or d "__auto_id__" PNone) e)
  /\ (exists e,
        fst (CommentRepository._collection_item_to_comment item w) = Raise e
        /\ MalformedEnvelope (get_or d "__auto_id__" PNone) e)
  /\ (exists e,
        fst (ActivityLogRepository._collection_item_to_activity_log item w)
        = Raise e
        /\ MalformedEnvelope (get_or d "__auto_id__" PNone) e).
Proof.
  intros Hp Hd Hj.
  destruct (unwrap_payload_run item w) as (l0 & U). rewrite Hp in U.
  unfold BugRepository._collection_item_to_bug,
    CommentRepository._collection_item_to_comment,
    ActivityLogRepository._collection_item_to_activity_log.
  rewrite !(bind_run _ _ _ _ _ U), !py_get_dict. cbn.
  rewrite !Hd. cbn. rewrite !Hj. cbn.
  unfold MalformedEnvelope.
  repeat split; eexists; (split; [ reflexivity | ]).
  - exists "Invalid bug data for bug_id '{bug_id}", msg. reflexivity.
  - exists "Invalid comment data for comment_id '{comment_id}", msg.
    reflexivity.
  - exists "Invalid activity log data for log_id '{log_id}", msg.
    reflexivity.
Qed.

(** C4, at the failing input: a description that is valid JSON but not
    an object makes the single-item decoders, and [get_by_id], raise
    [AttributeError], which is not the malformed-envelope error. *)
Theorem C4_decode_raises_on_non_object_json :
  json_loads (PStr "[]") = Ok (PList [])
  /\ fst (BugRepository._collection_item_to_bug Sample.array_item
                                                Sample.empty_world)
     = Raise no_get_list
  /\ fst (CommentRepository._collection_item_to_comment Sample.array_item
                                                        Sample.empty_world)
     = Raise no_get_list
  /\ fst (ActivityLogRepository._collection_item_to_activity_log
            Sample.array_item Sample.empty_world)
     = Raise no_get_list
  /\ fst (BugRepository.get_by_id "x" (Sample.with_item Sample.array_item))
     = Raise no_get_list
  /\ ~ MalformedEnvelope (PStr "i7") no_get_list.
Proof.
  repeat split; try (vm_compute; reflexivity).
  intros (prefix & msg & H). discriminate H.
Qed.

(** When a listing returns, it is in the order asked for. *)
Lemma listings_sorted (w w' : world) :
  (forall bug_id comments,
      CommentRepository.get_by_bug_id bug_id w = (Ok comments, w') ->
      ascending (map Comment.createdAt comments))
  /\ (forall bug_id entries,
        ActivityLogRepository.get_by_bug_id bug_id w = (Ok entries, w') ->
        descending (map ActivityLog.timestamp entries))
  /\ (forall entries,
        ActivityLogRepository.get_all w = (Ok entries, w') ->
        descending (map ActivityLog.timestamp entries)).
Proof.
  repeat split; intros.
  - apply comment_get_by_bug_id_ok in H as (decoded & _ & S).
    now apply list_sort_ok in S as (_ & S).
  - apply activity_log_get_by_bug_id_ok in H as (decoded & _ & S).
    now apply list_sort_ok in S as (_ & S).
  - apply activity_log_get_all_ok in H as (decoded & _ & S).
    now apply list_sort_ok in S as (_ & S).
Qed.

(** C8, at the failing input: with one log entry stored under a naive
    time and one under a time with a UTC offset, be it by two calls of
    [create], the activity-log listings raise [TypeError] instead of
    returning the two entries newest first.  The comment listing, which
    attaches UTC to a naive time, returns its two comments oldest
    first. *)
Theorem C8_sort_raises_on_naive_and_aware :
  fst (ActivityLogRepository.get_all Sample.naive_and_aware)
  = Raise naive_aware
  /\ fst (ActivityLogRepository.get_by_bug_id "b1" Sample.naive_and_aware)
     = Raise naive_aware
  /\ fst (Sample.two_logs_then_list Sample.empty_world) = Raise naive_aware
  /\ map Comment.id
         (Sample.returned (CommentRepository.get_by_bug_id "b1")
                          Sample.naive_and_aware)
     = [Some "i4"; Some "i3"].
Proof. repeat split; vm_compute; reflexivity. Qed.
